(** * Budget tracker: the storage manager of [src/js/storage.js]

    A shallow embedding of the [StorageManager] class and of the parts of
    the JavaScript runtime it calls ([Date], [Array], [localStorage]),
    followed by the properties of the repository layer.

    JavaScript numbers holding amounts are IEEE 754 doubles: the kernel's
    primitive floats.  Time values are integers (milliseconds since the
    epoch), an invalid [Date] (time value [NaN]) is [None]. *)

From Stdlib Require Import ZArith Lia Ascii.
From Stdlib Require Import Floats.PrimFloat.
From stdpp Require Import gmap strings list fin_maps pretty.

Local Open Scope Z_scope.

(** ** The [Date] object of ECMA-262 (section "Date Objects")

    [new Date(...)] of the source is modelled by its time value.  The local
    time zone is a fixed offset [LocalTZA] from UTC (no daylight saving
    transitions). *)

Module JsDate.

Definition msPerDay : Z := 86400000.

Definition Day (t : Z) : Z := t / msPerDay.
Definition TimeWithinDay (t : Z) : Z := t mod msPerDay.

Definition isLeapYear (y : Z) : bool :=
  if negb (y mod 4 =? 0) then false
  else if negb (y mod 100 =? 0) then true
  else if negb (y mod 400 =? 0) then false
  else true.

Definition DaysInYear (y : Z) : Z := if isLeapYear y then 366 else 365.

Definition DayFromYear (y : Z) : Z :=
  365 * (y - 1970) + (y - 1969) / 4 - (y - 1901) / 100 + (y - 1601) / 400.

Definition TimeFromYear (y : Z) : Z := msPerDay * DayFromYear y.

(** The largest [y] with [TimeFromYear y <= t]: an estimate from the mean
    length of a year, corrected by at most one year. *)
Definition YearFromDay (d : Z) : Z :=
  let y0 := 1970 + (d * 400) / 146097 in
  if DayFromYear (y0 + 1) <=? d then y0 + 1
  else if DayFromYear y0 <=? d then y0
  else y0 - 1.

Definition YearFromTime (t : Z) : Z := YearFromDay (Day t).

Definition InLeapYear (t : Z) : Z :=
  if isLeapYear (YearFromTime t) then 1 else 0.

Definition DayWithinYear (t : Z) : Z :=
  Day t - DayFromYear (YearFromTime t).

(** Number of days of the year before month [m] (0 = January). *)
Definition DaysBeforeMonth (leap : Z) (m : Z) : Z :=
  if m <=? 0 then 0
  else if m =? 1 then 31
  else if m =? 2 then 59 + leap
  else if m =? 3 then 90 + leap
  else if m =? 4 then 120 + leap
  else if m =? 5 then 151 + leap
  else if m =? 6 then 181 + leap
  else if m =? 7 then 212 + leap
  else if m =? 8 then 243 + leap
  else if m =? 9 then 273 + leap
  else if m =? 10 then 304 + leap
  else if m =? 11 then 334 + leap
  else 365 + leap.

Definition MonthFromTime (t : Z) : Z :=
  let d := DayWithinYear t in
  let leap := InLeapYear t in
  if d <? 31 then 0
  else if d <? 59 + leap then 1
  else if d <? 90 + leap then 2
  else if d <? 120 + leap then 3
  else if d <? 151 + leap then 4
  else if d <? 181 + leap then 5
  else if d <? 212 + leap then 6
  else if d <? 243 + leap then 7
  else if d <? 273 + leap then 8
  else if d <? 304 + leap then 9
  else if d <? 334 + leap then 10
  else 11.

Definition DateFromTime (t : Z) : Z :=
  DayWithinYear t - DaysBeforeMonth (InLeapYear t) (MonthFromTime t) + 1.

(** [MakeDay(year, month, date)]: months outside 0..11 carry into the
    year, the day of the month is added as an offset. *)
Definition MakeDay (year month date : Z) : Z :=
  let ym := year + month / 12 in
  let mn := month mod 12 in
  DayFromYear ym + DaysBeforeMonth (if isLeapYear ym then 1 else 0) mn
    + date - 1.

Definition MakeDate (day time : Z) : Z := day * msPerDay + time.

Definition TimeClip (t : Z) : option Z :=
  if Z.abs t <=? 8640000000000000 then Some t else None.

Section Zone.
(** Offset of local time from UTC, in milliseconds. *)
Variable LocalTZA : Z.

Definition LocalTime (t : Z) : Z := t + LocalTZA.
Definition UTC (t : Z) : Z := t - LocalTZA.

(** [new Date(year, month, date)]: local midnight of that day. *)
Definition Date_ymd (year month : option Z) (date : Z) : option Z :=
  y ← year; m ← month;
  let yr := if (0 <=? y) && (y <=? 99) then 1900 + y else y in
  TimeClip (UTC (MakeDate (MakeDay yr m date) 0)).

Definition getFullYear (d : option Z) : option Z :=
  t ← d; Some (YearFromTime (LocalTime t)).

Definition getMonth (d : option Z) : option Z :=
  t ← d; Some (MonthFromTime (LocalTime t)).

(** [d.setFullYear(year)] with a possibly [NaN] argument; the new time
    value of [d]. *)
Definition setFullYear (d : option Z) (year : option Z) : option Z :=
  let t := match d with Some t => LocalTime t | None => 0 end in
  y ← year;
  TimeClip (UTC (MakeDate (MakeDay y (MonthFromTime t) (DateFromTime t))
                          (TimeWithinDay t))).
End Zone.

(** A date-only string [YYYY-MM-DD], as an [<input type="date">] yields
    it, by its three fields. *)
Record DateString : Type := mkDateString
  { ds_year : Z; ds_month : Z; ds_day : Z }.

Definition DaysInMonth (y m : Z) : Z :=
  if m =? 2 then (if isLeapYear y then 29 else 28)
  else if (m =? 4) || (m =? 6) || (m =? 9) || (m =? 11) then 30
  else 31.

Definition legal (s : DateString) : bool :=
  (0 <=? ds_year s) && (ds_year s <=? 9999)
  && (1 <=? ds_month s) && (ds_month s <=? 12)
  && (1 <=? ds_day s) && (ds_day s <=? DaysInMonth (ds_year s) (ds_month s)).

(** [Date.parse] of a date-only form: UTC midnight of the day; illegal
    element values give [NaN].  Engines differ on a day past the end of
    its month (up to 31): the language definition reads it as [NaN], as
    here, while some engines roll it over into the next month.  What is
    proved about dates below is proved for [legal] date strings, on which
    they agree. *)
Definition Date_parse (s : DateString) : option Z :=
  if legal s
  then TimeClip (MakeDate (MakeDay (ds_year s) (ds_month s - 1) (ds_day s)) 0)
  else None.

(** Relational operators on two [Date] objects compare time values; a
    comparison with [NaN] is false. *)
Definition ge (a b : option Z) : bool :=
  match a, b with Some x, Some y => y <=? x | _, _ => false end.
Definition le (a b : option Z) : bool :=
  match a, b with Some x, Some y => x <=? y | _, _ => false end.

(** Calendar order of date strings. *)
Definition cal_le (a b : DateString) : Prop :=
  ds_year a < ds_year b
  \/ (ds_year a = ds_year b /\ ds_month a < ds_month b)
  \/ (ds_year a = ds_year b /\ ds_month a = ds_month b /\ ds_day a <= ds_day b).

End JsDate.

(** ** JavaScript values used by the storage manager *)

Module Js.

(** [!x] for a property holding a string or [undefined]. *)
Definition falsy_string (x : option string) : bool :=
  match x with
  | None => true
  | Some s => if decide (s = "") then true else false
  end.

Definition is_nan (x : float) : bool := negb (PrimFloat.eqb x x).

(** [!x] for a property holding a number or [undefined]: [undefined],
    [0], [-0] and [NaN] are falsy. *)
Definition falsy_number (x : option float) : bool :=
  match x with
  | None => true
  | Some v => PrimFloat.eqb v 0%float || is_nan v
  end.

(** [x + y] where [x] may be [undefined]: [undefined + y] is [NaN]. *)
Definition add_undef (x : option float) (y : float) : float :=
  match x with
  | Some v => PrimFloat.add v y
  | None => PrimFloat.nan
  end.

(** [Array.prototype.findIndex]; [None] stands for [-1]. *)
Fixpoint findIndex {A} (p : A -> bool) (l : list A) : option nat :=
  match l with
  | [] => None
  | x :: r => if p x then Some O else S <$> findIndex p r
  end.

(** [s.padStart(n, c)] for a one-character pad [c]. *)
Fixpoint padStart_aux (k : nat) (c : ascii) (s : string) : string :=
  match k with
  | O => s
  | S k' => String c (padStart_aux k' c s)
  end.
Definition padStart (n : nat) (c : ascii) (s : string) : string :=
  padStart_aux (n - String.length s) c s.

Definition digit36 (n : N) : ascii :=
  if (n <? 10)%N then ascii_of_N (48 + n) else ascii_of_N (87 + n).

Fixpoint toString36_aux (fuel : nat) (n : N) (acc : string) : string :=
  let acc' := String (digit36 (n mod 36)%N) acc in
  match fuel with
  | O => acc'
  | S f => if (n / 36 =? 0)%N then acc' else toString36_aux f (n / 36)%N acc'
  end.

(** [n.toString(36)] for an integer [n]. *)
Definition toString36 (n : Z) : string :=
  match n with
  | Z0 => "0"
  | Zpos p => toString36_aux (Pos.size_nat p) (Npos p) ""
  | Zneg p => String "-" (toString36_aux (Pos.size_nat p) (Npos p) "")
  end.

(** What [JSON.parse(JSON.stringify(x))] leaves of a number property, as
    [parseFloat] reads it afterwards.  [JSON.stringify] writes [NaN],
    [Infinity] and [-Infinity] as [null], which [parseFloat] reads as
    [NaN], and it writes [-0] as [0]; every other number is written with
    digits that read back as the same number. *)
Definition JSON_number (x : float) : float :=
  if PrimFloat.is_nan x || PrimFloat.is_infinity x then PrimFloat.nan
  else if PrimFloat.is_zero x then 0%float
  else x.

(** The property names of [Object.prototype].  A plain object used as a
    map answers a lookup under one of them with the inherited member, not
    with an entry of its own. *)
Definition Object_prototype_names : list string :=
  [ "constructor"; "__defineGetter__"; "__defineSetter__"; "hasOwnProperty";
    "__lookupGetter__"; "__lookupSetter__"; "isPrototypeOf";
    "propertyIsEnumerable"; "toString"; "valueOf"; "__proto__";
    "toLocaleString" ].

(** [x || 0] for a property holding a number or [undefined]. *)
Definition orZero (x : option float) : float :=
  if falsy_number x then 0%float
  else match x with Some v => v | None => 0%float end.

End Js.

(** ** Records and the persisted collections *)

Import JsDate.

(** A transaction object.  [tx_amount] is the number held under
    [amount] (the forms store [parseFloat] of the field); a [null] that
    JSON left there is kept as [NaN], which is what [parseFloat] reads
    from it.  On a record read from the store [parseFloat(t.amount)] is
    the number itself.  [createdAt] and [updatedAt] hold the instant
    whose ISO rendering the property stores ([None]: property absent). *)
Record Transaction : Type := mkTransaction
  { tx_id : option string;
    tx_type : string;
    tx_amount : float;
    tx_category : string;
    tx_description : string;
    tx_date : DateString;
    tx_createdAt : option Z;
    tx_updatedAt : option Z }.

Record Budget : Type := mkBudget
  { bg_id : option string;
    bg_category : string;
    bg_amount : float;
    bg_period : string;
    bg_startDate : DateString;
    bg_createdAt : option Z;
    bg_updatedAt : option Z }.

(** The value kept under the categories key: the mapping from type to
    category names, or an array (the [[]] that [getCategories] falls back
    to is one). *)
Inductive Categories : Type :=
  | CatObject (m : gmap string (list string))
  | CatArray (l : list string).

(** [categories.length]: a number for an array; for the mapping it is
    [undefined] (or the array under a type named "length"), never [0]. *)
Definition Categories_length (c : Categories) : option nat :=
  match c with
  | CatObject _ => None
  | CatArray l => Some (length l)
  end.

(** [this.storageKeys] *)
Inductive storageKeys : Type := transactions | budgets | categories.

Definition Data (k : storageKeys) : Type :=
  match k with
  | transactions => list Transaction
  | budgets => list Budget
  | categories => Categories
  end.

(** ** The JSON round trip

    The store keeps text: [setItem] is handed [JSON.stringify(data)] and
    every read goes through [JSON.parse].  Strings, arrays and absent
    properties come back as they were written; the [amount] goes through
    [Js.JSON_number]. *)
Definition JSON_transaction (t : Transaction) : Transaction :=
  mkTransaction (tx_id t) (tx_type t) (Js.JSON_number (tx_amount t))
    (tx_category t) (tx_description t) (tx_date t)
    (tx_createdAt t) (tx_updatedAt t).

Definition JSON_budget (b : Budget) : Budget :=
  mkBudget (bg_id b) (bg_category b) (Js.JSON_number (bg_amount b))
    (bg_period b) (bg_startDate b) (bg_createdAt b) (bg_updatedAt b).

(** [JSON.parse(JSON.stringify(data))] for the value of a key. *)
Definition JSON_roundtrip (k : storageKeys) : Data k -> Data k :=
  match k with
  | transactions => map JSON_transaction
  | budgets => map JSON_budget
  | categories => fun c => c
  end.

(** [localStorage], restricted to the three keys of the application; a
    slot holds what [JSON.parse] gives back for the stored text. *)
Record LocalStorage : Type := mkLocalStorage
  { budget_app_transactions : option (list Transaction);
    budget_app_budgets : option (list Budget);
    budget_app_categories : option Categories }.

Definition getItem (k : storageKeys) (ls : LocalStorage) : option (Data k) :=
  match k with
  | transactions => budget_app_transactions ls
  | budgets => budget_app_budgets ls
  | categories => budget_app_categories ls
  end.

Definition putItem (k : storageKeys) (v : option (Data k)) (ls : LocalStorage)
  : LocalStorage :=
  match k return option (Data k) -> LocalStorage with
  | transactions => fun v =>
      mkLocalStorage v (budget_app_budgets ls) (budget_app_categories ls)
  | budgets => fun v =>
      mkLocalStorage (budget_app_transactions ls) v (budget_app_categories ls)
  | categories => fun v =>
      mkLocalStorage (budget_app_transactions ls) (budget_app_budgets ls) v
  end v.

(** ** The environment and the state of the page

    What the code cannot decide is read from an oracle indexed by the number
    of effects performed so far: the clock, the random digits, and whether
    [localStorage.setItem] throws (quota exceeded, storage disabled). *)

Record Env : Type := mkEnv
  { Date_now : nat -> Z;
    Math_random36 : nat -> string;
    setItem_throws : nat -> bool;
    LocalTZA : Z }.

Record World : Type := mkWorld
  { env : Env;
    tick : nat;
    localStorage : LocalStorage }.

Definition M (A : Type) : Type := World -> A * World.

Definition ret {A} (a : A) : M A := fun w => (a, w).
Definition bind {A B} (m : M A) (k : A -> M B) : M B :=
  fun w => let (a, w') := m w in k a w'.

Notation "'do' x <- m ; k" := (bind m (fun x => k))
  (at level 10, x name, m at level 100, k at level 200).
Notation "'do' ' p <- m ; k" := (bind m (fun x => match x with p => k end))
  (at level 10, p pattern, m at level 100, k at level 200).

Definition advance (w : World) : World :=
  mkWorld (env w) (S (tick w)) (localStorage w).

(** [Date.now()] and the time value of [new Date()]. *)
Definition now : M Z := fun w => (Date_now (env w) (tick w), advance w).

(** [Math.random().toString(36).substr(2)]: the base-36 digits after the
    point. *)
Definition random36 : M string :=
  fun w => (Math_random36 (env w) (tick w), advance w).

(** [localStorage.setItem(key, JSON.stringify(data))]: the slot receives
    what the written text reads back as.  The result tells whether the
    call returned ([true]) or threw, in which case nothing is stored. *)
Definition setItem (k : storageKeys) (data : Data k) : M bool :=
  fun w =>
    if setItem_throws (env w) (tick w) then (false, advance w)
    else (true, mkWorld (env w) (S (tick w))
                  (putItem k (Some (JSON_roundtrip k data)) (localStorage w))).

Definition removeItem (k : storageKeys) : M unit :=
  fun w => (tt, mkWorld (env w) (tick w) (putItem k None (localStorage w))).

Definition read {A} (f : LocalStorage -> A) : M A :=
  fun w => (f (localStorage w), w).

Definition tza : M Z := fun w => (LocalTZA (env w), w).

(** ** The storage manager *)

Module StorageManager.

Definition defaultCategories : gmap string (list string) :=
  <[ "expense" :=
       [ "Food & Dining"; "Transportation"; "Shopping"; "Entertainment";
         "Bills & Utilities"; "Healthcare"; "Education"; "Travel";
         "Housing"; "Insurance"; "Personal Care"; "Gifts & Donations";
         "Other" ] ]>
  (<[ "income" :=
       [ "Salary"; "Freelance"; "Business"; "Investments";
         "Rental Income"; "Bonuses"; "Other Income" ] ]> ∅).

(** [saveToStorage]: the exception of [setItem] is caught and reported
    as [false]. *)
Definition saveToStorage (key : storageKeys) (data : Data key) : M bool :=
  do ok <- setItem key data;
  ret ok.

(** [loadFromStorage]: [JSON.parse] of the text under the key, [None]
    standing for [null].  The slot is read as text, so whatever it holds
    only a value that JSON can write is ever read. *)
Definition loadFromStorage (key : storageKeys) (ls : LocalStorage)
  : option (Data key) :=
  JSON_roundtrip key <$> getItem key ls.

Definition generateId : M string :=
  do t <- now;
  do r <- random36;
  ret (Js.toString36 t +:+ r).

(** *** Transactions *)

Definition getTransactions (ls : LocalStorage) : list Transaction :=
  default [] (loadFromStorage transactions ls).

Definition tx_set_new (i : string) (c : Z) (t : Transaction) : Transaction :=
  mkTransaction (Some i) (tx_type t) (tx_amount t) (tx_category t)
    (tx_description t) (tx_date t) (Some c) (tx_updatedAt t).

Definition tx_set_updatedAt (u : Z) (t : Transaction) : Transaction :=
  mkTransaction (tx_id t) (tx_type t) (tx_amount t) (tx_category t)
    (tx_description t) (tx_date t) (tx_createdAt t) (Some u).

(** [saveTransaction]: the result is the returned boolean together with
    the object the caller passed, as the call leaves it. *)
Definition saveTransaction (transaction : Transaction)
  : M (bool * Transaction) :=
  do txs <- read getTransactions;
  do transaction <-
    (if Js.falsy_string (tx_id transaction)
     then do i <- generateId;
          do c <- now;
          ret (tx_set_new i c transaction)
     else ret transaction);
  do u <- now;
  let transaction := tx_set_updatedAt u transaction in
  let existingIndex :=
    Js.findIndex (fun t => bool_decide (tx_id t = tx_id transaction)) txs in
  let txs :=
    match existingIndex with
    | Some i => <[ i := transaction ]> txs
    | None => txs ++ [transaction]
    end in
  do ok <- saveToStorage transactions txs;
  ret (ok, transaction).

Definition deleteTransaction (transactionId : string) : M bool :=
  do txs <- read getTransactions;
  let filteredTransactions :=
    List.filter (fun t => negb (bool_decide (tx_id t = Some transactionId)))
      txs in
  saveToStorage transactions filteredTransactions.

Definition getTransactionById (transactionId : string) (ls : LocalStorage)
  : option Transaction :=
  List.find (fun t => bool_decide (tx_id t = Some transactionId))
    (getTransactions ls).

(** An argument that [new Date(...)] accepts: a date string or a [Date]
    object (which is copied). *)
Inductive DateArg : Type :=
  | DateStr (s : DateString)
  | DateObj (d : option Z).

Definition new_Date (a : DateArg) : option Z :=
  match a with
  | DateStr s => Date_parse s
  | DateObj d => d
  end.

Definition inRange (startDate endDate : DateArg) (t : Transaction) : bool :=
  let transactionDate := Date_parse (tx_date t) in
  JsDate.ge transactionDate (new_Date startDate)
  && JsDate.le transactionDate (new_Date endDate).

Definition getTransactionsByDateRange (startDate endDate : DateArg)
    (ls : LocalStorage) : list Transaction :=
  List.filter (inRange startDate endDate) (getTransactions ls).

Definition getTransactionsByCategory (category : string) (ls : LocalStorage)
  : list Transaction :=
  List.filter (fun t => bool_decide (tx_category t = category))
    (getTransactions ls).

Definition getTransactionsByType (type : string) (ls : LocalStorage)
  : list Transaction :=
  List.filter (fun t => bool_decide (tx_type t = type)) (getTransactions ls).

(** *** Budgets *)

Definition getBudgets (ls : LocalStorage) : list Budget :=
  default [] (loadFromStorage budgets ls).

Definition bg_set_new (i : string) (c : Z) (b : Budget) : Budget :=
  mkBudget (Some i) (bg_category b) (bg_amount b) (bg_period b)
    (bg_startDate b) (Some c) (bg_updatedAt b).

Definition bg_set_updatedAt (u : Z) (b : Budget) : Budget :=
  mkBudget (bg_id b) (bg_category b) (bg_amount b) (bg_period b)
    (bg_startDate b) (bg_createdAt b) (Some u).

Definition saveBudget (budget : Budget) : M (bool * Budget) :=
  do bgs <- read getBudgets;
  do budget <-
    (if Js.falsy_string (bg_id budget)
     then do i <- generateId;
          do c <- now;
          ret (bg_set_new i c budget)
     else ret budget);
  do u <- now;
  let budget := bg_set_updatedAt u budget in
  let existingIndex :=
    Js.findIndex (fun b => bool_decide (bg_id b = bg_id budget)) bgs in
  let bgs :=
    match existingIndex with
    | Some i => <[ i := budget ]> bgs
    | None => bgs ++ [budget]
    end in
  do ok <- saveToStorage budgets bgs;
  ret (ok, budget).

Definition deleteBudget (budgetId : string) : M bool :=
  do bgs <- read getBudgets;
  let filteredBudgets :=
    List.filter (fun b => negb (bool_decide (bg_id b = Some budgetId))) bgs in
  saveToStorage budgets filteredBudgets.

Definition getBudgetById (budgetId : string) (ls : LocalStorage)
  : option Budget :=
  List.find (fun b => bool_decide (bg_id b = Some budgetId)) (getBudgets ls).

(** *** Categories *)

Definition getCategories (ls : LocalStorage) : Categories :=
  default (CatArray []) (loadFromStorage categories ls).

Definition saveCategories (cats : Categories) : M bool :=
  saveToStorage categories cats.

Definition initializeCategories : M unit :=
  do cats <- read getCategories;
  if bool_decide (Categories_length cats = Some O)
  then do _ <- saveCategories (CatObject defaultCategories); ret tt
  else ret tt.

(** [new StorageManager()] *)
Definition constructor : M unit := initializeCategories.

(** *** Analytics helpers *)

(** The optional range of the analytics helpers: the filter is applied
    when both arguments are truthy ([None]: [null] or omitted). *)
Definition restrict (startDate endDate : option DateArg)
    (txs : list Transaction) : list Transaction :=
  match startDate, endDate with
  | Some s, Some e => List.filter (inRange s e) txs
  | _, _ => txs
  end.

Definition sumAmounts (txs : list Transaction) : float :=
  fold_left (fun total t => PrimFloat.add total (tx_amount t)) txs 0%float.

Definition getTotalIncome (startDate endDate : option DateArg)
    (ls : LocalStorage) : float :=
  let txs := getTransactionsByType "income" ls in
  let txs := restrict startDate endDate txs in
  sumAmounts txs.

Definition getTotalExpenses (startDate endDate : option DateArg)
    (ls : LocalStorage) : float :=
  let txs := getTransactionsByType "expense" ls in
  let txs := restrict startDate endDate txs in
  sumAmounts txs.

Definition getNetBalance (startDate endDate : option DateArg)
    (ls : LocalStorage) : float :=
  PrimFloat.sub (getTotalIncome startDate endDate ls)
                (getTotalExpenses startDate endDate ls).

(** One step of the [forEach] of [getSpendingByCategory].  The mapping
    holds the own properties of [categoryTotals]; for a category outside
    [Js.Object_prototype_names] these are all a lookup sees. *)
Definition addToCategory (categoryTotals : gmap string float)
    (transaction : Transaction) : gmap string float :=
  let c := tx_category transaction in
  let categoryTotals :=
    if Js.falsy_number (categoryTotals !! c)
    then <[ c := 0%float ]> categoryTotals
    else categoryTotals in
  <[ c := Js.add_undef (categoryTotals !! c) (tx_amount transaction) ]>
    categoryTotals.

Definition getSpendingByCategory (startDate endDate : option DateArg)
    (ls : LocalStorage) : gmap string float :=
  let txs := getTransactionsByType "expense" ls in
  let txs := restrict startDate endDate txs in
  fold_left addToCategory txs ∅.

(** The key [`${year}-${String(month).padStart(2, '0')}`]. *)
Definition monthKey (year month : Z) : string :=
  pretty year +:+ "-" +:+ Js.padStart 2 "0" (pretty month).

Definition zeroMonth : gmap string float :=
  <[ "income" := 0%float ]> (<[ "expense" := 0%float ]> ∅).

(** The loop [for (let i = 0; i < 12; i++)]. *)
Definition initMonths (year : Z) : gmap string (gmap string float) :=
  fold_left (fun monthlyData i =>
               <[ monthKey year (Z.of_nat i + 1) := zeroMonth ]> monthlyData)
            (seq 0 12) ∅.

(** One step of the [forEach] of [getMonthlySpendingData]. *)
Definition addToMonth (zone year : Z)
    (monthlyData : gmap string (gmap string float))
    (transaction : Transaction) : gmap string (gmap string float) :=
  let transactionDate := Date_parse (tx_date transaction) in
  if bool_decide (getFullYear zone transactionDate = Some year) then
    match getMonth zone transactionDate with
    | Some m =>
        let key := monthKey year (m + 1) in
        match monthlyData !! key with
        | Some entry =>
            <[ key := <[ tx_type transaction :=
                           Js.add_undef (entry !! tx_type transaction)
                                        (tx_amount transaction) ]> entry ]>
              monthlyData
        | None => monthlyData
        end
    | None => monthlyData
    end
  else monthlyData.

(** [getMonthlySpendingData(year)]; [zone] is the [LocalTZA] of the page,
    which the [Date] getters of the loop read. *)
Definition getMonthlySpendingData (year : Z) (zone : Z) (ls : LocalStorage)
  : gmap string (gmap string float) :=
  let txs := getTransactions ls in
  fold_left (addToMonth zone year) txs (initMonths year).

Record BudgetVsActual : Type := mkBudgetVsActual
  { category : string;
    budgetAmount : float;
    actualSpent : float;
    remaining : float;
    percentage : float }.

(** The window of a budget evaluated at the instant [currentDate]. *)
Definition budgetWindow (zone : Z) (currentDate : option Z) (budget : Budget)
  : option Z * option Z :=
  if bool_decide (bg_period budget = "monthly") then
    (Date_ymd zone (getFullYear zone currentDate) (getMonth zone currentDate) 1,
     Date_ymd zone (getFullYear zone currentDate)
              (Z.add 1 <$> getMonth zone currentDate) 0)
  else
    let startDate := Date_parse (bg_startDate budget) in
    let endDate := startDate in
    let endDate := setFullYear zone endDate (Z.add 1 <$> getFullYear zone endDate) in
    (startDate, endDate).

Definition inWindow (startDate endDate : option Z) (t : Transaction) : bool :=
  let transactionDate := Date_parse (tx_date t) in
  JsDate.ge transactionDate startDate && JsDate.le transactionDate endDate
  && bool_decide (tx_type t = "expense").

(** The body of the [forEach] of [getBudgetVsActual] for one budget. *)
Definition budgetRow (budget : Budget) : M BudgetVsActual :=
  do t <- now;
  do zone <- tza;
  let currentDate := Some t in
  let '(startDate, endDate) := budgetWindow zone currentDate budget in
  do txs <- read (getTransactionsByCategory (bg_category budget));
  let categoryTransactions := List.filter (inWindow startDate endDate) txs in
  let actualSpent := sumAmounts categoryTransactions in
  ret (mkBudgetVsActual (bg_category budget) (bg_amount budget) actualSpent
         (PrimFloat.sub (bg_amount budget) actualSpent)
         (PrimFloat.mul (PrimFloat.div actualSpent (bg_amount budget))
                        100%float)).

Fixpoint forEachBudget (bgs : list Budget) (result : list BudgetVsActual)
  : M (list BudgetVsActual) :=
  match bgs with
  | [] => ret result
  | budget :: rest =>
      do row <- budgetRow budget;
      forEachBudget rest (result ++ [row])
  end.

Definition getBudgetVsActual : M (list BudgetVsActual) :=
  do bgs <- read getBudgets;
  forEachBudget bgs [].

(** *** Export / import *)

(** The argument of [importData]: each collection may be missing. *)
Record Snapshot : Type := mkSnapshot
  { s_transactions : option (list Transaction);
    s_budgets : option (list Budget);
    s_categories : option Categories }.

(** [importData]; [None] is a [null] or [undefined] argument, whose
    property access throws into the [catch]. *)
Definition importData (data : option Snapshot) : M bool :=
  match data with
  | None => ret false
  | Some data =>
      do _ <- match s_transactions data with
              | Some v => do _ <- saveToStorage transactions v; ret tt
              | None => ret tt
              end;
      do _ <- match s_budgets data with
              | Some v => do _ <- saveToStorage budgets v; ret tt
              | None => ret tt
              end;
      do _ <- match s_categories data with
              | Some v => do _ <- saveToStorage categories v; ret tt
              | None => ret tt
              end;
      ret true
  end.

Definition clearAllData : M unit :=
  do _ <- removeItem transactions;
  do _ <- removeItem budgets;
  do _ <- removeItem categories;
  initializeCategories.

(** *** Further queries *)

Definition getBudgetByCategory (category : string) (ls : LocalStorage)
  : option Budget :=
  List.find (fun b => bool_decide (bg_category b = category)) (getBudgets ls).

(** The two values of [type] the callers of [getCategoriesByType] pass. *)
Inductive TransactionType : Type := expense | income.

Definition typeName (type : TransactionType) : string :=
  match type with expense => "expense" | income => "income" end.

(** [getCategoriesByType]: [categories[type] || []]; an array has no
    property of either name. *)
Definition getCategoriesByType (type : TransactionType) (ls : LocalStorage)
  : list string :=
  match getCategories ls with
  | CatObject m => default [] (m !! typeName type)
  | CatArray _ => []
  end.

Record ExportedData : Type := mkExportedData
  { x_transactions : list Transaction;
    x_budgets : list Budget;
    x_categories : Categories;
    exportDate : Z }.

Definition exportData : M ExportedData :=
  do txs <- read getTransactions;
  do bgs <- read getBudgets;
  do cats <- read getCategories;
  do t <- now;
  ret (mkExportedData txs bgs cats t).

End StorageManager.

Import StorageManager.

(** ** The application and the charts ([src/js/app.js])

    Only what these methods compute from the store is modelled; what they
    write to the page is not. *)

Module BudgetApp.

(** The values of the transaction form; [transaction_amount] is
    [parseFloat] of the amount field. *)
Record TransactionForm : Type := mkTransactionForm
  { transaction_type : string;
    transaction_amount : float;
    transaction_category : string;
    transaction_description : string;
    transaction_date : DateString }.

(** The object [handleTransactionSubmit] builds and passes to
    [saveTransaction]; [editingTransaction] is [None] for [null]. *)
Definition formTransaction (form : TransactionForm)
    (editingTransaction : option string) : Transaction :=
  let transaction :=
    mkTransaction None (transaction_type form) (transaction_amount form)
      (transaction_category form) (transaction_description form)
      (transaction_date form) None None in
  if Js.falsy_string editingTransaction then transaction
  else mkTransaction editingTransaction (tx_type transaction)
         (tx_amount transaction) (tx_category transaction)
         (tx_description transaction) (tx_date transaction)
         (tx_createdAt transaction) (tx_updatedAt transaction).

Record BudgetForm : Type := mkBudgetForm
  { budget_category : string;
    budget_amount : float;
    budget_period : string;
    budget_start_date : DateString }.

(** The object [handleBudgetSubmit] builds and passes to [saveBudget]. *)
Definition formBudget (form : BudgetForm) (editingBudget : option string)
  : Budget :=
  let budget :=
    mkBudget None (budget_category form) (budget_amount form)
      (budget_period form) (budget_start_date form) None None in
  if Js.falsy_string editingBudget then budget
  else mkBudget editingBudget (bg_category budget) (bg_amount budget)
         (bg_period budget) (bg_startDate budget) (bg_createdAt budget)
         (bg_updatedAt budget).

(** [allCategories] of [populateCategories]. *)
Definition allCategories (ls : LocalStorage) : list string :=
  match getCategories ls with
  | CatObject m => default [] (m !! "expense") ++ default [] (m !! "income")
  | CatArray _ => []
  end.

(** One step of the [forEach] of [generateReport]. *)
Definition addSpending (spendingByCategory : gmap string float)
    (t : Transaction) : gmap string float :=
  <[ tx_category t :=
       PrimFloat.add (Js.orZero (spendingByCategory !! tx_category t))
                     (tx_amount t) ]> spendingByCategory.

(** The figures [generateReport] renders. *)
Record Report : Type := mkReport
  { totalIncome : float;
    totalExpenses : float;
    netBalance : float;
    spendingByCategory : gmap string float;
    totalTransactions : nat;
    recentTransactions : list Transaction }.

(** [generateReport]; the arguments are the values of the two date
    inputs ([None]: empty), the result is [None] when the method only
    shows the notification and returns. *)
Definition generateReport (startDate endDate : option DateString)
    (ls : LocalStorage) : option Report :=
  match startDate, endDate with
  | Some startDate, Some endDate =>
      let txs :=
        getTransactionsByDateRange (DateStr startDate) (DateStr endDate) ls in
      let totalIncome :=
        fold_left (fun sum t => PrimFloat.add sum (tx_amount t))
          (List.filter (fun t => bool_decide (tx_type t = "income")) txs)
          0%float in
      let totalExpenses :=
        fold_left (fun sum t => PrimFloat.add sum (tx_amount t))
          (List.filter (fun t => bool_decide (tx_type t = "expense")) txs)
          0%float in
      let netBalance := PrimFloat.sub totalIncome totalExpenses in
      let spendingByCategory :=
        fold_left addSpending
          (List.filter (fun t => bool_decide (tx_type t = "expense")) txs) ∅ in
      Some (mkReport totalIncome totalExpenses netBalance spendingByCategory
              (length txs) (take 10 txs))
  | _, _ => None
  end.

(** What [loadBudgets] puts on the cards: for each row of
    [getBudgetVsActual] the row and the budget ([budgetInfo]) whose period
    and id the card and its Edit and Delete buttons carry; [None] when the
    placeholder for an empty collection is shown instead. *)
Definition loadBudgets : M (option (list (BudgetVsActual * option Budget))) :=
  do bgs <- read getBudgets;
  do budgetData <- getBudgetVsActual;
  if bool_decide (length bgs = O) then ret None
  else
    ret (Some (map (fun budget =>
                      let budgetInfo :=
                        List.find
                          (fun b => bool_decide (bg_category b = category budget))
                          bgs in
                      (budget, budgetInfo))
                   budgetData)).

(** [formatDateForInput]: the date part of [toISOString()], that is the
    UTC calendar date of the instant (years of four digits). *)
Definition formatDateForInput (date : Z) : DateString :=
  mkDateString (YearFromTime date) (MonthFromTime date + 1) (DateFromTime date).

(** [loadReports]: the values written to the start and end date inputs
    of the report ([None] when [new Date(...)] is invalid). *)
Definition loadReports : M (option DateString * DateString) :=
  do t <- now;
  do zone <- tza;
  let today := Some t in
  let firstDayOfMonth :=
    Date_ymd zone (getFullYear zone today) (getMonth zone today) 1 in
  ret (formatDateForInput <$> firstDayOfMonth, formatDateForInput t).

End BudgetApp.

Module ChartManager.

(** [getPeriodDates]: the clock is read before the [switch]. *)
Definition getPeriodDates (period : string)
  : M (option DateArg * option DateArg) :=
  do t <- now;
  do zone <- tza;
  let now := Some t in
  if decide (period = "month") then
    ret (Some (DateObj (Date_ymd zone (getFullYear zone now)
                          (getMonth zone now) 1)),
         Some (DateObj (Date_ymd zone (getFullYear zone now)
                          (Z.add 1 <$> getMonth zone now) 0)))
  else if decide (period = "quarter") then
    let quarter := (fun m => m / 3) <$> getMonth zone now in
    ret (Some (DateObj (Date_ymd zone (getFullYear zone now)
                          ((fun q => q * 3) <$> quarter) 1)),
         Some (DateObj (Date_ymd zone (getFullYear zone now)
                          ((fun q => (q + 1) * 3) <$> quarter) 0)))
  else if decide (period = "year") then
    ret (Some (DateObj (Date_ymd zone (getFullYear zone now) (Some 0) 1)),
         Some (DateObj (Date_ymd zone (getFullYear zone now) (Some 11) 31)))
  else ret (None, None).

(** The two data arrays of [createTrendChart]. *)
Definition trendData : M (list float * list float) :=
  do t <- now;
  do zone <- tza;
  let currentYear := YearFromTime (LocalTime zone t) in
  do monthlyData <- read (getMonthlySpendingData currentYear zone);
  let point (field : string) (i : nat) : float :=
    Js.orZero (entry ← monthlyData !! monthKey currentYear (Z.of_nat i + 1);
               entry !! field) in
  ret (map (point "income") (seq 0 12), map (point "expense") (seq 0 12)).

End ChartManager.

(** ** Specification-side definitions *)

(** The sum of [amount] over the transactions of type [ty], taken in
    collection order starting from [acc]. *)
Fixpoint sumOfType (ty : string) (acc : float) (txs : list Transaction)
  : float :=
  match txs with
  | [] => acc
  | t :: rest =>
      sumOfType ty
        (if decide (tx_type t = ty) then PrimFloat.add acc (tx_amount t) else acc)
        rest
  end.

(** The month (1..12) and year the code attributes a transaction to. *)
Definition attributed (zone year month : Z) (t : Transaction) : Prop :=
  getFullYear zone (Date_parse (tx_date t)) = Some year
  /\ getMonth zone (Date_parse (tx_date t)) = Some (month - 1).

(** The array after [saveTransaction] / [saveBudget] stored [x]. *)
Definition stored {A} (p : A -> bool) (l : list A) (x : A) : list A :=
  match Js.findIndex p l with
  | Some i => <[ i := x ]> l
  | None => l ++ [x]
  end.

(** The id [generateId] produces in [w]. *)
Definition freshId (w : World) : string :=
  Js.toString36 (Date_now (env w) (tick w))
  +:+ Math_random36 (env w) (S (tick w)).

(** The caller's transaction after [saveTransaction] ran in [w]. *)
Definition stamped (w : World) (r : Transaction) : Transaction :=
  if Js.falsy_string (tx_id r)
  then tx_set_updatedAt (Date_now (env w) (3 + tick w))
         (tx_set_new (freshId w) (Date_now (env w) (2 + tick w)) r)
  else tx_set_updatedAt (Date_now (env w) (tick w)) r.

Definition stampedBudget (w : World) (b : Budget) : Budget :=
  if Js.falsy_string (bg_id b)
  then bg_set_updatedAt (Date_now (env w) (3 + tick w))
         (bg_set_new (freshId w) (Date_now (env w) (2 + tick w)) b)
  else bg_set_updatedAt (Date_now (env w) (tick w)) b.

(** The tick at which the write of a save happens. *)
Definition writeTick (w : World) (id : option string) : nat :=
  if Js.falsy_string id then (4 + tick w)%nat else (1 + tick w)%nat.

Definition monthNumbers : list Z := [1; 2; 3; 4; 5; 6; 7; 8; 9; 10; 11; 12].

Definition leapFlag (y : Z) : Z := if isLeapYear y then 1 else 0.

(** The day number of a date string as [Date_parse] computes it. *)
Definition dayNumber (s : DateString) : Z :=
  MakeDay (ds_year s) (ds_month s - 1) (ds_day s).

Definition cal_lt (a b : DateString) : Prop :=
  ds_year a < ds_year b
  \/ (ds_year a = ds_year b /\ ds_month a < ds_month b)
  \/ (ds_year a = ds_year b /\ ds_month a = ds_month b /\ ds_day a < ds_day b).

Definition firstOfMonth (y m0 : Z) : DateString := mkDateString y (m0 + 1) 1.
Definition lastOfMonth (y m0 : Z) : DateString :=
  mkDateString y (m0 + 1) (DaysInMonth y (m0 + 1)).

Definition nextYear (s : DateString) : DateString :=
  mkDateString (ds_year s + 1) (ds_month s) (ds_day s).

(** The exported object given back to [importData]: its three
    collections are arrays or objects, hence truthy. *)
Definition asSnapshot (x : ExportedData) : Snapshot :=
  mkSnapshot (Some (x_transactions x)) (Some (x_budgets x))
    (Some (x_categories x)).

(** The running total [getSpendingByCategory] keeps for one category over
    the amounts it meets, in order: a total that is [0] or [NaN] restarts
    from [0]. *)
Definition runningTotal (amounts : list float) : option float :=
  fold_left (fun total a => Some (PrimFloat.add (Js.orZero total) a))
    amounts None.

Definition attributedb (zone year month : Z) (t : Transaction) : bool :=
  bool_decide (getFullYear zone (Date_parse (tx_date t)) = Some year)
  && bool_decide (getMonth zone (Date_parse (tx_date t)) = Some (month - 1)).

(** The row [getBudgetVsActual] pushes for [budget] when the clock reads
    [t]. *)
Definition rowAt (zone t : Z) (ls : LocalStorage) (budget : Budget)
  : BudgetVsActual :=
  let '(startDate, endDate) := budgetWindow zone (Some t) budget in
  let spent :=
    sumAmounts
      (List.filter
         (fun x => bool_decide (tx_category x = bg_category budget)
                   && inWindow startDate endDate x)
         (getTransactions ls)) in
  mkBudgetVsActual (bg_category budget) (bg_amount budget) spent
    (PrimFloat.sub (bg_amount budget) spent)
    (PrimFloat.mul (PrimFloat.div spent (bg_amount budget)) 100%float).

(** The day before the first of a month. *)
Definition dayBeforeMonth (y m0 : Z) : DateString :=
  if m0 =? 0 then lastOfMonth (y - 1) 11 else lastOfMonth y (m0 - 1).

(** ** Worlds used in the examples *)

Definition quietEnv (zone : Z) (clock : Z) : Env :=
  mkEnv (fun n => clock + Z.of_nat n) (fun _ => "4fzzzxjyl") (fun _ => false) zone.

Definition fullEnv (zone : Z) (clock : Z) : Env :=
  mkEnv (fun n => clock + Z.of_nat n) (fun _ => "4fzzzxjyl") (fun _ => true) zone.

Definition emptyStorage : LocalStorage := mkLocalStorage None None None.

Definition tx (ty : string) (amount : float) (cat : string) (y m d : Z)
  : Transaction :=
  mkTransaction None ty amount cat "" (mkDateString y m d) None None.

Definition sampleTransactions : list Transaction :=
  [ tx "expense" 50 "Food" 2024 1 5;
    tx "income" 1000 "Salary" 2024 1 10;
    tx "expense" 30 "Food" 2024 2 1 ].

Definition sampleStorage : LocalStorage :=
  mkLocalStorage (Some sampleTransactions) None None.

Definition storedWorld (zone : Z) (l : list Transaction) (b : list Budget)
  : World :=
  mkWorld (quietEnv zone 1704412800000) 0 (mkLocalStorage (Some l) (Some b) None).

Definition lunch : Transaction :=
  mkTransaction (Some "a1") "expense" 12 "Food" "lunch" (mkDateString 2024 3 1)
    (Some 5) (Some 5).

Definition fullWorld (l : list Transaction) (b : list Budget) : World :=
  mkWorld (fullEnv 0 1704412800000) 0 (mkLocalStorage (Some l) (Some b) None).

Definition groceries : Budget :=
  mkBudget None "Food" 200 "monthly" (mkDateString 2023 11 15) None None.

Definition dinner : Transaction :=
  mkTransaction (Some "b2") "expense" 30 "Food" "dinner" (mkDateString 2024 3 2)
    (Some 6) (Some 6).

Definition fullSnapshot : Snapshot :=
  mkSnapshot (Some [dinner]) (Some []) (Some (CatObject defaultCategories)).

Definition yearlyFood : Budget :=
  mkBudget (Some "b1") "Food" 1200 "annual" (mkDateString 2024 1 1)
    (Some 7) (Some 7).

Definition monthlyFood : Budget :=
  mkBudget (Some "b2") "Food" 200 "monthly" (mkDateString 2023 11 15)
    (Some 8) (Some 8).

(** A second record under the id of [lunch], and a second budget under
    the id of [yearlyFood]. *)
Definition lunchAgain : Transaction :=
  mkTransaction (Some "a1") "expense" 9 "Food" "late lunch"
    (mkDateString 2024 3 4) (Some 9) (Some 9).

Definition yearlyFoodAgain : Budget :=
  mkBudget (Some "b1") "Food" 900 "annual" (mkDateString 2023 1 1)
    (Some 9) (Some 9).

(** An income dated on New Year's Day. *)
Definition newYearSalary : Transaction := tx "income" 100 "Salary" 2025 1 1.

Definition midYear : Transaction := tx "expense" 30 "Food" 2024 6 15.
Definition anniversary : Transaction := tx "expense" 40 "Food" 2025 1 1.
Definition dayAfter : Transaction := tx "expense" 5 "Food" 2025 1 2.

(** ** Checks of the runtime model *)

Example ex_parse :
  Date_parse (mkDateString 2024 1 5) = Some 1704412800000.
Proof. reflexivity. Qed.

Example ex_parse_illegal : Date_parse (mkDateString 2023 2 29) = None.
Proof. reflexivity. Qed.

Example ex_getFullYear : getFullYear 0 (Some 1704412800000) = Some 2024.
Proof. reflexivity. Qed.

Example ex_getMonth_leap_day : getMonth 0 (Some 1709251199999) = Some 1.
Proof. reflexivity. Qed.

Example ex_getMonth_west :
  getMonth (-18000000) (Date_parse (mkDateString 2024 2 1)) = Some 0.
Proof. reflexivity. Qed.

Example ex_last_day_of_december :
  Date_ymd 0 (Some 2024) (Some 12) 0 = Some 1735603200000.
Proof. reflexivity. Qed.

Example ex_padStart :
  Js.padStart 2 "0" (pretty 7%Z) = "07" /\ Js.padStart 2 "0" (pretty 12%Z) = "12".
Proof. split; reflexivity. Qed.

Example ex_toString36 :
  Js.toString36 1704412800000 = "lqzvdhc0" /\ Js.toString36 35 = "z"
  /\ Js.toString36 36 = "10".
Proof. repeat split; reflexivity. Qed.

(** ** Arrays: [findIndex], [find], replacement and [push] *)

Section Arrays.
Context {A : Type}.
Implicit Types (p : A -> bool) (l : list A) (x : A).

Lemma findIndex_Some p l i :
  Js.findIndex p l = Some i ->
  exists x, l !! i = Some x /\ p x = true
            /\ forall j y, (j < i)%nat -> l !! j = Some y -> p y = false.
Proof.
  revert i. induction l as [|a l IH]; intros i H; simpl in H; [discriminate|].
  destruct (p a) eqn:Hp.
  - inversion H; subst. exists a. repeat split; auto. intros j y Hj. lia.
  - destruct (Js.findIndex p l) as [k|] eqn:Hk; simpl in H; [|discriminate].
    inversion H; subst. destruct (IH k eq_refl) as (x & Hx & Hpx & Hmin).
    exists x. repeat split; auto.
    intros [|j] y Hj Hy; simpl in Hy.
    + congruence.
    + apply (Hmin j); [lia | exact Hy].
Qed.

Lemma findIndex_None p l :
  Js.findIndex p l = None -> forall x, In x l -> p x = false.
Proof.
  induction l as [|a l IH]; intros H x Hin; simpl in *; [tauto|].
  destruct (p a) eqn:Hp; [discriminate|].
  destruct (Js.findIndex p l) eqn:Hk; simpl in H; [discriminate|].
  destruct Hin as [->|Hin]; auto.
Qed.

Lemma findIndex_is_Some p l x :
  In x l -> p x = true -> exists i, Js.findIndex p l = Some i.
Proof.
  intros Hin Hp. destruct (Js.findIndex p l) as [i|] eqn:E; [eauto|].
  rewrite (findIndex_None _ _ E _ Hin) in Hp. discriminate.
Qed.

Lemma find_stored p l x : p x = true -> List.find p (stored p l x) = Some x.
Proof.
  intros Hp. unfold stored.
  induction l as [|a l IH]; simpl.
  - now rewrite Hp.
  - destruct (p a) eqn:Ha; simpl.
    + now rewrite Hp.
    + destruct (Js.findIndex p l) as [k|]; simpl; rewrite Ha; exact IH.
Qed.

Lemma length_stored_found p l x i :
  Js.findIndex p l = Some i -> length (stored p l x) = length l.
Proof. intros H. unfold stored. rewrite H. apply length_insert. Qed.

Lemma length_stored_new p l x :
  Js.findIndex p l = None -> length (stored p l x) = S (length l).
Proof. intros H. unfold stored. rewrite H, length_app. simpl. lia. Qed.

(** Keys stay distinct when the predicate is "has the key of [x]". *)
Lemma NoDup_stored {K} `{EqDecision K} (key : A -> K) l x :
  NoDup (map key l) ->
  NoDup (map key (stored (fun y => bool_decide (key y = key x)) l x)).
Proof.
  intros Hnd. unfold stored.
  destruct (Js.findIndex _ l) as [i|] eqn:E.
  - destruct (findIndex_Some _ _ _ E) as (y & Hy & Hk & _).
    apply bool_decide_eq_true in Hk.
    assert (map key (<[i:=x]> l) = map key l) as ->; [|exact Hnd].
    change (map key) with (fmap (M:=list) key).
    rewrite list_fmap_insert. apply list_insert_id.
    rewrite list_lookup_fmap, Hy. simpl. now rewrite Hk.
  - change (map key) with (fmap (M:=list) key) in *.
    rewrite fmap_app. simpl. apply NoDup_app. split; [exact Hnd|].
    split; [|apply NoDup_singleton].
    intros k Hk Hk'. apply list_elem_of_singleton in Hk'. subst k.
    apply list_elem_of_fmap in Hk as (y & Hy & Hin).
    apply list_elem_of_In in Hin.
    pose proof (findIndex_None _ _ E y Hin) as Hf. simpl in Hf.
    apply bool_decide_eq_false in Hf. congruence.
Qed.

Lemma filter_all_true p l :
  (forall x, In x l -> p x = true) -> List.filter p l = l.
Proof.
  induction l as [|a l IH]; intros H; simpl; [reflexivity|].
  rewrite (H a (or_introl eq_refl)). f_equal. apply IH.
  intros x Hx. apply H. now right.
Qed.

Lemma filter_idem p l : List.filter p (List.filter p l) = List.filter p l.
Proof.
  apply filter_all_true. intros x Hx. now apply filter_In in Hx.
Qed.

Lemma NoDup_map_filter {K} (key : A -> K) p l :
  NoDup (map key l) -> NoDup (map key (List.filter p l)).
Proof.
  induction l as [|a l IH]; simpl; intros H; [constructor|].
  apply NoDup_cons in H as [Hn Hd].
  destruct (p a); simpl; [|auto].
  apply NoDup_cons. split; [|auto].
  intros Hin. apply Hn.
  change (map key) with (fmap (M:=list) key) in *.
  apply list_elem_of_fmap in Hin as (y & -> & Hy).
  apply list_elem_of_fmap. exists y. split; [reflexivity|].
  apply list_elem_of_In. apply list_elem_of_In in Hy.
  now apply filter_In in Hy.
Qed.
End Arrays.

(** ** Saving and deleting records *)

Ltac run :=
  unfold constructor, clearAllData;
  unfold saveTransaction, saveBudget, deleteTransaction, deleteBudget,
    initializeCategories, saveCategories, importData,
    removeItem, generateId, saveToStorage, bind, ret, read,
    now, random36, setItem, tza, advance;
  simpl.

Lemma saveTransaction_eq (w : World) (r : Transaction) :
  saveTransaction r w =
  let r' := stamped w r in
  let txs' :=
    stored (fun t => bool_decide (tx_id t = tx_id r'))
      (getTransactions (localStorage w)) r' in
  let k := writeTick w (tx_id r) in
  if setItem_throws (env w) k
  then ((false, r'), mkWorld (env w) (S k) (localStorage w))
  else ((true, r'),
        mkWorld (env w) (S k)
          (putItem transactions (Some (map JSON_transaction txs'))
             (localStorage w))).
Proof.
  unfold stamped, writeTick, stored, freshId. run.
  destruct (Js.falsy_string (tx_id r)); simpl;
    destruct (setItem_throws (env w) _); reflexivity.
Qed.

Lemma saveBudget_eq (w : World) (b : Budget) :
  saveBudget b w =
  let b' := stampedBudget w b in
  let bgs' :=
    stored (fun t => bool_decide (bg_id t = bg_id b'))
      (getBudgets (localStorage w)) b' in
  let k := writeTick w (bg_id b) in
  if setItem_throws (env w) k
  then ((false, b'), mkWorld (env w) (S k) (localStorage w))
  else ((true, b'),
        mkWorld (env w) (S k)
          (putItem budgets (Some (map JSON_budget bgs')) (localStorage w))).
Proof.
  unfold stampedBudget, writeTick, stored, freshId. run.
  destruct (Js.falsy_string (bg_id b)); simpl;
    destruct (setItem_throws (env w) _); reflexivity.
Qed.

Lemma deleteTransaction_eq (w : World) (id : string) :
  deleteTransaction id w =
  let kept :=
    List.filter (fun t => negb (bool_decide (tx_id t = Some id)))
      (getTransactions (localStorage w)) in
  if setItem_throws (env w) (tick w)
  then (false, mkWorld (env w) (S (tick w)) (localStorage w))
  else (true,
        mkWorld (env w) (S (tick w))
          (putItem transactions (Some (map JSON_transaction kept))
             (localStorage w))).
Proof. run. destruct (setItem_throws (env w) (tick w)); reflexivity. Qed.

Lemma deleteBudget_eq (w : World) (id : string) :
  deleteBudget id w =
  let kept :=
    List.filter (fun t => negb (bool_decide (bg_id t = Some id)))
      (getBudgets (localStorage w)) in
  if setItem_throws (env w) (tick w)
  then (false, mkWorld (env w) (S (tick w)) (localStorage w))
  else (true,
        mkWorld (env w) (S (tick w))
          (putItem budgets (Some (map JSON_budget kept)) (localStorage w))).
Proof. run. destruct (setItem_throws (env w) (tick w)); reflexivity. Qed.

(** *** What the store gives back

    A number that went through JSON goes through it unchanged the next
    time, so a collection read from the store is written back as it is. *)

Lemma JSON_number_idem (x : float) :
  Js.JSON_number (Js.JSON_number x) = Js.JSON_number x.
Proof.
  unfold Js.JSON_number.
  destruct (PrimFloat.is_nan x || PrimFloat.is_infinity x) eqn:E1;
    [reflexivity|].
  destruct (PrimFloat.is_zero x) eqn:E2; [reflexivity|].
  now rewrite E1, E2.
Qed.

Lemma JSON_number_finite (x : float) :
  PrimFloat.is_finite x = true -> PrimFloat.is_zero x = false ->
  Js.JSON_number x = x.
Proof.
  unfold Js.JSON_number, PrimFloat.is_finite. intros H1 H2.
  apply negb_true_iff in H1. now rewrite H1, H2.
Qed.

Lemma JSON_transaction_idem (t : Transaction) :
  JSON_transaction (JSON_transaction t) = JSON_transaction t.
Proof. unfold JSON_transaction. cbn. now rewrite JSON_number_idem. Qed.

Lemma JSON_budget_idem (b : Budget) :
  JSON_budget (JSON_budget b) = JSON_budget b.
Proof. unfold JSON_budget. cbn. now rewrite JSON_number_idem. Qed.

Lemma JSON_transaction_stable (t : Transaction) :
  Js.JSON_number (tx_amount t) = tx_amount t -> JSON_transaction t = t.
Proof. intros H. destruct t. unfold JSON_transaction. cbn in *. now rewrite H. Qed.

Lemma JSON_budget_stable (b : Budget) :
  Js.JSON_number (bg_amount b) = bg_amount b -> JSON_budget b = b.
Proof. intros H. destruct b. unfold JSON_budget. cbn in *. now rewrite H. Qed.

Lemma map_fixed {A} (f : A -> A) (l : list A) :
  (forall x, In x l -> f x = x) -> map f l = l.
Proof.
  induction l as [|a l IH]; intros H; simpl; [reflexivity|].
  rewrite (H a (or_introl eq_refl)). f_equal. apply IH.
  intros x Hx. apply H. now right.
Qed.

Lemma map_idem {A} (f : A -> A) (l : list A) :
  (forall x, f (f x) = f x) -> forall x, In x (map f l) -> f x = x.
Proof. intros H x Hx. apply in_map_iff in Hx as (y & <- & _). apply H. Qed.

Lemma findIndex_map {A} (f : A -> A) (p : A -> bool) (l : list A) :
  (forall x, p (f x) = p x) -> Js.findIndex p (map f l) = Js.findIndex p l.
Proof.
  intros H. induction l as [|a l IH]; simpl; [reflexivity|].
  now rewrite H, IH.
Qed.

Lemma map_stored {A} (f : A -> A) (p : A -> bool) (l : list A) (x : A) :
  (forall y, p (f y) = p y) ->
  map f (stored p l x) = stored p (map f l) (f x).
Proof.
  intros H. unfold stored. rewrite (findIndex_map f p l H).
  change (map f) with (fmap (M:=list) f).
  destruct (Js.findIndex p l) as [i|].
  - apply list_fmap_insert.
  - now rewrite fmap_app.
Qed.

Lemma getTransactions_fixed ls t :
  In t (getTransactions ls) -> JSON_transaction t = t.
Proof.
  unfold getTransactions, loadFromStorage. simpl.
  destruct (budget_app_transactions ls) as [l|]; simpl; [|tauto].
  apply map_idem, JSON_transaction_idem.
Qed.

Lemma getBudgets_fixed ls b :
  In b (getBudgets ls) -> JSON_budget b = b.
Proof.
  unfold getBudgets, loadFromStorage. simpl.
  destruct (budget_app_budgets ls) as [l|]; simpl; [|tauto].
  apply map_idem, JSON_budget_idem.
Qed.

Lemma getTransactions_putItem l ls :
  getTransactions (putItem transactions (Some (map JSON_transaction l)) ls)
  = map JSON_transaction l.
Proof.
  unfold getTransactions, loadFromStorage. simpl.
  apply map_fixed, map_idem, JSON_transaction_idem.
Qed.

Lemma getBudgets_putItem l ls :
  getBudgets (putItem budgets (Some (map JSON_budget l)) ls)
  = map JSON_budget l.
Proof.
  unfold getBudgets, loadFromStorage. simpl.
  apply map_fixed, map_idem, JSON_budget_idem.
Qed.

(** The collection read after a save went through: the record is kept as
    JSON writes it, the records that were there are as they were. *)
Lemma getTransactions_stored ls ls' i x :
  getTransactions
    (putItem transactions
       (Some (map JSON_transaction
                (stored (fun t => bool_decide (tx_id t = i))
                   (getTransactions ls) x))) ls')
  = stored (fun t => bool_decide (tx_id t = i)) (getTransactions ls)
      (JSON_transaction x).
Proof.
  rewrite getTransactions_putItem.
  rewrite (map_stored JSON_transaction) by reflexivity.
  now rewrite (map_fixed _ _ (getTransactions_fixed ls)).
Qed.

Lemma getBudgets_stored ls ls' i x :
  getBudgets
    (putItem budgets
       (Some (map JSON_budget
                (stored (fun t => bool_decide (bg_id t = i))
                   (getBudgets ls) x))) ls')
  = stored (fun t => bool_decide (bg_id t = i)) (getBudgets ls)
      (JSON_budget x).
Proof.
  rewrite getBudgets_putItem.
  rewrite (map_stored JSON_budget) by reflexivity.
  now rewrite (map_fixed _ _ (getBudgets_fixed ls)).
Qed.

(** The collection read after a delete went through. *)
Lemma getTransactions_kept ls ls' (q : Transaction -> bool) :
  getTransactions
    (putItem transactions
       (Some (map JSON_transaction (List.filter q (getTransactions ls)))) ls')
  = List.filter q (getTransactions ls).
Proof.
  rewrite getTransactions_putItem. apply map_fixed.
  intros t Ht. apply filter_In in Ht as [Ht _].
  now apply (getTransactions_fixed ls).
Qed.

Lemma getBudgets_kept ls ls' (q : Budget -> bool) :
  getBudgets
    (putItem budgets
       (Some (map JSON_budget (List.filter q (getBudgets ls)))) ls')
  = List.filter q (getBudgets ls).
Proof.
  rewrite getBudgets_putItem. apply map_fixed.
  intros t Ht. apply filter_In in Ht as [Ht _].
  now apply (getBudgets_fixed ls).
Qed.

Lemma freshId_generateId w : freshId w = fst (generateId w).
Proof. reflexivity. Qed.

Lemma stamped_id_new w r :
  Js.falsy_string (tx_id r) = true -> tx_id (stamped w r) = Some (freshId w).
Proof. intros H. unfold stamped. now rewrite H. Qed.

Lemma stamped_id_old w r :
  Js.falsy_string (tx_id r) = false -> tx_id (stamped w r) = tx_id r.
Proof. intros H. unfold stamped. now rewrite H. Qed.

Lemma falsy_string_Some i : i <> "" -> Js.falsy_string (Some i) = false.
Proof. intros H. unfold Js.falsy_string. now destruct (decide (i = "")). Qed.

(** C3 (as stated it fails): a record saved with the amount [Infinity]
    is stamped and stored, the write goes through, and the record found
    under the assigned id carries the amount [NaN] ([null] in the stored
    text), not the amount of the input. *)
Lemma save_roundtrip_loses_infinite_amount :
  let W := storedWorld 0 [lunch] [] in
  let new := tx "expense" PrimFloat.infinity "Food" 2024 1 5 in
  let '((ok, r'), w') := saveTransaction new W in
  ok = true
  /\ r' = mkTransaction (Some "lqzvdhc04fzzzxjyl") "expense" PrimFloat.infinity
            "Food" "" (mkDateString 2024 1 5)
            (Some 1704412800002) (Some 1704412800003)
  /\ getTransactionById "lqzvdhc04fzzzxjyl" (localStorage w')
     = Some (mkTransaction (Some "lqzvdhc04fzzzxjyl") "expense" PrimFloat.nan
               "Food" "" (mkDateString 2024 1 5)
               (Some 1704412800002) (Some 1704412800003))
  /\ getTransactionById "lqzvdhc04fzzzxjyl" (localStorage w') <> Some r'
  /\ ~ exists i c u,
         getTransactionById i (localStorage w')
         = Some (mkTransaction (Some i) (tx_type new) (tx_amount new)
                   (tx_category new) (tx_description new) (tx_date new)
                   (Some c) (Some u)).
Proof.
  cbv zeta.
  assert (Hne : forall a b : Transaction,
             PrimFloat.is_nan (tx_amount a) <> PrimFloat.is_nan (tx_amount b) ->
             Some a <> Some b) by (intros a b Hab E; congruence).
  assert (Hfind : forall i back,
             getTransactionById i
               (localStorage
                  (snd (saveTransaction
                          (tx "expense" PrimFloat.infinity "Food" 2024 1 5)
                          (storedWorld 0 [lunch] []))))
             = Some back ->
             PrimFloat.is_infinity (tx_amount back) = false).
  { intros i back. unfold getTransactionById.
    change (getTransactions _) with
      [lunch;
       mkTransaction (Some "lqzvdhc04fzzzxjyl") "expense" PrimFloat.nan
         "Food" "" (mkDateString 2024 1 5)
         (Some 1704412800002) (Some 1704412800003)].
    cbn [find tx_id lunch].
    repeat (destruct (bool_decide _); [intros [= <-]; reflexivity|]).
    discriminate. }
  change (saveTransaction _ _) with
    ((true,
      mkTransaction (Some "lqzvdhc04fzzzxjyl") "expense" PrimFloat.infinity
        "Food" "" (mkDateString 2024 1 5)
        (Some 1704412800002) (Some 1704412800003)),
     snd (saveTransaction (tx "expense" PrimFloat.infinity "Food" 2024 1 5)
            (storedWorld 0 [lunch] []))).
  cbv beta iota.
  split; [reflexivity|]. split; [reflexivity|]. split; [reflexivity|]. split.
  - apply Hne. vm_compute. discriminate.
  - intros (i & c & u & H). apply Hfind in H. vm_compute in H. discriminate.
Qed.

(** C3, amended: with the write accepted, a record saved without an id is
    found under the assigned id as JSON keeps it: the input with [id],
    [createdAt] and [updatedAt] set and the amount as it reads back, which
    is the amount itself for every finite number other than [-0].  A
    record whose id is already in the collection overwrites the first
    record with that id, at its index, and the collection keeps its
    size. *)
Theorem save_then_getById_roundtrip (w : World) (r : Transaction) :
  setItem_throws (env w) (writeTick w (tx_id r)) = false ->
  let '((ok, r'), w') := saveTransaction r w in
  let before := getTransactions (localStorage w) in
  let after := getTransactions (localStorage w') in
  ok = true
  /\ (Js.falsy_string (tx_id r) = true ->
      exists i c u,
        r' = mkTransaction (Some i) (tx_type r) (tx_amount r) (tx_category r)
               (tx_description r) (tx_date r) (Some c) (Some u)
        /\ getTransactionById i (localStorage w')
           = Some (mkTransaction (Some i) (tx_type r)
                     (Js.JSON_number (tx_amount r)) (tx_category r)
                     (tx_description r) (tx_date r) (Some c) (Some u))
        /\ (Js.JSON_number (tx_amount r) = tx_amount r ->
            getTransactionById i (localStorage w') = Some r'))
  /\ (forall i, tx_id r = Some i -> i <> "" ->
      (exists t, In t before /\ tx_id t = Some i) ->
      length after = length before
      /\ getTransactionById i (localStorage w') = Some (JSON_transaction r')
      /\ exists k old u,
           before !! k = Some old /\ tx_id old = Some i
           /\ (forall j y, (j < k)%nat -> before !! j = Some y -> tx_id y <> Some i)
           /\ r' = tx_set_updatedAt u r
           /\ after = <[ k := JSON_transaction r' ]> before)
  /\ (Js.JSON_number (tx_amount r) = tx_amount r -> JSON_transaction r' = r')
  /\ (PrimFloat.is_finite (tx_amount r) = true ->
      PrimFloat.is_zero (tx_amount r) = false ->
      Js.JSON_number (tx_amount r) = tx_amount r).
Proof.
  intros Hw. rewrite saveTransaction_eq. cbv zeta. rewrite Hw.
  cbv beta iota zeta. cbn [localStorage]. rewrite getTransactions_stored.
  assert (Hst : Js.JSON_number (tx_amount r) = tx_amount r ->
                JSON_transaction (stamped w r) = stamped w r).
  { intros H. apply JSON_transaction_stable.
    unfold stamped. now destruct (Js.falsy_string (tx_id r)). }
  split; [reflexivity|]. split; [|split; [|split]].
  - intros Hf.
    assert (Hfound :
      getTransactionById (freshId w)
        (putItem transactions
           (Some (map JSON_transaction
                    (stored (fun t => bool_decide (tx_id t = tx_id (stamped w r)))
                       (getTransactions (localStorage w)) (stamped w r))))
           (localStorage w))
      = Some (JSON_transaction (stamped w r))).
    { unfold getTransactionById. rewrite getTransactions_stored.
      rewrite (stamped_id_new _ _ Hf).
      apply (find_stored (fun t => bool_decide (tx_id t = Some (freshId w)))).
      apply bool_decide_eq_true.
      change (tx_id (JSON_transaction (stamped w r))) with (tx_id (stamped w r)).
      now apply stamped_id_new. }
    exists (freshId w), (Date_now (env w) (2 + tick w)),
      (Date_now (env w) (3 + tick w)).
    split; [|split].
    + unfold stamped. rewrite Hf. reflexivity.
    + rewrite Hfound. unfold stamped. rewrite Hf. reflexivity.
    + intros Hj. rewrite Hfound. now rewrite Hst.
  - intros i Hi Hne (t & Hin & Ht).
    assert (Hf : Js.falsy_string (tx_id r) = false)
      by (rewrite Hi; now apply falsy_string_Some).
    assert (Hid : tx_id (stamped w r) = Some i)
      by (rewrite stamped_id_old; assumption).
    unfold getTransactionById. rewrite getTransactions_stored. rewrite Hid.
    destruct (findIndex_is_Some (fun y => bool_decide (tx_id y = Some i))
                (getTransactions (localStorage w)) t Hin) as [k Hk].
    { now apply bool_decide_eq_true. }
    split; [eapply length_stored_found; exact Hk|]. split.
    + apply find_stored. apply bool_decide_eq_true. exact Hid.
    + destruct (findIndex_Some _ _ _ Hk) as (old & Hold & Hp & Hmin).
      exists k, old, (Date_now (env w) (tick w)).
      apply bool_decide_eq_true in Hp.
      repeat split; auto.
      * intros j y Hj Hy. specialize (Hmin j y Hj Hy).
        now apply bool_decide_eq_false in Hmin.
      * unfold stamped. now rewrite Hf.
      * unfold stored. now rewrite Hk.
  - exact Hst.
  - apply JSON_number_finite.
Qed.

Lemma save_then_getById_roundtrip_witness :
  let W := storedWorld 0 [lunch] [] in
  let new := tx "expense" 50 "Food" 2024 1 5 in
  (exists i c u,
     snd (fst (saveTransaction new W))
     = mkTransaction (Some i) "expense" 50 "Food" "" (mkDateString 2024 1 5)
         (Some c) (Some u)
     /\ getTransactionById i (localStorage (snd (saveTransaction new W)))
        = Some (snd (fst (saveTransaction new W))))
  /\ length (getTransactions (localStorage (snd (saveTransaction lunch W))))
     = 1%nat.
Proof.
  intros W new. split.
  - pose proof (save_then_getById_roundtrip W new eq_refl) as H.
    destruct (saveTransaction new W) as [[ok r'] w'].
    destruct H as (_ & H & _).
    destruct (H eq_refl) as (i & c & u & Hr & _ & Hback).
    exists i, c, u. split; [exact Hr | exact (Hback eq_refl)].
  - pose proof (save_then_getById_roundtrip W lunch eq_refl) as H.
    destruct (saveTransaction lunch W) as [[ok r'] w'].
    destruct H as (_ & _ & H & _).
    refine (proj1 (H "a1" eq_refl _ (ex_intro _ lunch (conj _ eq_refl)))).
    + discriminate.
    + left. reflexivity.
Defined.

(** C8: a record passed without an id leaves [saveTransaction] (and
    [saveBudget]) carrying the id [generateId] produced, [createdAt] and
    [updatedAt], whether the write to the store succeeded or threw; when it
    threw the call reports [false] and the store is as before, yet the
    caller's record is changed all the same. *)
Theorem save_stamps_record_even_on_failure (w : World) :
  (forall r : Transaction,
      Js.falsy_string (tx_id r) = true ->
      let '((ok, r'), w') := saveTransaction r w in
      r' = mkTransaction (Some (fst (generateId w))) (tx_type r) (tx_amount r)
             (tx_category r) (tx_description r) (tx_date r)
             (Some (Date_now (env w) (2 + tick w)))
             (Some (Date_now (env w) (3 + tick w)))
      /\ ok = negb (setItem_throws (env w) (4 + tick w))
      /\ (ok = false -> localStorage w' = localStorage w))
  /\ (forall b : Budget,
      Js.falsy_string (bg_id b) = true ->
      let '((ok, b'), w') := saveBudget b w in
      b' = mkBudget (Some (fst (generateId w))) (bg_category b) (bg_amount b)
             (bg_period b) (bg_startDate b)
             (Some (Date_now (env w) (2 + tick w)))
             (Some (Date_now (env w) (3 + tick w)))
      /\ ok = negb (setItem_throws (env w) (4 + tick w))
      /\ (ok = false -> localStorage w' = localStorage w)).
Proof.
  split.
  - intros r Hf. rewrite saveTransaction_eq. cbv zeta.
    unfold writeTick, stamped. rewrite Hf.
    destruct (setItem_throws (env w) (4 + tick w)); cbv beta iota;
      repeat split; try reflexivity; discriminate.
  - intros b Hf. rewrite saveBudget_eq. cbv zeta.
    unfold writeTick, stampedBudget. rewrite Hf.
    destruct (setItem_throws (env w) (4 + tick w)); cbv beta iota;
      repeat split; try reflexivity; discriminate.
Qed.

Lemma save_stamps_record_even_on_failure_witness :
  let W := fullWorld [lunch] [] in
  let new := tx "expense" 50 "Food" 2024 1 5 in
  (saveTransaction new W
   = ((false,
       mkTransaction (Some "lqzvdhc04fzzzxjyl") "expense" 50 "Food" ""
         (mkDateString 2024 1 5) (Some 1704412800002) (Some 1704412800003)),
      mkWorld (env W) 5 (localStorage W)))
  /\ tx_id (snd (fst (saveTransaction new W))) = Some "lqzvdhc04fzzzxjyl"
  /\ bg_id (snd (fst (saveBudget groceries W))) = Some "lqzvdhc04fzzzxjyl".
Proof.
  intros W new. split; [reflexivity|]. split.
  - pose proof (proj1 (save_stamps_record_even_on_failure W) new eq_refl) as H.
    destruct (saveTransaction new W) as [[ok r'] w'].
    destruct H as (-> & _). reflexivity.
  - pose proof (proj2 (save_stamps_record_even_on_failure W) groceries eq_refl)
      as H.
    destruct (saveBudget groceries W) as [[ok b'] w'].
    destruct H as (-> & _). reflexivity.
Defined.

(** C7: deleting an id no record carries reports success and leaves the
    collection as it was; a second delete of the same id reports success
    again and changes nothing more.  For transactions and for budgets,
    whenever the store accepts the write. *)
Theorem delete_is_idempotent (w : World) (id : string) :
  setItem_throws (env w) (tick w) = false ->
  (let '(ok, w1) := deleteTransaction id w in
   ok = true
   /\ ((forall t, In t (getTransactions (localStorage w)) -> tx_id t <> Some id) ->
       getTransactions (localStorage w1) = getTransactions (localStorage w))
   /\ (setItem_throws (env w1) (tick w1) = false ->
       let '(ok2, w2) := deleteTransaction id w1 in
       ok2 = true
       /\ getTransactions (localStorage w2) = getTransactions (localStorage w1)))
  /\ (let '(ok, w1) := deleteBudget id w in
      ok = true
      /\ ((forall b, In b (getBudgets (localStorage w)) -> bg_id b <> Some id) ->
          getBudgets (localStorage w1) = getBudgets (localStorage w))
      /\ (setItem_throws (env w1) (tick w1) = false ->
          let '(ok2, w2) := deleteBudget id w1 in
          ok2 = true
          /\ getBudgets (localStorage w2) = getBudgets (localStorage w1))).
Proof.
  intros Hw. split.
  - rewrite deleteTransaction_eq. cbv zeta. rewrite Hw. cbv beta iota.
    cbn [localStorage env tick]. rewrite getTransactions_kept.
    split; [reflexivity|]. split.
    + intros Habs. apply filter_all_true. intros t Ht.
      apply negb_true_iff, bool_decide_eq_false. now apply Habs.
    + intros Hw2. rewrite deleteTransaction_eq. cbv zeta.
      cbn [localStorage env tick]. rewrite Hw2. cbv beta iota.
      cbn [localStorage]. rewrite !getTransactions_kept.
      split; [reflexivity | apply filter_idem].
  - rewrite deleteBudget_eq. cbv zeta. rewrite Hw. cbv beta iota.
    cbn [localStorage env tick]. rewrite getBudgets_kept.
    split; [reflexivity|]. split.
    + intros Habs. apply filter_all_true. intros t Ht.
      apply negb_true_iff, bool_decide_eq_false. now apply Habs.
    + intros Hw2. rewrite deleteBudget_eq. cbv zeta.
      cbn [localStorage env tick]. rewrite Hw2. cbv beta iota.
      cbn [localStorage]. rewrite !getBudgets_kept.
      split; [reflexivity | apply filter_idem].
Qed.

Lemma delete_is_idempotent_witness :
  let W := storedWorld 0 [lunch] [groceries] in
  (fst (deleteTransaction "zz" W) = true
   /\ getTransactions (localStorage (snd (deleteTransaction "zz" W))) = [lunch])
  /\ (fst (deleteTransaction "a1" (snd (deleteTransaction "a1" W))) = true
      /\ getTransactions
           (localStorage (snd (deleteTransaction "a1" (snd (deleteTransaction "a1" W)))))
         = getTransactions (localStorage (snd (deleteTransaction "a1" W)))).
Proof.
  intros W. split.
  - destruct (proj1 (delete_is_idempotent W "zz" eq_refl)) as (Hok & Hsame & _).
    split; [exact Hok|].
    apply Hsame. intros t [<-|[]]. discriminate.
  - destruct (proj1 (delete_is_idempotent W "a1" eq_refl)) as (_ & _ & H).
    exact (H eq_refl).
Defined.

Lemma filter_excludes {A} (p : A -> bool) (l : list A) x :
  In x (List.filter (fun y => negb (p y)) l) -> p x = false.
Proof. intros H. apply filter_In in H as [_ H]. now apply negb_true_iff. Qed.

(** C10: when the ids of a collection are pairwise distinct they are so
    after [saveTransaction] and [saveBudget], whatever record is saved and
    whether or not the write succeeds.  A delete reports success exactly
    when the store accepts the write, and then the collection is the
    former one without the records carrying the id: none of them remains,
    however many there were, every other record stays, in order, and
    distinct ids stay distinct.  A delete that reports failure leaves the
    collection as it was. *)
Theorem mutations_keep_ids_distinct (w : World) :
  (NoDup (map tx_id (getTransactions (localStorage w))) ->
   forall r,
     NoDup (map tx_id (getTransactions (localStorage (snd (saveTransaction r w))))))
  /\ (NoDup (map bg_id (getBudgets (localStorage w))) ->
      forall b,
        NoDup (map bg_id (getBudgets (localStorage (snd (saveBudget b w))))))
  /\ (forall id,
      let '(ok, w') := deleteTransaction id w in
      let before := getTransactions (localStorage w) in
      let after := getTransactions (localStorage w') in
      ok = negb (setItem_throws (env w) (tick w))
      /\ (ok = true ->
          (forall t, In t after -> tx_id t <> Some id)
          /\ (forall t, In t after <-> In t before /\ tx_id t <> Some id)
          /\ after
             = List.filter (fun t => negb (bool_decide (tx_id t = Some id)))
                 before)
      /\ (ok = false -> after = before)
      /\ (NoDup (map tx_id before) -> NoDup (map tx_id after)))
  /\ (forall id,
      let '(ok, w') := deleteBudget id w in
      let before := getBudgets (localStorage w) in
      let after := getBudgets (localStorage w') in
      ok = negb (setItem_throws (env w) (tick w))
      /\ (ok = true ->
          (forall b, In b after -> bg_id b <> Some id)
          /\ (forall b, In b after <-> In b before /\ bg_id b <> Some id)
          /\ after
             = List.filter (fun b => negb (bool_decide (bg_id b = Some id)))
                 before)
      /\ (ok = false -> after = before)
      /\ (NoDup (map bg_id before) -> NoDup (map bg_id after))).
Proof.
  split; [|split; [|split]].
  - intros Htx r. rewrite saveTransaction_eq. cbv zeta.
    destruct (setItem_throws _ _); cbn [snd localStorage]; [exact Htx|].
    rewrite getTransactions_stored.
    change (tx_id (stamped w r)) with (tx_id (JSON_transaction (stamped w r))).
    now apply NoDup_stored.
  - intros Hbg b. rewrite saveBudget_eq. cbv zeta.
    destruct (setItem_throws _ _); cbn [snd localStorage]; [exact Hbg|].
    rewrite getBudgets_stored.
    change (bg_id (stampedBudget w b))
      with (bg_id (JSON_budget (stampedBudget w b))).
    now apply NoDup_stored.
  - intros id. rewrite deleteTransaction_eq. cbv zeta.
    destruct (setItem_throws _ _); cbn [localStorage negb].
    + split; [reflexivity|]. split; [discriminate|]. split; [reflexivity|].
      exact (fun H => H).
    + rewrite getTransactions_kept.
      split; [reflexivity|]. split; [|split; [discriminate|]].
      * intros _. split; [|split; [|reflexivity]].
        -- intros t Ht.
           apply (filter_excludes (fun y => bool_decide (tx_id y = Some id))) in Ht.
           now apply bool_decide_eq_false in Ht.
        -- intros t. rewrite filter_In, negb_true_iff, bool_decide_eq_false.
           reflexivity.
      * now apply NoDup_map_filter.
  - intros id. rewrite deleteBudget_eq. cbv zeta.
    destruct (setItem_throws _ _); cbn [localStorage negb].
    + split; [reflexivity|]. split; [discriminate|]. split; [reflexivity|].
      exact (fun H => H).
    + rewrite getBudgets_kept.
      split; [reflexivity|]. split; [|split; [discriminate|]].
      * intros _. split; [|split; [|reflexivity]].
        -- intros t Ht.
           apply (filter_excludes (fun y => bool_decide (bg_id y = Some id))) in Ht.
           now apply bool_decide_eq_false in Ht.
        -- intros t. rewrite filter_In, negb_true_iff, bool_decide_eq_false.
           reflexivity.
      * now apply NoDup_map_filter.
Qed.

Lemma mutations_keep_ids_distinct_witness :
  let W := storedWorld 0 [lunch; dinner; lunchAgain]
             [yearlyFood; monthlyFood; yearlyFoodAgain] in
  NoDup (map tx_id
           (getTransactions
              (localStorage (snd (saveTransaction lunch (storedWorld 0 [lunch; dinner] []))))))
  /\ (fst (deleteTransaction "a1" W) = true
      /\ getTransactions (localStorage (snd (deleteTransaction "a1" W))) = [dinner])
  /\ (fst (deleteBudget "b1" W) = true
      /\ getBudgets (localStorage (snd (deleteBudget "b1" W))) = [monthlyFood])
  /\ (fst (deleteBudget "b1" (fullWorld [] [yearlyFood])) = false
      /\ getBudgets (localStorage (snd (deleteBudget "b1" (fullWorld [] [yearlyFood]))))
         = [yearlyFood]).
Proof.
  intros W.
  assert (Htx : NoDup (map tx_id
                  (getTransactions (localStorage (storedWorld 0 [lunch; dinner] [])))))
    by (apply (bool_decide_unpack _); vm_compute; exact I).
  split; [|split; [|split]].
  - exact (proj1 (mutations_keep_ids_distinct (storedWorld 0 [lunch; dinner] []))
             Htx lunch).
  - pose proof (proj1 (proj2 (proj2 (mutations_keep_ids_distinct W))) "a1") as H.
    destruct (deleteTransaction "a1" W) as [ok w'].
    destruct H as (Hok & Hgone & _). split; [exact Hok|].
    exact (proj2 (proj2 (Hgone Hok))).
  - pose proof (proj2 (proj2 (proj2 (mutations_keep_ids_distinct W))) "b1") as H.
    destruct (deleteBudget "b1" W) as [ok w'].
    destruct H as (Hok & Hgone & _). split; [exact Hok|].
    exact (proj2 (proj2 (Hgone Hok))).
  - pose proof (proj2 (proj2 (proj2
                  (mutations_keep_ids_distinct (fullWorld [] [yearlyFood])))) "b1")
      as H.
    destruct (deleteBudget "b1" (fullWorld [] [yearlyFood])) as [ok w'].
    destruct H as (Hok & _ & Hkept & _). split; [exact Hok|].
    exact (Hkept Hok).
Defined.

(** ** Import and initialisation *)

Lemma importData_always_true (data : Snapshot) (w : World) :
  fst (importData (Some data) w) = true.
Proof.
  run. destruct data as [[t|] [b|] [c|]]; simpl;
    repeat (destruct (setItem_throws _ _); simpl); reflexivity.
Qed.

(** C1 (the code departs from it): with a store that rejects every write,
    importing a snapshot of all three collections writes nothing and still
    reports success. *)
Theorem importData_reports_success_after_failed_writes :
  let W := fullWorld [lunch] [groceries] in
  setItem_throws (env W) 0 = true
  /\ setItem_throws (env W) 1 = true
  /\ setItem_throws (env W) 2 = true
  /\ importData (Some fullSnapshot) W = (true, mkWorld (env W) 3 (localStorage W)).
Proof. repeat split. Qed.



(** ** Totals *)

Lemma filter_comm {A} (p q : A -> bool) (l : list A) :
  List.filter p (List.filter q l) = List.filter q (List.filter p l).
Proof.
  induction l as [|a l IH]; simpl; [reflexivity|].
  destruct (p a) eqn:Hp, (q a) eqn:Hq; simpl; rewrite ?Hp, ?Hq, IH; reflexivity.
Qed.

Lemma restrict_filter s e (q : Transaction -> bool) l :
  restrict s e (List.filter q l) = List.filter q (restrict s e l).
Proof. destruct s, e; simpl; auto using filter_comm. Qed.

Lemma fold_amounts_sumOfType ty l acc :
  fold_left (fun total t => PrimFloat.add total (tx_amount t))
    (List.filter (fun t => bool_decide (tx_type t = ty)) l) acc
  = sumOfType ty acc l.
Proof.
  revert acc. induction l as [|a l IH]; intros acc; simpl; [reflexivity|].
  unfold bool_decide. destruct (decide_rel eq (tx_type a) ty) as [Ha|Ha];
    destruct (decide (tx_type a = ty)); try contradiction; simpl; apply IH.
Qed.

Lemma sumOfType_none ty l acc :
  (forall t, In t l -> tx_type t <> ty) -> sumOfType ty acc l = acc.
Proof.
  revert acc. induction l as [|a l IH]; intros acc H; simpl; [reflexivity|].
  destruct (decide (tx_type a = ty)) as [Ha|Ha].
  - exfalso. apply (H a); [now left | exact Ha].
  - apply IH. intros t Ht. apply H. now right.
Qed.

(** C4: the totals are the sums of [amount] over the income, respectively
    expense, transactions (of the range, when one is given), 0 when there
    is none; the net balance is their difference; and on the three sample
    transactions the helpers give 80, 1000, 920 and [{Food: 80}]. *)
Theorem totals_are_sums_by_type :
  (forall ls s e,
      getTotalIncome s e ls
      = sumOfType "income" 0 (restrict s e (getTransactions ls))
      /\ getTotalExpenses s e ls
         = sumOfType "expense" 0 (restrict s e (getTransactions ls))
      /\ getNetBalance s e ls
         = PrimFloat.sub (getTotalIncome s e ls) (getTotalExpenses s e ls))
  /\ (forall ls s e,
        (forall t, In t (restrict s e (getTransactions ls)) ->
                   tx_type t <> "income") ->
        getTotalIncome s e ls = 0%float)
  /\ (forall ls s e,
        (forall t, In t (restrict s e (getTransactions ls)) ->
                   tx_type t <> "expense") ->
        getTotalExpenses s e ls = 0%float)
  /\ getTotalExpenses None None sampleStorage = 80%float
  /\ getTotalIncome None None sampleStorage = 1000%float
  /\ getNetBalance None None sampleStorage = 920%float
  /\ getSpendingByCategory None None sampleStorage = {[ "Food" := 80%float ]}.
Proof.
  assert (Hsum : forall ls s e,
             getTotalIncome s e ls
             = sumOfType "income" 0 (restrict s e (getTransactions ls))
             /\ getTotalExpenses s e ls
                = sumOfType "expense" 0 (restrict s e (getTransactions ls))).
  { intros ls s e. split;
      unfold getTotalIncome, getTotalExpenses, getTransactionsByType, sumAmounts;
      now rewrite restrict_filter, fold_amounts_sumOfType. }
  split; [|split; [|split; [|repeat split]]].
  - intros ls s e. destruct (Hsum ls s e) as [Hi He].
    split; [exact Hi|]. split; [exact He | reflexivity].
  - intros ls s e H. rewrite (proj1 (Hsum ls s e)). now apply sumOfType_none.
  - intros ls s e H. rewrite (proj2 (Hsum ls s e)). now apply sumOfType_none.
Qed.

Lemma totals_are_sums_by_type_witness :
  getTotalIncome None None (mkLocalStorage (Some [lunch; dinner]) None None)
  = 0%float.
Proof.
  destruct totals_are_sums_by_type as (_ & Hzero & _).
  apply Hzero. intros t [<-|[<-|[]]]; discriminate.
Defined.

(** ** Calendar dates and time values *)

Lemma months_1_12 (i : Z) :
  1 <= i <= 12 ->
  i = 1 \/ i = 2 \/ i = 3 \/ i = 4 \/ i = 5 \/ i = 6 \/ i = 7 \/ i = 8 \/ i = 9
  \/ i = 10 \/ i = 11 \/ i = 12.
Proof. lia. Qed.

Lemma MonthFromTime_range (t : Z) : 0 <= MonthFromTime t <= 11.
Proof.
  unfold MonthFromTime. cbv zeta.
  repeat match goal with |- context [if ?c then _ else _] => destruct c end; lia.
Qed.

Lemma isLeapYear_spec (y : Z) :
  isLeapYear y = true
  <-> (y mod 4 = 0 /\ (y mod 100 <> 0 \/ y mod 400 = 0)).
Proof.
  unfold isLeapYear.
  destruct (Z.eqb_spec (y mod 4) 0), (Z.eqb_spec (y mod 100) 0),
    (Z.eqb_spec (y mod 400) 0); simpl; split; intros; try discriminate;
    try tauto.
Qed.

Lemma DayFromYear_succ (y : Z) :
  DayFromYear (y + 1) = DayFromYear y + DaysInYear y.
Proof.
  unfold DayFromYear, DaysInYear.
  destruct (isLeapYear y) eqn:E.
  - apply isLeapYear_spec in E. Z.div_mod_to_equations. lia.
  - assert (H : ~ (y mod 4 = 0 /\ (y mod 100 <> 0 \/ y mod 400 = 0))).
    { rewrite <- isLeapYear_spec, E. discriminate. }
    Z.div_mod_to_equations. lia.
Qed.

Lemma DaysInYear_pos (y : Z) : 365 <= DaysInYear y <= 366.
Proof. unfold DaysInYear. destruct (isLeapYear y); lia. Qed.

Lemma DayFromYear_lt (y y' : Z) :
  y < y' -> DayFromYear y + DaysInYear y <= DayFromYear y'.
Proof.
  intros H. replace y' with ((y + 1) + Z.of_nat (Z.to_nat (y' - y - 1))) by lia.
  generalize (Z.to_nat (y' - y - 1)) as k. intros k.
  induction k as [|k IH].
  - rewrite Z.add_0_r, DayFromYear_succ. lia.
  - replace (y + 1 + Z.of_nat (S k)) with ((y + 1 + Z.of_nat k) + 1) by lia.
    rewrite DayFromYear_succ.
    pose proof (DaysInYear_pos (y + 1 + Z.of_nat k)). lia.
Qed.

Lemma legal_fields (s : DateString) :
  legal s = true ->
  0 <= ds_year s <= 9999 /\ 1 <= ds_month s <= 12
  /\ 1 <= ds_day s <= DaysInMonth (ds_year s) (ds_month s).
Proof. unfold legal. rewrite !andb_true_iff, !Z.leb_le. tauto. Qed.

Lemma dayNumber_legal (s : DateString) :
  1 <= ds_month s <= 12 ->
  dayNumber s
  = DayFromYear (ds_year s)
    + DaysBeforeMonth (leapFlag (ds_year s)) (ds_month s - 1) + ds_day s - 1.
Proof.
  intros Hm. unfold dayNumber, MakeDay, leapFlag. cbv zeta.
  replace ((ds_month s - 1) / 12) with 0 by (Z.div_mod_to_equations; lia).
  replace ((ds_month s - 1) mod 12) with (ds_month s - 1)
    by (Z.div_mod_to_equations; lia).
  now rewrite Z.add_0_r.
Qed.

Lemma DaysBeforeMonth_step (y m : Z) :
  1 <= m <= 12 ->
  DaysBeforeMonth (leapFlag y) (m - 1) + DaysInMonth y m
  = DaysBeforeMonth (leapFlag y) m.
Proof.
  intros Hm. apply months_1_12 in Hm. unfold leapFlag, DaysInMonth.
  repeat (destruct Hm as [->|Hm]); try subst m;
    destruct (isLeapYear y); reflexivity.
Qed.

Lemma DaysBeforeMonth_mono (l m m' : Z) :
  0 <= l -> 0 <= m <= m' -> m' <= 12 ->
  DaysBeforeMonth l m <= DaysBeforeMonth l m'.
Proof.
  intros Hl Hm Hm'.
  assert (Hc : forall k, 0 <= k <= 12 ->
     k = 0 \/ k = 1 \/ k = 2 \/ k = 3 \/ k = 4 \/ k = 5 \/ k = 6 \/ k = 7
     \/ k = 8 \/ k = 9 \/ k = 10 \/ k = 11 \/ k = 12) by lia.
  destruct (Hc m ltac:(lia)) as [H|H]; repeat (destruct H as [H|H]);
    subst m;
    (destruct (Hc m' ltac:(lia)) as [H'|H']; repeat (destruct H' as [H'|H']));
    subst m'; cbn; lia.
Qed.

Lemma DaysBeforeMonth_12 (y : Z) :
  DaysBeforeMonth (leapFlag y) 12 = DaysInYear y.
Proof. unfold leapFlag, DaysInYear. destruct (isLeapYear y); reflexivity. Qed.

Lemma leapFlag_nonneg y : 0 <= leapFlag y.
Proof. unfold leapFlag. destruct (isLeapYear y); lia. Qed.

Lemma dayNumber_lt (a b : DateString) :
  legal a = true -> legal b = true -> cal_lt a b -> dayNumber a < dayNumber b.
Proof.
  intros Ha Hb Hlt.
  apply legal_fields in Ha as (_ & Hma & Hda).
  apply legal_fields in Hb as (_ & Hmb & Hdb).
  rewrite !dayNumber_legal by assumption.
  pose proof (DaysBeforeMonth_step (ds_year a) (ds_month a) Hma) as Hstep.
  pose proof (leapFlag_nonneg (ds_year a)) as Hl.
  pose proof (leapFlag_nonneg (ds_year b)) as Hl'.
  destruct Hlt as [Hy|[[Hy Hm]|(Hy & Hm & Hd)]].
  - pose proof (DayFromYear_lt _ _ Hy) as Hyy.
    pose proof (DaysBeforeMonth_mono (leapFlag (ds_year a)) (ds_month a) 12 Hl
                  ltac:(lia) ltac:(lia)) as H1.
    rewrite DaysBeforeMonth_12 in H1.
    pose proof (DaysBeforeMonth_mono (leapFlag (ds_year b)) 0 (ds_month b - 1) Hl'
                  ltac:(lia) ltac:(lia)) as H2.
    change (DaysBeforeMonth (leapFlag (ds_year b)) 0) with 0 in H2.
    lia.
  - rewrite <- Hy in *.
    pose proof (DaysBeforeMonth_mono (leapFlag (ds_year a)) (ds_month a)
                  (ds_month b - 1) Hl ltac:(lia) ltac:(lia)) as H1.
    lia.
  - rewrite <- Hy, <- Hm in *. lia.
Qed.

Lemma cal_le_lt_eq (a b : DateString) :
  cal_le a b <-> cal_lt a b \/ a = b.
Proof.
  unfold cal_le, cal_lt. destruct a as [ya ma da], b as [yb mb db]. simpl.
  split.
  - intros [H|[[H1 H2]|(H1 & H2 & H3)]]; try tauto.
    destruct (Z.eq_dec da db) as [->|Hne]; [right; congruence | left].
    right. right. repeat split; auto. lia.
  - intros [[H|[H|(H1 & H2 & H3)]]|[= -> -> ->]]; try tauto.
    + right. right. repeat split; auto. lia.
    + right. right. repeat split; auto. lia.
Qed.

Lemma cal_total (a b : DateString) : cal_le a b \/ cal_lt b a.
Proof. unfold cal_le, cal_lt. lia. Qed.

Lemma dayNumber_le (a b : DateString) :
  legal a = true -> legal b = true ->
  (dayNumber a <= dayNumber b <-> cal_le a b).
Proof.
  intros Ha Hb. split.
  - intros H. destruct (cal_total a b) as [Hle|Hlt]; [exact Hle|].
    pose proof (dayNumber_lt b a Hb Ha Hlt). lia.
  - intros H. apply cal_le_lt_eq in H as [Hlt| ->]; [|lia].
    pose proof (dayNumber_lt a b Ha Hb Hlt). lia.
Qed.

Lemma dayNumber_bounds (s : DateString) :
  legal s = true -> -719528 <= dayNumber s < 2932897.
Proof.
  intros Hs. apply legal_fields in Hs as (Hy & Hm & Hd).
  rewrite dayNumber_legal by assumption.
  pose proof (DaysBeforeMonth_step (ds_year s) (ds_month s) Hm) as Hstep.
  pose proof (leapFlag_nonneg (ds_year s)) as Hl.
  pose proof (DaysBeforeMonth_mono (leapFlag (ds_year s)) (ds_month s) 12 Hl
                ltac:(lia) ltac:(lia)) as H1.
  rewrite DaysBeforeMonth_12 in H1.
  pose proof (DaysBeforeMonth_mono (leapFlag (ds_year s)) 0 (ds_month s - 1) Hl
                ltac:(lia) ltac:(lia)) as H2.
  change (DaysBeforeMonth (leapFlag (ds_year s)) 0) with 0 in H2.
  assert (H0 : DayFromYear 0 <= DayFromYear (ds_year s)).
  { destruct (Z.eq_dec (ds_year s) 0) as [->|Hne]; [lia|].
    pose proof (DayFromYear_lt 0 (ds_year s) ltac:(lia)).
    pose proof (DaysInYear_pos 0). lia. }
  assert (H9 : DayFromYear (ds_year s) + DaysInYear (ds_year s)
               <= DayFromYear 10000).
  { apply DayFromYear_lt. lia. }
  change (DayFromYear 0) with (-719528) in H0.
  change (DayFromYear 10000) with 2932897 in H9.
  lia.
Qed.

Lemma Date_parse_legal (s : DateString) :
  legal s = true -> Date_parse s = Some (dayNumber s * msPerDay).
Proof.
  intros Hs. unfold Date_parse. rewrite Hs. fold (dayNumber s).
  pose proof (dayNumber_bounds s Hs) as Hb.
  unfold MakeDate, TimeClip. rewrite Z.add_0_r.
  destruct (Z.leb_spec (Z.abs (dayNumber s * msPerDay)) 8640000000000000)
    as [_|Habs]; [reflexivity|].
  unfold msPerDay in *. lia.
Qed.

Lemma YearFromDay_estimate (y d : Z) :
  DayFromYear y <= d < DayFromYear y + 366 ->
  y - 1 <= 1970 + (d * 400) / 146097 <= y + 1.
Proof.
  unfold DayFromYear. intros H. Z.div_mod_to_equations. lia.
Qed.

Lemma YearFromDay_spec (y d : Z) :
  DayFromYear y <= d < DayFromYear (y + 1) -> YearFromDay d = y.
Proof.
  intros H. pose proof (DaysInYear_pos y) as Hy.
  pose proof (DayFromYear_succ y) as Hs.
  pose proof (YearFromDay_estimate y d ltac:(lia)) as He.
  unfold YearFromDay. cbv zeta.
  set (y0 := 1970 + d * 400 / 146097) in *.
  assert (Hc : y0 = y - 1 \/ y0 = y \/ y0 = y + 1) by lia.
  destruct Hc as [->|[->| ->]].
  - replace (y - 1 + 1) with y by lia.
    destruct (Z.leb_spec (DayFromYear y) d); lia.
  - destruct (Z.leb_spec (DayFromYear (y + 1)) d); [lia|].
    destruct (Z.leb_spec (DayFromYear y) d); lia.
  - pose proof (DayFromYear_succ (y + 1)) as Hs2.
    pose proof (DaysInYear_pos (y + 1)) as Hy2.
    destruct (Z.leb_spec (DayFromYear (y + 1 + 1)) d); [lia|].
    destruct (Z.leb_spec (DayFromYear (y + 1)) d); lia.
Qed.

Lemma YearFromDay_correct (d : Z) :
  DayFromYear (YearFromDay d) <= d < DayFromYear (YearFromDay d + 1).
Proof.
  assert (A : DayFromYear (1970 + d * 400 / 146097 - 1) <= d).
  { unfold DayFromYear. Z.div_mod_to_equations. lia. }
  assert (B : d < DayFromYear (1970 + d * 400 / 146097 + 1 + 1)).
  { unfold DayFromYear. Z.div_mod_to_equations. lia. }
  unfold YearFromDay. cbv zeta.
  set (y0 := 1970 + d * 400 / 146097) in *.
  destruct (Z.leb_spec (DayFromYear (y0 + 1)) d).
  - lia.
  - destruct (Z.leb_spec (DayFromYear y0) d); [lia|].
    replace (y0 - 1 + 1) with y0 by lia. lia.
Qed.

Lemma Day_of_midday (dn off : Z) :
  0 <= off < msPerDay ->
  Day (dn * msPerDay + off) = dn /\ TimeWithinDay (dn * msPerDay + off) = off.
Proof.
  intros H. unfold Day, TimeWithinDay, msPerDay in *.
  Z.div_mod_to_equations. lia.
Qed.

Lemma dayNumber_in_year (s : DateString) :
  legal s = true ->
  DayFromYear (ds_year s) <= dayNumber s < DayFromYear (ds_year s + 1).
Proof.
  intros Hs. apply legal_fields in Hs as (Hy & Hm & Hd).
  rewrite dayNumber_legal by assumption. rewrite DayFromYear_succ.
  pose proof (DaysBeforeMonth_step (ds_year s) (ds_month s) Hm) as Hstep.
  pose proof (leapFlag_nonneg (ds_year s)) as Hl.
  pose proof (DaysBeforeMonth_mono (leapFlag (ds_year s)) (ds_month s) 12 Hl
                ltac:(lia) ltac:(lia)) as H1.
  rewrite DaysBeforeMonth_12 in H1.
  pose proof (DaysBeforeMonth_mono (leapFlag (ds_year s)) 0 (ds_month s - 1) Hl
                ltac:(lia) ltac:(lia)) as H2.
  change (DaysBeforeMonth (leapFlag (ds_year s)) 0) with 0 in H2.
  lia.
Qed.

(** Reading the calendar fields back from the time value of a legal date,
    at any time of that day. *)
Lemma fields_of_time (s : DateString) (off : Z) :
  legal s = true -> 0 <= off < msPerDay ->
  let t := dayNumber s * msPerDay + off in
  YearFromTime t = ds_year s
  /\ MonthFromTime t = ds_month s - 1
  /\ DateFromTime t = ds_day s
  /\ TimeWithinDay t = off.
Proof.
  intros Hs Hoff t.
  destruct (Day_of_midday (dayNumber s) off Hoff) as [Hday Htw].
  assert (Hyear : YearFromTime t = ds_year s).
  { unfold YearFromTime, t. rewrite Hday.
    apply YearFromDay_spec. now apply dayNumber_in_year. }
  assert (Hdwy : DayWithinYear t
                 = DaysBeforeMonth (leapFlag (ds_year s)) (ds_month s - 1)
                   + ds_day s - 1).
  { unfold DayWithinYear. rewrite Hyear. unfold t. rewrite Hday.
    apply legal_fields in Hs as (_ & Hm & _).
    rewrite dayNumber_legal by assumption. lia. }
  assert (Hleap : InLeapYear t = leapFlag (ds_year s)).
  { unfold InLeapYear, leapFlag. now rewrite Hyear. }
  assert (Hmonth : MonthFromTime t = ds_month s - 1).
  { unfold MonthFromTime. cbv zeta. rewrite Hdwy, Hleap.
    apply legal_fields in Hs as (_ & Hm & Hd).
    unfold DaysInMonth, leapFlag in *. apply months_1_12 in Hm.
    destruct (isLeapYear (ds_year s));
      repeat (destruct Hm as [Hm|Hm]); rewrite Hm in *; cbn in Hd |- *;
      repeat match goal with
             | |- context [DaysBeforeMonth ?l ?m] =>
                 let v := eval vm_compute in (DaysBeforeMonth l m) in
                 change (DaysBeforeMonth l m) with v
             end;
      repeat match goal with
             | |- context [if ?a <? ?b then _ else _] =>
                 destruct (Z.ltb_spec a b); try lia
             end. }
  repeat split; auto.
  unfold DateFromTime. rewrite Hdwy, Hleap, Hmonth. lia.
Qed.

(** The local year and month of a legal date string parsed by
    [new Date(...)], in UTC and in the zones east of it. *)
Lemma local_fields_of_parse (zone : Z) (s : DateString) :
  legal s = true -> 0 <= zone < msPerDay ->
  getFullYear zone (Date_parse s) = Some (ds_year s)
  /\ getMonth zone (Date_parse s) = Some (ds_month s - 1).
Proof.
  intros Hs Hz. rewrite Date_parse_legal by assumption. simpl.
  unfold LocalTime.
  destruct (fields_of_time s zone Hs Hz) as (Hy & Hm & _).
  now rewrite Hy, Hm.
Qed.

Lemma attributed_calendar (zone year i : Z) (t : Transaction) :
  legal (tx_date t) = true -> 0 <= zone < msPerDay ->
  attributed zone year i t
  <-> ds_year (tx_date t) = year /\ ds_month (tx_date t) = i.
Proof.
  intros Hl Hz. unfold attributed.
  destruct (local_fields_of_parse zone (tx_date t) Hl Hz) as [-> ->].
  split.
  - intros [[= H1] [= H2]]. split; [exact H1 | lia].
  - intros [-> ->]. split; reflexivity.
Qed.

Lemma parse_le_iff (a b : DateString) :
  legal a = true -> legal b = true ->
  JsDate.le (Date_parse a) (Date_parse b) = true <-> cal_le a b.
Proof.
  intros Ha Hb. rewrite !Date_parse_legal by assumption. simpl.
  rewrite Z.leb_le, <- dayNumber_le by assumption.
  unfold msPerDay. lia.
Qed.

Lemma parse_ge_iff (a b : DateString) :
  legal a = true -> legal b = true ->
  JsDate.ge (Date_parse a) (Date_parse b) = true <-> cal_le b a.
Proof.
  intros Ha Hb. rewrite !Date_parse_legal by assumption. simpl.
  rewrite Z.leb_le, <- dayNumber_le by assumption.
  unfold msPerDay. lia.
Qed.

Lemma cal_le_refl (a : DateString) : cal_le a a.
Proof. unfold cal_le. lia. Qed.

(** C6: for calendar dates [s] and [e] given as date strings, the range
    lookup returns exactly the stored transactions whose date [d]
    satisfies [s <= d <= e] in calendar order; in particular a
    transaction dated on [s] or on [e] itself is returned. *)
Theorem date_range_is_inclusive (ls : LocalStorage) (s e : DateString)
    (t : Transaction) :
  legal s = true -> legal e = true -> legal (tx_date t) = true ->
  (In t (getTransactionsByDateRange (DateStr s) (DateStr e) ls)
   <-> In t (getTransactions ls) /\ cal_le s (tx_date t) /\ cal_le (tx_date t) e)
  /\ (In t (getTransactions ls) -> tx_date t = s -> cal_le s e ->
      In t (getTransactionsByDateRange (DateStr s) (DateStr e) ls))
  /\ (In t (getTransactions ls) -> tx_date t = e -> cal_le s e ->
      In t (getTransactionsByDateRange (DateStr s) (DateStr e) ls)).
Proof.
  intros Hs He Ht.
  assert (Hiff : In t (getTransactionsByDateRange (DateStr s) (DateStr e) ls)
                 <-> In t (getTransactions ls)
                     /\ cal_le s (tx_date t) /\ cal_le (tx_date t) e).
  { unfold getTransactionsByDateRange, inRange. rewrite filter_In. cbv zeta.
    simpl new_Date. rewrite andb_true_iff.
    rewrite parse_ge_iff, parse_le_iff by assumption. reflexivity. }
  split; [exact Hiff|]. split.
  - intros Hin Hd Hse. apply Hiff. subst s. auto using cal_le_refl.
  - intros Hin Hd Hse. apply Hiff. subst e. auto using cal_le_refl.
Qed.

Lemma date_range_is_inclusive_witness :
  let jan5 := tx "expense" 50 "Food" 2024 1 5 in
  let feb1 := tx "expense" 30 "Food" 2024 2 1 in
  In jan5 (getTransactionsByDateRange (DateStr (mkDateString 2024 1 5))
             (DateStr (mkDateString 2024 2 1)) sampleStorage)
  /\ In feb1 (getTransactionsByDateRange (DateStr (mkDateString 2024 1 5))
                (DateStr (mkDateString 2024 2 1)) sampleStorage).
Proof.
  intros jan5 feb1. split.
  - refine (proj1 (proj2 (date_range_is_inclusive sampleStorage
             (mkDateString 2024 1 5) (mkDateString 2024 2 1) jan5
             eq_refl eq_refl eq_refl)) _ eq_refl _).
    + left. reflexivity.
    + right. left. simpl. lia.
  - refine (proj2 (proj2 (date_range_is_inclusive sampleStorage
             (mkDateString 2024 1 5) (mkDateString 2024 2 1) feb1
             eq_refl eq_refl eq_refl)) _ eq_refl _).
    + right. right. left. reflexivity.
    + right. left. simpl. lia.
Defined.

(** ** The monthly series *)

Lemma append_inv_head (s a b : string) : s +:+ a = s +:+ b -> a = b.
Proof. induction s as [|c s IH]; simpl; intros H; [exact H|]. inversion H. auto. Qed.

Lemma monthKey_inj (year i j : Z) :
  1 <= i <= 12 -> 1 <= j <= 12 -> monthKey year i = monthKey year j -> i = j.
Proof.
  intros Hi Hj H. unfold monthKey in H.
  apply append_inv_head in H. apply (append_inv_head "-") in H.
  apply months_1_12 in Hi. apply months_1_12 in Hj.
  repeat (destruct Hi as [->|Hi]); try subst i;
    repeat (destruct Hj as [->|Hj]); try subst j;
    first [reflexivity | vm_compute in H; discriminate H].
Qed.

Lemma initMonths_lookup (year : Z) (k : string) :
  initMonths year !! k
  = if bool_decide (k ∈ (monthKey year <$> monthNumbers))
    then Some zeroMonth else None.
Proof.
  unfold initMonths, monthNumbers. cbn [seq fold_left fmap list_fmap Z.of_nat].
  change (Z.of_nat 0 + 1) with 1.
  repeat match goal with
         | |- context [Z.pos (Pos.of_succ_nat ?n) + 1] =>
             change (Z.pos (Pos.of_succ_nat n) + 1)
               with (Z.succ (Z.pos (Pos.of_succ_nat n)))
         end.
  cbn [Z.succ Z.add Pos.of_succ_nat Pos.succ Pos.add].
  case_bool_decide as Hk.
  - rewrite !elem_of_cons in Hk.
    repeat (destruct Hk as [->|Hk]);
      [ .. | now apply not_elem_of_nil in Hk ];
      repeat first [ apply lookup_insert_eq
                   | rewrite lookup_insert; case_decide; [reflexivity|] ].
  - rewrite !elem_of_cons in Hk.
    repeat (rewrite lookup_insert_ne; [|intros <-; apply Hk; tauto]).
    apply lookup_empty.
Qed.

Lemma addToMonth_lookup zone year m t k :
  addToMonth zone year m t !! k = m !! k
  \/ (exists mo entry entry',
        getFullYear zone (Date_parse (tx_date t)) = Some year
        /\ getMonth zone (Date_parse (tx_date t)) = Some mo
        /\ k = monthKey year (mo + 1)
        /\ m !! k = Some entry
        /\ addToMonth zone year m t !! k = Some entry').
Proof.
  unfold addToMonth. cbv zeta. case_bool_decide as Hy; [|now left].
  destruct (getMonth zone _) as [mo|] eqn:Hm; [|now left].
  destruct (m !! monthKey year (mo + 1)) as [entry|] eqn:He; [|now left].
  destruct (decide (k = monthKey year (mo + 1))) as [->|Hk].
  - right. exists mo, entry. eexists. rewrite lookup_insert_eq. eauto 10.
  - left. now apply lookup_insert_ne.
Qed.

Lemma getMonth_range zone d mo : getMonth zone d = Some mo -> 0 <= mo <= 11.
Proof.
  destruct d as [t|]; simpl; [|discriminate]. intros [= <-].
  apply MonthFromTime_range.
Qed.

Lemma fold_addToMonth_is_Some zone year txs m k :
  is_Some (fold_left (addToMonth zone year) txs m !! k) <-> is_Some (m !! k).
Proof.
  revert m. induction txs as [|t txs IH]; intros m; simpl; [tauto|].
  rewrite IH.
  destruct (addToMonth_lookup zone year m t k)
    as [->|(mo & en & en' & _ & _ & _ & -> & ->)]; [tauto|].
  split; eauto.
Qed.

Lemma fold_addToMonth_untouched zone year i txs m :
  1 <= i <= 12 ->
  (forall t, In t txs -> ~ attributed zone year i t) ->
  fold_left (addToMonth zone year) txs m !! monthKey year i
  = m !! monthKey year i.
Proof.
  intros Hi. revert m. induction txs as [|t txs IH]; intros m H; simpl;
    [reflexivity|].
  rewrite IH by (intros t' Ht'; apply H; now right).
  destruct (addToMonth_lookup zone year m t (monthKey year i))
    as [->|(mo & en & en' & Hy & Hm & Hk & _)]; [reflexivity|].
  exfalso. apply (H t (or_introl eq_refl)).
  pose proof (getMonth_range _ _ _ Hm) as Hr.
  apply monthKey_inj in Hk; [|lia|lia]. subst i.
  split; [exact Hy|]. rewrite Hm. f_equal. lia.
Qed.

Lemma monthKeys_NoDup year : NoDup (monthKey year <$> monthNumbers).
Proof.
  apply NoDup_fmap_2_strong.
  - intros i j Hi Hj. apply monthKey_inj;
      unfold monthNumbers in *; rewrite !elem_of_cons in *;
      repeat (destruct Hi as [->|Hi]); repeat (destruct Hj as [->|Hj]);
      try lia; now apply not_elem_of_nil in Hi || now apply not_elem_of_nil in Hj.
  - apply (bool_decide_unpack _). vm_compute. exact I.
Qed.

Lemma elem_of_monthNumbers i : i ∈ monthNumbers <-> 1 <= i <= 12.
Proof.
  unfold monthNumbers. rewrite !elem_of_cons. split.
  - intros H. repeat (destruct H as [->|H]; [lia|]).
    now apply not_elem_of_nil in H.
  - intros H. apply months_1_12 in H. tauto.
Qed.

(** What holds of the series for every year, zone and store: it has
    exactly twelve entries, under the keys of the twelve months of the
    year; a month to which the loop attributes no stored transaction holds
    [{income: 0, expense: 0}], and so does every month when the loop
    attributes no stored transaction to the year.  In UTC and the zones
    east of it, with legal dates stored, the month the loop attributes a
    transaction to is the month of its date, so there a month in which no
    stored transaction is dated holds zeros. *)
Theorem monthly_series_has_twelve_months (year zone : Z) (ls : LocalStorage) :
  let series := getMonthlySpendingData year zone ls in
  size series = 12%nat
  /\ (forall k, is_Some (series !! k)
                <-> exists i, 1 <= i <= 12 /\ k = monthKey year i)
  /\ (forall i, 1 <= i <= 12 ->
        (forall t, In t (getTransactions ls) -> ~ attributed zone year i t) ->
        series !! monthKey year i = Some zeroMonth)
  /\ ((forall t, In t (getTransactions ls) ->
         getFullYear zone (Date_parse (tx_date t)) <> Some year) ->
      forall i, 1 <= i <= 12 -> series !! monthKey year i = Some zeroMonth)
  /\ (0 <= zone < msPerDay ->
      (forall t, In t (getTransactions ls) -> legal (tx_date t) = true) ->
      forall i, 1 <= i <= 12 ->
        (forall t, In t (getTransactions ls) ->
           ~ (ds_year (tx_date t) = year /\ ds_month (tx_date t) = i)) ->
        series !! monthKey year i = Some zeroMonth)
  /\ zeroMonth !! "income" = Some 0%float
  /\ zeroMonth !! "expense" = Some 0%float.
Proof.
  cbv zeta. unfold getMonthlySpendingData.
  assert (Hkeys : forall k,
             is_Some (fold_left (addToMonth zone year) (getTransactions ls)
                        (initMonths year) !! k)
             <-> k ∈ (monthKey year <$> monthNumbers)).
  { intros k. rewrite fold_addToMonth_is_Some, initMonths_lookup.
    case_bool_decide; split; intros H'; eauto; try tauto.
    now destruct H' as [? [=]]. }
  assert (Hzero : forall i, 1 <= i <= 12 ->
             (forall t, In t (getTransactions ls) -> ~ attributed zone year i t) ->
             fold_left (addToMonth zone year) (getTransactions ls)
               (initMonths year) !! monthKey year i = Some zeroMonth).
  { intros i Hi Hnone. rewrite fold_addToMonth_untouched by assumption.
    rewrite initMonths_lookup. rewrite bool_decide_eq_true_2; [reflexivity|].
    apply list_elem_of_fmap. exists i. split; [reflexivity|].
    now apply elem_of_monthNumbers. }
  split; [|split; [|split; [|split; [|split; [|split; reflexivity]]]]].
  - rewrite <- size_dom.
    assert (dom (fold_left (addToMonth zone year) (getTransactions ls)
                   (initMonths year))
            = list_to_set (monthKey year <$> monthNumbers)) as ->.
    { apply set_eq. intros k. rewrite elem_of_dom, Hkeys, elem_of_list_to_set.
      reflexivity. }
    rewrite size_list_to_set by apply monthKeys_NoDup. reflexivity.
  - intros k. rewrite Hkeys, list_elem_of_fmap. split.
    + intros (i & -> & Hi). exists i. split; [|reflexivity].
      now apply elem_of_monthNumbers.
    + intros (i & Hi & ->). exists i. split; [reflexivity|].
      now apply elem_of_monthNumbers.
  - exact Hzero.
  - intros Hyear i Hi. apply Hzero; [exact Hi|].
    intros t Ht [Hy _]. exact (Hyear t Ht Hy).
  - intros Hz Hlegal i Hi Hnone. apply Hzero; [exact Hi|].
    intros t Ht Ha. apply (Hnone t Ht).
    now apply (attributed_calendar zone year i t (Hlegal t Ht) Hz).
Qed.

Lemma monthly_series_has_twelve_months_witness :
  let series := getMonthlySpendingData 2024 0 sampleStorage in
  series !! "2024-03" = Some zeroMonth
  /\ series !! "2024-01"
     = Some (<[ "income" := 1000%float ]> (<[ "expense" := 50%float ]> ∅))
  /\ getMonthlySpendingData 2023 0 sampleStorage !! "2023-07" = Some zeroMonth.
Proof.
  split; [|split; [reflexivity|]].
  - refine (proj1 (proj2 (proj2
             (monthly_series_has_twelve_months 2024 0 sampleStorage))) 3 _ _);
      [lia|].
    intros t [<-|[<-|[<-|[]]]] [_ H]; vm_compute in H; discriminate H.
  - refine (proj1 (proj2 (proj2 (proj2
             (monthly_series_has_twelve_months 2023 0 sampleStorage)))) _ 7 _);
      [|lia].
    intros t [<-|[<-|[<-|[]]]] H; vm_compute in H; discriminate H.
Defined.

(** C5 (the code departs from it): five hours west of UTC, with a store
    that holds a single income dated 2025-01-01, the series of 2024 has
    its twelve entries, but the entry of December 2024, a month and a year
    in which no stored transaction is dated, reports that income instead
    of zeros; January 2025, the month of the transaction, holds zeros in
    the series of 2025.  In UTC the same store gives the zeros the claim
    asks for. *)
Theorem monthly_series_west_of_utc :
  let ls := mkLocalStorage (Some [newYearSalary]) None None in
  let west := -18000000 in
  let series := getMonthlySpendingData 2024 west ls in
  getTransactions ls = [newYearSalary]
  /\ tx_date newYearSalary = mkDateString 2025 1 1
  /\ size series = 12%nat
  /\ series !! "2024-12"
     = Some (<[ "income" := 100%float ]> (<[ "expense" := 0%float ]> ∅))
  /\ series !! "2024-12" <> Some zeroMonth
  /\ getMonthlySpendingData 2025 west ls !! "2025-01" = Some zeroMonth
  /\ getMonthlySpendingData 2024 0 ls !! "2024-12" = Some zeroMonth
  /\ getMonthlySpendingData 2025 0 ls !! "2025-01"
     = Some (<[ "income" := 100%float ]> (<[ "expense" := 0%float ]> ∅)).
Proof.
  cbv zeta.
  assert (H12 : getMonthlySpendingData 2024 (-18000000)
                  (mkLocalStorage (Some [newYearSalary]) None None) !! "2024-12"
                = Some (<[ "income" := 100%float ]> (<[ "expense" := 0%float ]> ∅)))
    by (vm_compute; reflexivity).
  split; [reflexivity|]. split; [reflexivity|].
  split; [apply monthly_series_has_twelve_months|].
  split; [exact H12|]. split; [|repeat split; vm_compute; reflexivity].
  rewrite H12. intros H.
  apply (f_equal (fun m => m ≫= (fun entry => entry !! "income"))) in H.
  vm_compute in H.
  assert (H' : PrimFloat.eqb 100 0 = PrimFloat.eqb 0 0) by congruence.
  vm_compute in H'. discriminate H'.
Qed.

(** ** Budget versus actual *)

Lemma budgetWindow_monthly (zone : Z) (currentDate : option Z) (b : Budget) :
  bg_period b = "monthly" ->
  budgetWindow zone currentDate b
  = (Date_ymd zone (getFullYear zone currentDate) (getMonth zone currentDate) 1,
     Date_ymd zone (getFullYear zone currentDate)
       (Z.add 1 <$> getMonth zone currentDate) 0).
Proof. intros H. unfold budgetWindow. now rewrite bool_decide_eq_true_2. Qed.

(** The monthly window is the same whatever the budget's start date. *)
Lemma budgetWindow_monthly_ignores_startDate zone currentDate (b b' : Budget) :
  bg_period b = "monthly" -> bg_period b' = "monthly" ->
  budgetWindow zone currentDate b = budgetWindow zone currentDate b'.
Proof. intros H H'. now rewrite !budgetWindow_monthly. Qed.

Lemma DaysInMonth_range (y m : Z) : 28 <= DaysInMonth y m <= 31.
Proof.
  unfold DaysInMonth.
  destruct (m =? 2); [destruct (isLeapYear y); lia|].
  destruct ((m =? 4) || (m =? 6) || (m =? 9) || (m =? 11)); lia.
Qed.

Lemma legal_firstOfMonth (y m0 : Z) :
  0 <= y <= 9999 -> 0 <= m0 <= 11 -> legal (firstOfMonth y m0) = true.
Proof.
  intros Hy Hm. unfold legal, firstOfMonth. simpl.
  pose proof (DaysInMonth_range y (m0 + 1)).
  rewrite !andb_true_iff, !Z.leb_le. lia.
Qed.

Lemma legal_lastOfMonth (y m0 : Z) :
  0 <= y <= 9999 -> 0 <= m0 <= 11 -> legal (lastOfMonth y m0) = true.
Proof.
  intros Hy Hm. unfold legal, lastOfMonth. simpl.
  pose proof (DaysInMonth_range y (m0 + 1)).
  rewrite !andb_true_iff, !Z.leb_le. lia.
Qed.

Lemma MakeDay_first (y m0 : Z) :
  MakeDay y m0 1 = dayNumber (firstOfMonth y m0).
Proof.
  unfold dayNumber, firstOfMonth. simpl. now replace (m0 + 1 - 1) with m0 by lia.
Qed.

(** Day 0 of the next month is the last day of the month. *)
Lemma MakeDay_day0 (y m0 : Z) :
  0 <= m0 <= 11 -> MakeDay y (1 + m0) 0 = dayNumber (lastOfMonth y m0).
Proof.
  intros Hm. rewrite dayNumber_legal by (simpl; lia).
  unfold lastOfMonth. cbn [ds_year ds_month ds_day].
  pose proof (DaysBeforeMonth_step y (m0 + 1) ltac:(lia)) as Hstep.
  replace (m0 + 1 - 1) with m0 in * by lia.
  unfold MakeDay. cbv zeta. fold (leapFlag (y + (1 + m0) / 12)).
  destruct (Z.eq_dec m0 11) as [->|Hne].
  - change ((1 + 11) / 12) with 1. change ((1 + 11) mod 12) with 0.
    rewrite DayFromYear_succ. change (11 + 1) with 12 in *.
    rewrite DaysBeforeMonth_12 in Hstep.
    change (DaysBeforeMonth (leapFlag (y + 1)) 0) with 0. lia.
  - replace ((1 + m0) / 12) with 0 by (Z.div_mod_to_equations; lia).
    replace ((1 + m0) mod 12) with (m0 + 1) by (Z.div_mod_to_equations; lia).
    rewrite !Z.add_0_r. lia.
Qed.

Lemma TimeClip_day (dn zone : Z) :
  -719528 <= dn < 2932897 -> - msPerDay < zone < msPerDay ->
  TimeClip (UTC zone (MakeDate dn 0)) = Some (dn * msPerDay - zone).
Proof.
  intros Hd Hz. unfold TimeClip, UTC, MakeDate, msPerDay in *.
  rewrite Z.add_0_r.
  destruct (Z.leb_spec (Z.abs (dn * 86400000 - zone)) 8640000000000000);
    [reflexivity | lia].
Qed.

(** The monthly window at the instant [t]: from local midnight of the
    first day to local midnight of the last day of the month [t] falls in
    (local time), for years written with three or four digits. *)
Lemma monthly_window_endpoints (zone t : Z) (b : Budget) :
  bg_period b = "monthly" -> - msPerDay < zone < msPerDay ->
  let y := YearFromTime (LocalTime zone t) in
  let m0 := MonthFromTime (LocalTime zone t) in
  100 <= y <= 9999 ->
  budgetWindow zone (Some t) b
  = (Some (dayNumber (firstOfMonth y m0) * msPerDay - zone),
     Some (dayNumber (lastOfMonth y m0) * msPerDay - zone)).
Proof.
  intros Hp Hz y m0 Hy. rewrite (budgetWindow_monthly _ _ _ Hp).
  pose proof (MonthFromTime_range (LocalTime zone t)) as Hm. fold m0 in Hm.
  unfold Date_ymd, getFullYear, getMonth. simpl. fold y m0.
  assert (Hq : (0 <=? y) && (y <=? 99) = false).
  { apply andb_false_iff. right. apply Z.leb_gt. lia. }
  rewrite Hq, MakeDay_first, MakeDay_day0 by assumption.
  rewrite !TimeClip_day; try assumption; try reflexivity;
    apply dayNumber_bounds;
    [apply legal_lastOfMonth | apply legal_firstOfMonth]; lia.
Qed.

Lemma in_month_iff (y m0 : Z) (d : DateString) :
  legal d = true -> 0 <= m0 <= 11 ->
  (cal_le (firstOfMonth y m0) d /\ cal_le d (lastOfMonth y m0))
  <-> (ds_year d = y /\ ds_month d = m0 + 1).
Proof.
  intros Hd Hm. apply legal_fields in Hd as (_ & _ & Hday).
  unfold cal_le, firstOfMonth, lastOfMonth. simpl. split.
  - lia.
  - intros [<- <-]. lia.
Qed.

(** In UTC the monthly window holds exactly the expense transactions
    dated in the current calendar month. *)
Lemma monthly_window_is_current_month (t : Z) (b : Budget) (x : Transaction) :
  bg_period b = "monthly" -> legal (tx_date x) = true ->
  let y := YearFromTime t in
  let m0 := MonthFromTime t in
  100 <= y <= 9999 ->
  let '(startDate, endDate) := budgetWindow 0 (Some t) b in
  inWindow startDate endDate x = true
  <-> (tx_type x = "expense"
       /\ ds_year (tx_date x) = y /\ ds_month (tx_date x) = m0 + 1).
Proof.
  intros Hp Hl y m0 Hy.
  pose proof (monthly_window_endpoints 0 t b Hp ltac:(unfold msPerDay; lia)) as Hw.
  cbv zeta in Hw. unfold LocalTime in Hw. rewrite Z.add_0_r in Hw.
  fold y m0 in Hw. rewrite (Hw Hy). clear Hw.
  pose proof (MonthFromTime_range t) as Hm. fold m0 in Hm.
  rewrite !Z.sub_0_r.
  rewrite <- !Date_parse_legal
    by (apply legal_lastOfMonth || apply legal_firstOfMonth; lia).
  unfold inWindow. cbv zeta. rewrite !andb_true_iff, bool_decide_eq_true.
  rewrite parse_ge_iff, parse_le_iff
    by (assumption || apply legal_lastOfMonth || apply legal_firstOfMonth; lia).
  rewrite in_month_iff by assumption. tauto.
Qed.

(** The annual window: from the start date to the same date one year
    later, both ends included by the [<=] of the filter. *)
Lemma annual_window_endpoints (zone : Z) (cur : option Z) (b : Budget) :
  bg_period b <> "monthly" -> 0 <= zone < msPerDay ->
  legal (bg_startDate b) = true -> legal (nextYear (bg_startDate b)) = true ->
  budgetWindow zone cur b
  = (Date_parse (bg_startDate b), Date_parse (nextYear (bg_startDate b))).
Proof.
  intros Hp Hz Hs Hn. unfold budgetWindow.
  rewrite bool_decide_eq_false_2 by assumption. cbv zeta. f_equal.
  rewrite (Date_parse_legal _ Hs), (Date_parse_legal _ Hn).
  unfold getFullYear, setFullYear. simpl. unfold LocalTime.
  destruct (fields_of_time (bg_startDate b) zone Hs Hz) as (Hy & Hm & Hd & Ht).
  rewrite Hy, Hm, Hd, Ht.
  replace (1 + ds_year (bg_startDate b)) with (ds_year (bg_startDate b) + 1)
    by lia.
  change (MakeDay (ds_year (bg_startDate b) + 1) (ds_month (bg_startDate b) - 1)
            (ds_day (bg_startDate b)))
    with (dayNumber (nextYear (bg_startDate b))).
  pose proof (dayNumber_bounds _ Hn) as Hb.
  unfold TimeClip, UTC, MakeDate.
  replace (dayNumber (nextYear (bg_startDate b)) * msPerDay + zone - zone)
    with (dayNumber (nextYear (bg_startDate b)) * msPerDay) by lia.
  destruct (Z.leb_spec (Z.abs (dayNumber (nextYear (bg_startDate b)) * msPerDay))
              8640000000000000); [reflexivity|].
  unfold msPerDay in *. lia.
Qed.

(** A transaction dated exactly one year after the start of an annual
    budget passes the window test. *)
Lemma annual_window_includes_anniversary zone cur (b : Budget) (x : Transaction) :
  bg_period b <> "monthly" -> 0 <= zone < msPerDay ->
  legal (bg_startDate b) = true -> legal (nextYear (bg_startDate b)) = true ->
  tx_date x = nextYear (bg_startDate b) -> tx_type x = "expense" ->
  let '(startDate, endDate) := budgetWindow zone cur b in
  inWindow startDate endDate x = true.
Proof.
  intros Hp Hz Hs Hn Hx Ht.
  rewrite annual_window_endpoints by assumption.
  unfold inWindow. cbv zeta. rewrite Hx, !andb_true_iff, bool_decide_eq_true.
  rewrite parse_ge_iff, parse_le_iff by assumption.
  repeat split; [|apply cal_le_refl|exact Ht].
  unfold cal_le, nextYear. simpl. lia.
Qed.

(** C2 (the code departs from it): for an annual budget starting on
    2024-01-01 the expense dated 2025-01-01, exactly one year after the
    start, is counted in [actualSpent] (30 + 40 = 70, not 30); the expense
    of the following day is not.  In UTC and in a zone east of it. *)
Theorem annual_window_counts_the_anniversary :
  let W zone :=
    mkWorld (quietEnv zone 1718409600000) 0
      (mkLocalStorage (Some [midYear; anniversary; dayAfter]) (Some [yearlyFood])
         None) in
  budgetWindow 0 (Some 1718409600000) yearlyFood
  = (Date_parse (mkDateString 2024 1 1), Date_parse (mkDateString 2025 1 1))
  /\ inWindow (Date_parse (mkDateString 2024 1 1))
       (Date_parse (mkDateString 2025 1 1)) anniversary = true
  /\ fst (getBudgetVsActual (W 0))
     = [ mkBudgetVsActual "Food" 1200 70 1130
           (PrimFloat.mul (PrimFloat.div 70 1200) 100) ]
  /\ actualSpent <$> fst (getBudgetVsActual (W 19800000)) = [ 70%float ].
Proof. repeat split. Qed.

(** A monthly budget created in November 2023 and evaluated on
    2024-01-15 counts the expenses of January 2024.  In UTC the last day of
    the month is in the window; five and a half hours east of UTC the
    window ends at local midnight of that day, which is before the UTC
    midnight the transaction date parses to, and the expense is left out. *)
Example monthly_window_last_day :
  let lastDay := tx "expense" 9 "Food" 2024 1 31 in
  let dayBefore := tx "expense" 9 "Food" 2024 1 30 in
  let november := tx "expense" 9 "Food" 2023 11 20 in
  let window zone := budgetWindow zone (Some 1705300200000) monthlyFood in
  window 0 = (Date_parse (mkDateString 2024 1 1),
              Date_parse (mkDateString 2024 1 31))
  /\ inWindow (fst (window 0)) (snd (window 0)) lastDay = true
  /\ inWindow (fst (window 0)) (snd (window 0)) november = false
  /\ inWindow (fst (window 19800000)) (snd (window 19800000)) dayBefore = true
  /\ inWindow (fst (window 19800000)) (snd (window 19800000)) lastDay = false.
Proof. repeat split. Qed.

(** ** Further properties of the storage manager *)

(** *** Lookups and the other collections *)

Lemma find_None_iff {A} (p : A -> bool) (l : list A) :
  List.find p l = None <-> forall x, In x l -> p x = false.
Proof.
  split.
  - intros H x Hx. exact (find_none p l H x Hx).
  - induction l as [|a l IH]; intros H; simpl; [reflexivity|].
    rewrite (H a (or_introl eq_refl)). apply IH. intros x Hx. apply H. now right.
Qed.

Lemma find_Some_first {A} (p : A -> bool) (l : list A) (x : A) :
  List.find p l = Some x ->
  p x = true
  /\ exists l1 l2, l = l1 ++ x :: l2 /\ forall y, In y l1 -> p y = false.
Proof.
  induction l as [|a l IH]; simpl; [discriminate|].
  destruct (p a) eqn:Ha.
  - intros [= ->]. split; [exact Ha|]. exists [], l. split; [reflexivity|].
    intros y [].
  - intros H. destruct (IH H) as (Hp & l1 & l2 & -> & Hl1).
    split; [exact Hp|]. exists (a :: l1), l2. split; [reflexivity|].
    intros y [<-|Hy]; auto.
Qed.

Lemma find_filter_keep {A} (p q : A -> bool) (l : list A) :
  (forall x, p x = true -> q x = true) ->
  List.find p (List.filter q l) = List.find p l.
Proof.
  intros H. induction l as [|a l IH]; simpl; [reflexivity|].
  destruct (q a) eqn:Hq; simpl.
  - destruct (p a); [reflexivity | exact IH].
  - destruct (p a) eqn:Hp; [|exact IH].
    rewrite (H a Hp) in Hq. discriminate.
Qed.

Lemma find_insert_other {A} (p : A -> bool) (l : list A) (k : nat) (old x : A) :
  l !! k = Some old -> p old = false -> p x = false ->
  List.find p (<[ k := x ]> l) = List.find p l.
Proof.
  revert k. induction l as [|a l IH]; intros [|k] Hk Ho Hx; simpl in *;
    try discriminate.
  - injection Hk as ->. now rewrite Ho, Hx.
  - destruct (p a); [reflexivity|]. now apply IH.
Qed.

Lemma find_app_other {A} (p : A -> bool) (l : list A) (x : A) :
  p x = false -> List.find p (l ++ [x]) = List.find p l.
Proof.
  intros Hx. induction l as [|a l IH]; simpl; [now rewrite Hx|].
  destruct (p a); [reflexivity | exact IH].
Qed.

(** A record with another key is found as before once [x] is stored. *)
Lemma find_stored_other {A K} `{EqDecision K} (key : A -> K) (l : list A)
    (x : A) (j : K) :
  key x <> j ->
  List.find (fun y => bool_decide (key y = j))
    (stored (fun y => bool_decide (key y = key x)) l x)
  = List.find (fun y => bool_decide (key y = j)) l.
Proof.
  intros Hne. unfold stored.
  destruct (Js.findIndex _ l) as [k|] eqn:E.
  - destruct (findIndex_Some _ _ _ E) as (old & Hold & Hk & _).
    apply bool_decide_eq_true in Hk.
    apply (find_insert_other _ _ _ old); [exact Hold | |];
      apply bool_decide_eq_false; congruence.
  - apply find_app_other. now apply bool_decide_eq_false.
Qed.

(** Lookup by id: the result is absent exactly when no stored record
    carries the id, and a record that is found carries the id and is the
    first of the collection to do so.  For transactions and budgets. *)
Theorem lookup_by_id_finds_first (ls : LocalStorage) (id : string) :
  (getTransactionById id ls = None
   <-> forall t, In t (getTransactions ls) -> tx_id t <> Some id)
  /\ (forall t, getTransactionById id ls = Some t ->
        tx_id t = Some id
        /\ exists l1 l2, getTransactions ls = l1 ++ t :: l2
                         /\ forall y, In y l1 -> tx_id y <> Some id)
  /\ (getBudgetById id ls = None
      <-> forall b, In b (getBudgets ls) -> bg_id b <> Some id)
  /\ (forall b, getBudgetById id ls = Some b ->
        bg_id b = Some id
        /\ exists l1 l2, getBudgets ls = l1 ++ b :: l2
                         /\ forall y, In y l1 -> bg_id y <> Some id).
Proof.
  unfold getTransactionById, getBudgetById. repeat split.
  - intros H t Ht. rewrite find_None_iff in H.
    specialize (H t Ht). now apply bool_decide_eq_false in H.
  - intros H. apply find_None_iff. intros t Ht.
    apply bool_decide_eq_false. now apply H.
  - apply find_Some_first in H as [H _]. now apply bool_decide_eq_true in H.
  - apply find_Some_first in H as (_ & l1 & l2 & Hl & Hf).
    exists l1, l2. split; [exact Hl|]. intros y Hy.
    specialize (Hf y Hy). now apply bool_decide_eq_false in Hf.
  - intros H t Ht. rewrite find_None_iff in H.
    specialize (H t Ht). now apply bool_decide_eq_false in H.
  - intros H. apply find_None_iff. intros t Ht.
    apply bool_decide_eq_false. now apply H.
  - apply find_Some_first in H as [H _]. now apply bool_decide_eq_true in H.
  - apply find_Some_first in H as (_ & l1 & l2 & Hl & Hf).
    exists l1, l2. split; [exact Hl|]. intros y Hy.
    specialize (Hf y Hy). now apply bool_decide_eq_false in Hf.
Qed.

(** Saving a record changes nothing but the record with its id: every
    other id is looked up as before, the other two collections are
    untouched, and when the write is rejected the whole store is as
    before.  For [saveTransaction] and [saveBudget]. *)
Theorem save_frame (w : World) :
  (forall r : Transaction,
     let '((ok, r'), w') := saveTransaction r w in
     (forall j, tx_id r' <> Some j ->
        getTransactionById j (localStorage w')
        = getTransactionById j (localStorage w))
     /\ getBudgets (localStorage w') = getBudgets (localStorage w)
     /\ getCategories (localStorage w') = getCategories (localStorage w)
     /\ (ok = false -> localStorage w' = localStorage w))
  /\ (forall b : Budget,
     let '((ok, b'), w') := saveBudget b w in
     (forall j, bg_id b' <> Some j ->
        getBudgetById j (localStorage w') = getBudgetById j (localStorage w))
     /\ getTransactions (localStorage w') = getTransactions (localStorage w)
     /\ getCategories (localStorage w') = getCategories (localStorage w)
     /\ (ok = false -> localStorage w' = localStorage w)).
Proof.
  split.
  - intros r. rewrite saveTransaction_eq. cbv zeta.
    destruct (setItem_throws _ _); cbn [localStorage].
    + repeat split.
    + split; [|repeat split; discriminate].
      intros j Hj. unfold getTransactionById.
      rewrite getTransactions_stored.
      change (tx_id (stamped w r)) with (tx_id (JSON_transaction (stamped w r))).
      now apply (find_stored_other tx_id).
  - intros b. rewrite saveBudget_eq. cbv zeta.
    destruct (setItem_throws _ _); cbn [localStorage].
    + repeat split.
    + split; [|repeat split; discriminate].
      intros j Hj. unfold getBudgetById.
      rewrite getBudgets_stored.
      change (bg_id (stampedBudget w b))
        with (bg_id (JSON_budget (stampedBudget w b))).
      now apply (find_stored_other bg_id).
Qed.

(** After a delete that reports success the id is no longer found, every
    other id is found as before, and the other collections are untouched;
    a delete that reports failure leaves the store as it was. *)
Theorem delete_then_lookup (w : World) (id : string) :
  (let '(ok, w') := deleteTransaction id w in
   (ok = true -> getTransactionById id (localStorage w') = None)
   /\ (forall j, j <> id ->
         getTransactionById j (localStorage w')
         = getTransactionById j (localStorage w))
   /\ getBudgets (localStorage w') = getBudgets (localStorage w)
   /\ getCategories (localStorage w') = getCategories (localStorage w)
   /\ (ok = false -> localStorage w' = localStorage w))
  /\ (let '(ok, w') := deleteBudget id w in
      (ok = true -> getBudgetById id (localStorage w') = None)
      /\ (forall j, j <> id ->
            getBudgetById j (localStorage w')
            = getBudgetById j (localStorage w))
      /\ getTransactions (localStorage w') = getTransactions (localStorage w)
      /\ getCategories (localStorage w') = getCategories (localStorage w)
      /\ (ok = false -> localStorage w' = localStorage w)).
Proof.
  split.
  - rewrite deleteTransaction_eq. cbv zeta.
    destruct (setItem_throws _ _); cbn [localStorage].
    + repeat split. discriminate.
    + unfold getTransactionById. rewrite getTransactions_kept.
      repeat split; try discriminate.
      * intros _. apply find_None_iff. intros t Ht.
        apply filter_In in Ht as [_ Ht]. now apply negb_true_iff in Ht.
      * intros j Hj. apply find_filter_keep. intros t Ht.
        apply bool_decide_eq_true in Ht. apply negb_true_iff.
        apply bool_decide_eq_false. congruence.
  - rewrite deleteBudget_eq. cbv zeta.
    destruct (setItem_throws _ _); cbn [localStorage].
    + repeat split. discriminate.
    + unfold getBudgetById. rewrite getBudgets_kept.
      repeat split; try discriminate.
      * intros _. apply find_None_iff. intros t Ht.
        apply filter_In in Ht as [_ Ht]. now apply negb_true_iff in Ht.
      * intros j Hj. apply find_filter_keep. intros t Ht.
        apply bool_decide_eq_true in Ht. apply negb_true_iff.
        apply bool_decide_eq_false. congruence.
Qed.

(** *** Ids and the size of a collection *)

Lemma toString36_aux_nonempty (fuel : nat) (n : N) (acc : string) :
  Js.toString36_aux fuel n acc <> "".
Proof.
  revert n acc. induction fuel as [|f IH]; intros n acc; simpl.
  - discriminate.
  - destruct (n / 36 =? 0)%N; [discriminate | apply IH].
Qed.

Lemma toString36_nonempty (n : Z) : Js.toString36 n <> "".
Proof.
  destruct n; simpl; [discriminate | apply toString36_aux_nonempty | discriminate].
Qed.

Lemma freshId_nonempty (w : World) : freshId w <> "".
Proof.
  unfold freshId. pose proof (toString36_nonempty (Date_now (env w) (tick w))).
  destruct (Js.toString36 _); [contradiction | discriminate].
Qed.

Lemma stamped_truthy (w : World) (r : Transaction) :
  Js.falsy_string (tx_id (stamped w r)) = false.
Proof.
  destruct (Js.falsy_string (tx_id r)) eqn:E.
  - rewrite (stamped_id_new _ _ E). apply falsy_string_Some, freshId_nonempty.
  - now rewrite (stamped_id_old _ _ E).
Qed.

Lemma stampedBudget_id (w : World) (b : Budget) :
  bg_id (stampedBudget w b)
  = if Js.falsy_string (bg_id b) then Some (freshId w) else bg_id b.
Proof. unfold stampedBudget. now destruct (Js.falsy_string (bg_id b)). Qed.

Lemma stampedBudget_truthy (w : World) (b : Budget) :
  Js.falsy_string (bg_id (stampedBudget w b)) = false.
Proof.
  rewrite stampedBudget_id. destruct (Js.falsy_string (bg_id b)) eqn:E.
  - apply falsy_string_Some, freshId_nonempty.
  - exact E.
Qed.

Lemma findIndex_None_iff {A} (p : A -> bool) (l : list A) :
  Js.findIndex p l = None <-> forall x, In x l -> p x = false.
Proof.
  split; [apply findIndex_None|].
  intros H. destruct (Js.findIndex p l) as [k|] eqn:E; [|reflexivity].
  destruct (findIndex_Some _ _ _ E) as (x & Hx & Hp & _).
  apply list_elem_of_lookup_2, list_elem_of_In in Hx.
  rewrite (H x Hx) in Hp. discriminate.
Qed.

(** The id [generateId] returns is never empty, so the record a save
    leaves with the caller always carries a truthy id; a save appends one
    record (the caller's, as JSON writes it) exactly when no stored record
    has that id and otherwise keeps the length, and a rejected write keeps
    the collection.  For transactions and budgets. *)
Theorem save_appends_only_new_ids (w : World) :
  fst (generateId w) <> ""
  /\ (forall r : Transaction,
      let '((ok, r'), w') := saveTransaction r w in
      let before := getTransactions (localStorage w) in
      let after := getTransactions (localStorage w') in
      Js.falsy_string (tx_id r') = false
      /\ (ok = false -> after = before)
      /\ (ok = true -> (exists t, In t before /\ tx_id t = tx_id r') ->
          length after = length before)
      /\ (ok = true -> (forall t, In t before -> tx_id t <> tx_id r') ->
          after = before ++ [JSON_transaction r']))
  /\ (forall b : Budget,
      let '((ok, b'), w') := saveBudget b w in
      let before := getBudgets (localStorage w) in
      let after := getBudgets (localStorage w') in
      Js.falsy_string (bg_id b') = false
      /\ (ok = false -> after = before)
      /\ (ok = true -> (exists t, In t before /\ bg_id t = bg_id b') ->
          length after = length before)
      /\ (ok = true -> (forall t, In t before -> bg_id t <> bg_id b') ->
          after = before ++ [JSON_budget b'])).
Proof.
  split; [rewrite <- freshId_generateId; apply freshId_nonempty|]. split.
  - intros r. rewrite saveTransaction_eq. cbv zeta.
    destruct (setItem_throws _ _); cbn [localStorage].
    + split; [apply stamped_truthy|]. repeat split; discriminate.
    + rewrite getTransactions_stored.
      split; [apply stamped_truthy|]. split; [discriminate|]. split.
      * intros _ (t & Hin & Ht).
        destruct (findIndex_is_Some
                    (fun y => bool_decide (tx_id y = tx_id (stamped w r)))
                    _ t Hin) as [k Hk].
        { now apply bool_decide_eq_true. }
        eapply length_stored_found. exact Hk.
      * intros _ Hnew. unfold stored.
        rewrite (proj2 (findIndex_None_iff _ _)); [reflexivity|].
        intros t Ht. apply bool_decide_eq_false. now apply Hnew.
  - intros b. rewrite saveBudget_eq. cbv zeta.
    destruct (setItem_throws _ _); cbn [localStorage].
    + split; [apply stampedBudget_truthy|]. repeat split; discriminate.
    + rewrite getBudgets_stored.
      split; [apply stampedBudget_truthy|]. split; [discriminate|]. split.
      * intros _ (t & Hin & Ht).
        destruct (findIndex_is_Some
                    (fun y => bool_decide (bg_id y = bg_id (stampedBudget w b)))
                    _ t Hin) as [k Hk].
        { now apply bool_decide_eq_true. }
        eapply length_stored_found. exact Hk.
      * intros _ Hnew. unfold stored.
        rewrite (proj2 (findIndex_None_iff _ _)); [reflexivity|].
        intros t Ht. apply bool_decide_eq_false. now apply Hnew.
Qed.

(** Saving the record a successful save handed back, again with the
    write accepted, updates it in place: the collection keeps its length,
    the record keeps its id and [createdAt], and the lookup by its id
    returns it as JSON keeps it, which is the record itself when its
    amount is a number JSON writes back unchanged. *)
Theorem save_again_updates_in_place (w : World) (r : Transaction) :
  setItem_throws (env w) (writeTick w (tx_id r)) = false ->
  setItem_throws (env w) (2 + writeTick w (tx_id r)) = false ->
  let '((ok1, r1), w1) := saveTransaction r w in
  let '((ok2, r2), w2) := saveTransaction r1 w1 in
  ok1 = true /\ ok2 = true
  /\ length (getTransactions (localStorage w2))
     = length (getTransactions (localStorage w1))
  /\ tx_id r2 = tx_id r1
  /\ tx_createdAt r2 = tx_createdAt r1
  /\ tx_amount r2 = tx_amount r
  /\ (forall i, tx_id r1 = Some i ->
      getTransactionById i (localStorage w2) = Some (JSON_transaction r2)
      /\ (Js.JSON_number (tx_amount r) = tx_amount r ->
          getTransactionById i (localStorage w2) = Some r2)).
Proof.
  intros H1 H2. rewrite saveTransaction_eq. cbv zeta. rewrite H1.
  cbv beta iota.
  set (r1 := stamped w r).
  set (w1 := mkWorld (env w) (S (writeTick w (tx_id r)))
               (putItem transactions
                  (Some (map JSON_transaction
                           (stored _ (getTransactions (localStorage w)) r1)))
                  (localStorage w))).
  set (l1 := stored (fun t => bool_decide (tx_id t = tx_id r1))
               (getTransactions (localStorage w)) (JSON_transaction r1)).
  assert (Hl1 : getTransactions (localStorage w1) = l1)
    by apply getTransactions_stored.
  pose proof (stamped_truthy w r) as Ht. fold r1 in Ht.
  rewrite saveTransaction_eq. cbv zeta.
  assert (Hk : writeTick w1 (tx_id r1) = (2 + writeTick w (tx_id r))%nat).
  { unfold writeTick at 1. rewrite Ht. reflexivity. }
  rewrite Hk. change (env w1) with (env w). rewrite H2. cbv beta iota.
  cbn [localStorage]. unfold getTransactionById.
  rewrite !(getTransactions_stored (localStorage w1)). rewrite Hl1.
  assert (Hid : tx_id (stamped w1 r1) = tx_id r1)
    by (now apply stamped_id_old).
  assert (Ham : tx_amount (stamped w1 r1) = tx_amount r).
  { unfold stamped at 1. rewrite Ht. unfold r1, stamped.
    now destruct (Js.falsy_string (tx_id r)). }
  assert (Hin : In (JSON_transaction r1) l1).
  { assert (Hf : List.find (fun t => bool_decide (tx_id t = tx_id r1)) l1
                 = Some (JSON_transaction r1)).
    { apply find_stored. now apply bool_decide_eq_true. }
    now apply find_some in Hf as [Hf _]. }
  assert (Hfound : forall i, tx_id r1 = Some i ->
            List.find (fun t => bool_decide (tx_id t = Some i))
              (stored (fun t => bool_decide (tx_id t = tx_id (stamped w1 r1)))
                 l1 (JSON_transaction (stamped w1 r1)))
            = Some (JSON_transaction (stamped w1 r1))).
  { intros i Hi. rewrite Hid, Hi.
    apply find_stored. apply bool_decide_eq_true.
    change (tx_id (JSON_transaction (stamped w1 r1)))
      with (tx_id (stamped w1 r1)).
    now rewrite Hid. }
  split; [reflexivity|]. split; [reflexivity|]. split; [|split; [|split; [|split]]].
  - destruct (findIndex_is_Some
                (fun y => bool_decide (tx_id y = tx_id (stamped w1 r1)))
                l1 (JSON_transaction r1) Hin) as [k Hk'].
    { apply bool_decide_eq_true. now rewrite Hid. }
    eapply length_stored_found. exact Hk'.
  - exact Hid.
  - unfold stamped. rewrite Ht. reflexivity.
  - exact Ham.
  - intros i Hi. split; [now apply Hfound|].
    intros Hj. rewrite (Hfound i Hi). f_equal.
    apply JSON_transaction_stable. now rewrite Ham.
Qed.

Lemma save_again_updates_in_place_witness :
  let W := storedWorld 0 [lunch] [] in
  let new := tx "expense" 50 "Food" 2024 1 5 in
  let w1 := snd (saveTransaction new W) in
  let r1 := snd (fst (saveTransaction new W)) in
  length (getTransactions (localStorage (snd (saveTransaction r1 w1))))
  = length (getTransactions (localStorage w1))
  /\ tx_createdAt (snd (fst (saveTransaction r1 w1))) = Some 1704412800002.
Proof.
  intros W new w1 r1.
  pose proof (save_again_updates_in_place W new eq_refl eq_refl) as H.
  cbv zeta in H. fold w1 r1 in H.
  destruct (saveTransaction new W) as [[ok1 r1'] w1'] eqn:E1.
  subst w1 r1. cbn [fst snd] in *.
  destruct (saveTransaction r1' w1') as [[ok2 r2] w2] eqn:E2.
  destruct H as (_ & _ & Hlen & _ & Hc & _). split; [exact Hlen|].
  cbn [fst snd]. rewrite Hc. rewrite saveTransaction_eq in E1.
  injection E1 as _ <- _. reflexivity.
Defined.

(** *** Budgets *)

Lemma find_app_found {A} (p : A -> bool) (l l' : list A) (x : A) :
  List.find p l = Some x -> List.find p (l ++ l') = Some x.
Proof.
  induction l as [|a l IH]; simpl; [discriminate|].
  destruct (p a); [auto | exact IH].
Qed.

(** [saveBudget] followed by [getBudgetById] with the assigned id gives
    the budget as JSON keeps it: the input with [id], [createdAt] and
    [updatedAt] set and the amount as it reads back, the amount itself for
    a number JSON writes back unchanged.  A budget whose id is in the
    collection overwrites the first budget with that id and the collection
    keeps its length.  With the write accepted. *)
Theorem saveBudget_then_getById_roundtrip (w : World) (b : Budget) :
  setItem_throws (env w) (writeTick w (bg_id b)) = false ->
  let '((ok, b'), w') := saveBudget b w in
  let before := getBudgets (localStorage w) in
  let after := getBudgets (localStorage w') in
  ok = true
  /\ (Js.falsy_string (bg_id b) = true ->
      exists i c u,
        b' = mkBudget (Some i) (bg_category b) (bg_amount b) (bg_period b)
               (bg_startDate b) (Some c) (Some u)
        /\ getBudgetById i (localStorage w')
           = Some (mkBudget (Some i) (bg_category b)
                     (Js.JSON_number (bg_amount b)) (bg_period b)
                     (bg_startDate b) (Some c) (Some u))
        /\ (Js.JSON_number (bg_amount b) = bg_amount b ->
            getBudgetById i (localStorage w') = Some b'))
  /\ (forall i, bg_id b = Some i -> i <> "" ->
      (exists t, In t before /\ bg_id t = Some i) ->
      length after = length before
      /\ getBudgetById i (localStorage w') = Some (JSON_budget b')
      /\ exists k old u,
           before !! k = Some old /\ bg_id old = Some i
           /\ (forall j y, (j < k)%nat -> before !! j = Some y -> bg_id y <> Some i)
           /\ b' = bg_set_updatedAt u b
           /\ after = <[ k := JSON_budget b' ]> before)
  /\ (Js.JSON_number (bg_amount b) = bg_amount b -> JSON_budget b' = b').
Proof.
  intros Hw. rewrite saveBudget_eq. cbv zeta. rewrite Hw.
  cbv beta iota zeta. cbn [localStorage]. rewrite getBudgets_stored.
  assert (Hst : Js.JSON_number (bg_amount b) = bg_amount b ->
                JSON_budget (stampedBudget w b) = stampedBudget w b).
  { intros H. apply JSON_budget_stable.
    unfold stampedBudget. now destruct (Js.falsy_string (bg_id b)). }
  split; [reflexivity|]. split; [|split].
  - intros Hf.
    assert (Hfound :
      getBudgetById (freshId w)
        (putItem budgets
           (Some (map JSON_budget
                    (stored (fun t => bool_decide (bg_id t = bg_id (stampedBudget w b)))
                       (getBudgets (localStorage w)) (stampedBudget w b))))
           (localStorage w))
      = Some (JSON_budget (stampedBudget w b))).
    { unfold getBudgetById. rewrite getBudgets_stored.
      rewrite stampedBudget_id, Hf.
      apply (find_stored (fun t => bool_decide (bg_id t = Some (freshId w)))).
      apply bool_decide_eq_true.
      change (bg_id (JSON_budget (stampedBudget w b)))
        with (bg_id (stampedBudget w b)).
      now rewrite stampedBudget_id, Hf. }
    exists (freshId w), (Date_now (env w) (2 + tick w)),
      (Date_now (env w) (3 + tick w)).
    split; [|split].
    + unfold stampedBudget. rewrite Hf. reflexivity.
    + rewrite Hfound. unfold stampedBudget. rewrite Hf. reflexivity.
    + intros Hj. rewrite Hfound. now rewrite Hst.
  - intros i Hi Hne (t & Hin & Ht).
    assert (Hf : Js.falsy_string (bg_id b) = false)
      by (rewrite Hi; now apply falsy_string_Some).
    assert (Hid : bg_id (stampedBudget w b) = Some i)
      by (now rewrite stampedBudget_id, Hf).
    unfold getBudgetById. rewrite getBudgets_stored. rewrite Hid.
    destruct (findIndex_is_Some (fun y => bool_decide (bg_id y = Some i))
                (getBudgets (localStorage w)) t Hin) as [k Hk].
    { now apply bool_decide_eq_true. }
    split; [eapply length_stored_found; exact Hk|]. split.
    + apply find_stored. apply bool_decide_eq_true. exact Hid.
    + destruct (findIndex_Some _ _ _ Hk) as (old & Hold & Hp & Hmin).
      exists k, old, (Date_now (env w) (tick w)).
      apply bool_decide_eq_true in Hp.
      repeat split; auto.
      * intros j y Hj Hy. specialize (Hmin j y Hj Hy).
        now apply bool_decide_eq_false in Hmin.
      * unfold stampedBudget. now rewrite Hf.
      * unfold stored. now rewrite Hk.
  - exact Hst.
Qed.

Lemma saveBudget_then_getById_roundtrip_witness :
  let W := storedWorld 0 [] [yearlyFood] in
  let lavish :=
    mkBudget None "Food" PrimFloat.infinity "monthly" (mkDateString 2023 11 15)
      None None in
  (exists i c u,
     snd (fst (saveBudget groceries W))
     = mkBudget (Some i) "Food" 200 "monthly" (mkDateString 2023 11 15)
         (Some c) (Some u)
     /\ getBudgetById i (localStorage (snd (saveBudget groceries W)))
        = Some (snd (fst (saveBudget groceries W))))
  /\ (exists i c u,
        getBudgetById i (localStorage (snd (saveBudget lavish W)))
        = Some (mkBudget (Some i) "Food" PrimFloat.nan "monthly"
                  (mkDateString 2023 11 15) (Some c) (Some u)))
  /\ length (getBudgets (localStorage (snd (saveBudget yearlyFood W)))) = 1%nat.
Proof.
  intros W lavish. split; [|split].
  - pose proof (saveBudget_then_getById_roundtrip W groceries eq_refl) as H.
    destruct (saveBudget groceries W) as [[ok b'] w'].
    destruct H as (_ & H & _).
    destruct (H eq_refl) as (i & c & u & Hb & _ & Hback).
    exists i, c, u. split; [exact Hb | exact (Hback eq_refl)].
  - pose proof (saveBudget_then_getById_roundtrip W lavish eq_refl) as H.
    destruct (saveBudget lavish W) as [[ok b'] w'].
    destruct H as (_ & H & _).
    destruct (H eq_refl) as (i & c & u & _ & Hback & _).
    exists i, c, u. exact Hback.
  - pose proof (saveBudget_then_getById_roundtrip W yearlyFood eq_refl) as H.
    destruct (saveBudget yearlyFood W) as [[ok b'] w'].
    destruct H as (_ & _ & H & _).
    refine (proj1 (H "b1" eq_refl _ (ex_intro _ yearlyFood (conj _ eq_refl)))).
    + discriminate.
    + left. reflexivity.
Defined.

(** Budgets are not keyed by category: saving a new budget (no id, fresh
    id not in use) for a category that already has one appends it (as
    JSON writes it), the earlier budget is kept, and
    [getBudgetByCategory] goes on returning the earlier one. *)
Theorem second_budget_of_a_category_is_appended (w : World) (b b0 : Budget) :
  Js.falsy_string (bg_id b) = true ->
  setItem_throws (env w) (4 + tick w) = false ->
  getBudgetByCategory (bg_category b) (localStorage w) = Some b0 ->
  (forall t, In t (getBudgets (localStorage w)) ->
             bg_id t <> Some (fst (generateId w))) ->
  let '((ok, b'), w') := saveBudget b w in
  ok = true
  /\ bg_category b' = bg_category b
  /\ getBudgets (localStorage w') = getBudgets (localStorage w) ++ [JSON_budget b']
  /\ getBudgetByCategory (bg_category b) (localStorage w') = Some b0.
Proof.
  intros Hf Hw Hcat Hfresh. rewrite saveBudget_eq. cbv zeta.
  unfold writeTick. rewrite Hf, Hw. cbv beta iota. cbn [localStorage].
  unfold getBudgetByCategory in *. rewrite getBudgets_stored.
  assert (Hst : stored
                  (fun t => bool_decide (bg_id t = bg_id (stampedBudget w b)))
                  (getBudgets (localStorage w)) (JSON_budget (stampedBudget w b))
                = getBudgets (localStorage w) ++ [JSON_budget (stampedBudget w b)]).
  { unfold stored. rewrite (proj2 (findIndex_None_iff _ _)); [reflexivity|].
    intros t Ht. apply bool_decide_eq_false.
    rewrite stampedBudget_id, Hf. now apply Hfresh. }
  rewrite Hst. repeat split.
  - unfold stampedBudget. now rewrite Hf.
  - now apply find_app_found.
Qed.

Lemma second_budget_of_a_category_is_appended_witness :
  let W := storedWorld 0 [] [yearlyFood] in
  length (getBudgets (localStorage (snd (saveBudget groceries W)))) = 2%nat
  /\ getBudgetByCategory "Food" (localStorage (snd (saveBudget groceries W)))
     = Some yearlyFood.
Proof.
  intros W.
  assert (Hfresh : forall t, In t (getBudgets (localStorage W)) ->
                             bg_id t <> Some (fst (generateId W))).
  { intros t [<-|[]]. discriminate. }
  pose proof (second_budget_of_a_category_is_appended W groceries yearlyFood
                eq_refl eq_refl eq_refl Hfresh) as H.
  destruct (saveBudget groceries W) as [[ok b'] w'].
  destruct H as (_ & _ & Hl & Hc). cbn [snd]. split; [|exact Hc].
  rewrite Hl, length_app. reflexivity.
Defined.

(** *** The forms of the application *)

(** What the two submit handlers store.  A new record (no record being
    edited) is stored with a generated id and with [createdAt]; editing a
    stored record through the form overwrites it with the form's values
    under the same id, and the stored record then has no [createdAt], the
    form object never carrying one. *)
Theorem form_edit_drops_createdAt (w : World) :
  (forall form : BudgetApp.TransactionForm,
     let r := BudgetApp.formTransaction form None in
     let '((ok, r'), w') := saveTransaction r w in
     exists i c, tx_id r' = Some i /\ tx_createdAt r' = Some c)
  /\ (forall (form : BudgetApp.TransactionForm) (i : string),
      i <> "" ->
      setItem_throws (env w) (1 + tick w) = false ->
      (exists t, In t (getTransactions (localStorage w)) /\ tx_id t = Some i) ->
      let r := BudgetApp.formTransaction form (Some i) in
      let '((ok, r'), w') := saveTransaction r w in
      ok = true
      /\ getTransactionById i (localStorage w') = Some (JSON_transaction r')
      /\ tx_createdAt <$> getTransactionById i (localStorage w') = Some None
      /\ r' = mkTransaction (Some i) (BudgetApp.transaction_type form)
                (BudgetApp.transaction_amount form)
                (BudgetApp.transaction_category form)
                (BudgetApp.transaction_description form)
                (BudgetApp.transaction_date form) None
                (Some (Date_now (env w) (tick w)))
      /\ length (getTransactions (localStorage w'))
         = length (getTransactions (localStorage w)))
  /\ (forall (form : BudgetApp.BudgetForm) (i : string),
      i <> "" ->
      setItem_throws (env w) (1 + tick w) = false ->
      (exists t, In t (getBudgets (localStorage w)) /\ bg_id t = Some i) ->
      let b := BudgetApp.formBudget form (Some i) in
      let '((ok, b'), w') := saveBudget b w in
      ok = true
      /\ getBudgetById i (localStorage w') = Some (JSON_budget b')
      /\ bg_createdAt <$> getBudgetById i (localStorage w') = Some None
      /\ b' = mkBudget (Some i) (BudgetApp.budget_category form)
                (BudgetApp.budget_amount form) (BudgetApp.budget_period form)
                (BudgetApp.budget_start_date form) None
                (Some (Date_now (env w) (tick w)))
      /\ length (getBudgets (localStorage w'))
         = length (getBudgets (localStorage w))).
Proof.
  split; [|split].
  - intros form r. rewrite saveTransaction_eq. cbv zeta.
    destruct (setItem_throws _ _); unfold stamped; simpl; eauto.
  - intros form i Hne Hw (t & Hin & Ht) r.
    assert (Hr : r = mkTransaction (Some i) (BudgetApp.transaction_type form)
                       (BudgetApp.transaction_amount form)
                       (BudgetApp.transaction_category form)
                       (BudgetApp.transaction_description form)
                       (BudgetApp.transaction_date form) None None).
    { unfold r, BudgetApp.formTransaction. cbv zeta.
      now rewrite (falsy_string_Some i Hne). }
    rewrite saveTransaction_eq. cbv zeta.
    assert (Hf : Js.falsy_string (tx_id r) = false)
      by (rewrite Hr; now apply falsy_string_Some).
    unfold writeTick. rewrite Hf, Hw. cbv beta iota. cbn [localStorage].
    assert (Hs : stamped w r
                 = mkTransaction (Some i) (BudgetApp.transaction_type form)
                     (BudgetApp.transaction_amount form)
                     (BudgetApp.transaction_category form)
                     (BudgetApp.transaction_description form)
                     (BudgetApp.transaction_date form) None
                     (Some (Date_now (env w) (tick w)))).
    { unfold stamped. rewrite Hf, Hr. reflexivity. }
    unfold getTransactionById. rewrite !getTransactions_stored, Hs. cbn [tx_id].
    assert (Hfound :
      List.find (fun t => bool_decide (tx_id t = Some i))
        (stored (fun t => bool_decide (tx_id t = Some i))
           (getTransactions (localStorage w))
           (JSON_transaction
              (mkTransaction (Some i) (BudgetApp.transaction_type form)
                 (BudgetApp.transaction_amount form)
                 (BudgetApp.transaction_category form)
                 (BudgetApp.transaction_description form)
                 (BudgetApp.transaction_date form) None
                 (Some (Date_now (env w) (tick w))))))
      = Some (JSON_transaction
                (mkTransaction (Some i) (BudgetApp.transaction_type form)
                   (BudgetApp.transaction_amount form)
                   (BudgetApp.transaction_category form)
                   (BudgetApp.transaction_description form)
                   (BudgetApp.transaction_date form) None
                   (Some (Date_now (env w) (tick w)))))).
    { apply find_stored. now apply bool_decide_eq_true. }
    split; [reflexivity|]. split; [exact Hfound|].
    split; [now rewrite Hfound|]. split; [reflexivity|].
    destruct (findIndex_is_Some (fun y => bool_decide (tx_id y = Some i))
                  (getTransactions (localStorage w)) t Hin) as [k Hk].
    { now apply bool_decide_eq_true. }
    eapply length_stored_found. exact Hk.
  - intros form i Hne Hw (t & Hin & Ht) b.
    assert (Hb : b = mkBudget (Some i) (BudgetApp.budget_category form)
                       (BudgetApp.budget_amount form)
                       (BudgetApp.budget_period form)
                       (BudgetApp.budget_start_date form) None None).
    { unfold b, BudgetApp.formBudget. cbv zeta.
      now rewrite (falsy_string_Some i Hne). }
    rewrite saveBudget_eq. cbv zeta.
    assert (Hf : Js.falsy_string (bg_id b) = false)
      by (rewrite Hb; now apply falsy_string_Some).
    unfold writeTick. rewrite Hf, Hw. cbv beta iota. cbn [localStorage].
    assert (Hs : stampedBudget w b
                 = mkBudget (Some i) (BudgetApp.budget_category form)
                     (BudgetApp.budget_amount form)
                     (BudgetApp.budget_period form)
                     (BudgetApp.budget_start_date form) None
                     (Some (Date_now (env w) (tick w)))).
    { unfold stampedBudget. rewrite Hf, Hb. reflexivity. }
    unfold getBudgetById. rewrite !getBudgets_stored, Hs. cbn [bg_id].
    assert (Hfound :
      List.find (fun t => bool_decide (bg_id t = Some i))
        (stored (fun t => bool_decide (bg_id t = Some i))
           (getBudgets (localStorage w))
           (JSON_budget
              (mkBudget (Some i) (BudgetApp.budget_category form)
                 (BudgetApp.budget_amount form)
                 (BudgetApp.budget_period form)
                 (BudgetApp.budget_start_date form) None
                 (Some (Date_now (env w) (tick w))))))
      = Some (JSON_budget
                (mkBudget (Some i) (BudgetApp.budget_category form)
                   (BudgetApp.budget_amount form)
                   (BudgetApp.budget_period form)
                   (BudgetApp.budget_start_date form) None
                   (Some (Date_now (env w) (tick w)))))).
    { apply find_stored. now apply bool_decide_eq_true. }
    split; [reflexivity|]. split; [exact Hfound|].
    split; [now rewrite Hfound|]. split; [reflexivity|].
    destruct (findIndex_is_Some (fun y => bool_decide (bg_id y = Some i))
                  (getBudgets (localStorage w)) t Hin) as [k Hk].
    { now apply bool_decide_eq_true. }
    eapply length_stored_found. exact Hk.
Qed.

Lemma form_edit_drops_createdAt_witness :
  let W := storedWorld 0 [lunch] [] in
  let form :=
    BudgetApp.mkTransactionForm "expense" 15 "Food" "lunch" (mkDateString 2024 3 1) in
  tx_createdAt lunch = Some 5
  /\ (tx_createdAt <$>
        getTransactionById "a1"
          (localStorage
             (snd (saveTransaction (BudgetApp.formTransaction form (Some "a1")) W))))
     = Some None.
Proof.
  intros W form. split; [reflexivity|].
  assert (Hin : exists t, In t (getTransactions (localStorage W))
                          /\ tx_id t = Some "a1").
  { exists lunch. split; [left|]; reflexivity. }
  pose proof (proj1 (proj2 (form_edit_drops_createdAt W)) form "a1"
                ltac:(discriminate) eq_refl Hin) as H.
  cbv zeta in H.
  destruct (saveTransaction (BudgetApp.formTransaction form (Some "a1")) W)
    as [[ok r'] w'].
  destruct H as (_ & _ & Hg & _). cbn [snd]. exact Hg.
Defined.

(** *** Import, export and reset *)

Lemma importData_eq (data : Snapshot) (w : World) :
  importData (Some data) w =
  let step (k : storageKeys) (v : option (Data k)) (w : World) : World :=
    match v with
    | Some x => snd (setItem k x w)
    | None => w
    end in
  (true,
   step categories (s_categories data)
     (step budgets (s_budgets data)
        (step transactions (s_transactions data) w))).
Proof.
  run. destruct data as [[t|] [b|] [c|]]; simpl;
    repeat (destruct (setItem_throws _ _); simpl); reflexivity.
Qed.

Lemma getTransactions_slot ls l :
  budget_app_transactions ls = Some (map JSON_transaction l) ->
  getTransactions ls = map JSON_transaction l.
Proof.
  intros H. unfold getTransactions, loadFromStorage. cbn [getItem].
  rewrite H. cbn. apply map_fixed, map_idem, JSON_transaction_idem.
Qed.

Lemma getBudgets_slot ls l :
  budget_app_budgets ls = Some (map JSON_budget l) ->
  getBudgets ls = map JSON_budget l.
Proof.
  intros H. unfold getBudgets, loadFromStorage. cbn [getItem].
  rewrite H. cbn. apply map_fixed, map_idem, JSON_budget_idem.
Qed.

Lemma getCategories_slot ls c :
  budget_app_categories ls = Some c -> getCategories ls = c.
Proof.
  intros H. unfold getCategories, loadFromStorage. cbn [getItem].
  now rewrite H.
Qed.

(** What the three writes of [importData] leave in the slots when the
    store accepts them. *)
Lemma importData_slots (w : World) (data : Snapshot) :
  (forall k, (k < 3)%nat -> setItem_throws (env w) (tick w + k) = false) ->
  let ls' := localStorage (snd (importData (Some data) w)) in
  (forall v, s_transactions data = Some v ->
             budget_app_transactions ls' = Some (map JSON_transaction v))
  /\ (forall v, s_budgets data = Some v ->
                budget_app_budgets ls' = Some (map JSON_budget v))
  /\ (forall v, s_categories data = Some v ->
                budget_app_categories ls' = Some v).
Proof.
  intros Hok. cbv zeta. rewrite importData_eq. cbv zeta. cbn [snd].
  destruct w as [e n ls]. destruct data as [t b c].
  cbn [s_transactions s_budgets s_categories env tick localStorage] in *.
  pose proof (Hok 0%nat ltac:(lia)) as H0. rewrite Nat.add_0_r in H0.
  pose proof (Hok 1%nat ltac:(lia)) as H1. rewrite Nat.add_1_r in H1.
  pose proof (Hok 2%nat ltac:(lia)) as H2.
  replace (n + 2)%nat with (S (S n)) in H2 by lia.
  destruct t as [t|], b as [b|], c as [c|]; unfold setItem;
    cbn [env tick localStorage snd putItem JSON_roundtrip
         budget_app_transactions budget_app_budgets budget_app_categories];
    rewrite ?H0;
    cbn [env tick localStorage snd putItem JSON_roundtrip
         budget_app_transactions budget_app_budgets budget_app_categories];
    rewrite ?H1;
    cbn [env tick localStorage snd putItem JSON_roundtrip
         budget_app_transactions budget_app_budgets budget_app_categories];
    rewrite ?H2;
    cbn [env tick localStorage snd putItem JSON_roundtrip
         budget_app_transactions budget_app_budgets budget_app_categories];
    repeat split; intros v Hv;
    first [discriminate Hv | injection Hv as <-; reflexivity].
Qed.

(** [importData] replaces exactly the collections the snapshot holds: a
    collection missing from the snapshot is left as it was, whatever
    happens to the other writes, and when the store accepts the writes
    every collection present in the snapshot is read afterwards as JSON
    keeps it: as given, but for the amounts JSON does not write back
    unchanged.  A [null] argument is reported as a failure and changes
    nothing. *)
Theorem importData_replaces_present_collections (w : World) (data : Snapshot) :
  let w' := snd (importData (Some data) w) in
  (s_transactions data = None ->
   budget_app_transactions (localStorage w')
   = budget_app_transactions (localStorage w))
  /\ (s_budgets data = None ->
      budget_app_budgets (localStorage w') = budget_app_budgets (localStorage w))
  /\ (s_categories data = None ->
      budget_app_categories (localStorage w')
      = budget_app_categories (localStorage w))
  /\ ((forall k, (k < 3)%nat -> setItem_throws (env w) (tick w + k) = false) ->
      (forall v, s_transactions data = Some v ->
         getTransactions (localStorage w') = map JSON_transaction v
         /\ ((forall t, In t v -> Js.JSON_number (tx_amount t) = tx_amount t) ->
             getTransactions (localStorage w') = v))
      /\ (forall v, s_budgets data = Some v ->
         getBudgets (localStorage w') = map JSON_budget v
         /\ ((forall b, In b v -> Js.JSON_number (bg_amount b) = bg_amount b) ->
             getBudgets (localStorage w') = v))
      /\ (forall v, s_categories data = Some v ->
                    getCategories (localStorage w') = v))
  /\ importData None w = (false, w).
Proof.
  cbv zeta. split; [|split; [|split; [|split; [|reflexivity]]]].
  - rewrite importData_eq. cbv zeta. cbn [snd].
    destruct w as [e n ls]. destruct data as [t b c].
    cbn [s_transactions s_budgets s_categories env tick localStorage].
    intros ->. destruct b, c; unfold setItem; simpl;
      repeat (destruct (setItem_throws _ _); simpl); reflexivity.
  - rewrite importData_eq. cbv zeta. cbn [snd].
    destruct w as [e n ls]. destruct data as [t b c].
    cbn [s_transactions s_budgets s_categories env tick localStorage].
    intros ->. destruct t, c; unfold setItem; simpl;
      repeat (destruct (setItem_throws _ _); simpl); reflexivity.
  - rewrite importData_eq. cbv zeta. cbn [snd].
    destruct w as [e n ls]. destruct data as [t b c].
    cbn [s_transactions s_budgets s_categories env tick localStorage].
    intros ->. destruct t, b; unfold setItem; simpl;
      repeat (destruct (setItem_throws _ _); simpl); reflexivity.
  - intros Hok. destruct (importData_slots w data Hok) as (Ht & Hb & Hc).
    split; [|split].
    + intros v Hv. rewrite (getTransactions_slot _ _ (Ht v Hv)).
      split; [reflexivity|]. intros Hfin. apply map_fixed.
      intros t Hin. now apply JSON_transaction_stable, Hfin.
    + intros v Hv. rewrite (getBudgets_slot _ _ (Hb v Hv)).
      split; [reflexivity|]. intros Hfin. apply map_fixed.
      intros t Hin. now apply JSON_budget_stable, Hfin.
    + intros v Hv. exact (getCategories_slot _ _ (Hc v Hv)).
Qed.

Lemma importData_replaces_present_collections_witness :
  let W := storedWorld 0 [lunch] [yearlyFood] in
  let windfall := tx "income" PrimFloat.infinity "Salary" 2024 3 2 in
  let w' := snd (importData (Some (mkSnapshot (Some [dinner; windfall]) None None)) W) in
  getTransactions (localStorage w')
  = [dinner; tx "income" PrimFloat.nan "Salary" 2024 3 2]
  /\ getBudgets (localStorage w') = [yearlyFood].
Proof.
  intros W windfall w'.
  destruct (importData_replaces_present_collections W
              (mkSnapshot (Some [dinner; windfall]) None None))
    as (_ & Hb & _ & Hok & _).
  fold w' in Hb, Hok. split.
  - exact (proj1 (proj1 (Hok (fun k _ => eq_refl)) [dinner; windfall] eq_refl)).
  - unfold getBudgets, loadFromStorage. cbn [getItem].
    rewrite (Hb eq_refl). reflexivity.
Defined.

Lemma exportData_eq (w : World) :
  exportData w
  = (mkExportedData (getTransactions (localStorage w))
       (getBudgets (localStorage w)) (getCategories (localStorage w))
       (Date_now (env w) (tick w)),
     mkWorld (env w) (S (tick w)) (localStorage w)).
Proof. reflexivity. Qed.

(** [exportData] only reads: the store is as before and the exported
    collections are what the getters return.  Importing the exported
    object back, with the writes accepted, leaves the result of every
    getter unchanged, and an export taken after a successful import of a
    full snapshot holds the imported collections as JSON keeps them: as
    given when every amount is a number JSON writes back unchanged. *)
Theorem export_import_roundtrip (w : World) :
  (let '(x, w1) := exportData w in
   localStorage w1 = localStorage w
   /\ x_transactions x = getTransactions (localStorage w)
   /\ x_budgets x = getBudgets (localStorage w)
   /\ x_categories x = getCategories (localStorage w)
   /\ ((forall k, (k < 3)%nat ->
          setItem_throws (env w) (S (tick w) + k) = false) ->
       let '(ok, w2) := importData (Some (asSnapshot x)) w1 in
       ok = true
       /\ getTransactions (localStorage w2) = getTransactions (localStorage w)
       /\ getBudgets (localStorage w2) = getBudgets (localStorage w)
       /\ getCategories (localStorage w2) = getCategories (localStorage w)))
  /\ (forall txs bgs cats,
      (forall k, (k < 3)%nat -> setItem_throws (env w) (tick w + k) = false) ->
      let '(_, w1) :=
        importData (Some (mkSnapshot (Some txs) (Some bgs) (Some cats))) w in
      let '(x, _) := exportData w1 in
      x_transactions x = map JSON_transaction txs
      /\ x_budgets x = map JSON_budget bgs
      /\ x_categories x = cats
      /\ ((forall t, In t txs -> Js.JSON_number (tx_amount t) = tx_amount t) ->
          x_transactions x = txs)
      /\ ((forall b, In b bgs -> Js.JSON_number (bg_amount b) = bg_amount b) ->
          x_budgets x = bgs)).
Proof.
  split.
  - rewrite exportData_eq. cbn [localStorage x_transactions x_budgets x_categories].
    split; [reflexivity|]. split; [reflexivity|]. split; [reflexivity|].
    split; [reflexivity|]. intros Hok.
    set (w1 := mkWorld (env w) (S (tick w)) (localStorage w)).
    set (x := mkExportedData _ _ _ _).
    pose proof (importData_slots w1 (asSnapshot x) Hok) as H.
    pose proof (importData_always_true (asSnapshot x) w1) as Htrue.
    destruct (importData (Some (asSnapshot x)) w1) as [ok w2].
    cbn [fst snd] in *. destruct H as (Ht & Hb & Hc).
    split; [exact Htrue|]. split; [|split].
    + rewrite (getTransactions_slot _ _ (Ht _ eq_refl)). cbn [x x_transactions].
      apply map_fixed, getTransactions_fixed.
    + rewrite (getBudgets_slot _ _ (Hb _ eq_refl)). cbn [x x_budgets].
      apply map_fixed, getBudgets_fixed.
    + exact (getCategories_slot _ _ (Hc _ eq_refl)).
  - intros txs bgs cats Hok.
    pose proof (importData_slots w (mkSnapshot (Some txs) (Some bgs) (Some cats))
                  Hok) as H.
    destruct (importData _ w) as [ok w1]. cbn [fst snd] in *.
    rewrite exportData_eq. cbn [x_transactions x_budgets x_categories].
    destruct H as (Ht & Hb & Hc).
    rewrite (getTransactions_slot _ _ (Ht _ eq_refl)).
    rewrite (getBudgets_slot _ _ (Hb _ eq_refl)).
    rewrite (getCategories_slot _ _ (Hc _ eq_refl)).
    split; [reflexivity|]. split; [reflexivity|]. split; [reflexivity|]. split.
    + intros Hfin. apply map_fixed.
      intros t Hin. now apply JSON_transaction_stable, Hfin.
    + intros Hfin. apply map_fixed.
      intros t Hin. now apply JSON_budget_stable, Hfin.
Qed.

Lemma export_import_roundtrip_witness :
  let W := storedWorld 0 [lunch; dinner] [yearlyFood] in
  let x := fst (exportData W) in
  let w2 := snd (importData (Some (asSnapshot x)) (snd (exportData W))) in
  getTransactions (localStorage w2) = [lunch; dinner]
  /\ getBudgets (localStorage w2) = [yearlyFood]
  /\ getCategories (localStorage w2) = CatArray [].
Proof.
  intros W x w2.
  pose proof (proj1 (export_import_roundtrip W)) as H. hnf in H.
  destruct H as (_ & _ & _ & _ & H).
  specialize (H (fun k _ => eq_refl)). hnf in H.
  destruct H as (_ & Ht & Hb & Hc).
  split; [exact Ht|]. split; [exact Hb | exact Hc].
Defined.

(** [clearAllData] always leaves no transactions and no budgets, whether
    or not the store accepts writes; the categories are the default
    mapping when the seeding write is accepted and the empty array when
    it is rejected. *)
Theorem clearAllData_empties_the_store (w : World) :
  let w' := snd (clearAllData w) in
  getTransactions (localStorage w') = []
  /\ getBudgets (localStorage w') = []
  /\ getCategories (localStorage w')
     = (if setItem_throws (env w) (tick w) then CatArray []
        else CatObject defaultCategories).
Proof.
  cbv zeta. run. unfold getCategories. simpl.
  destruct (setItem_throws (env w) (tick w)); repeat split.
Qed.

(** *** Categories *)

(** A mapping stored with [saveCategories] is what the category queries
    return from then on, also after the manager is constructed again: the
    list of a type is the stored one, empty when the mapping lacks the
    type (so an empty mapping is never re-seeded), and [allCategories]
    is the expense list followed by the income list.  An empty array
    stored instead is replaced by the defaults at the next construction.
    Each write being accepted. *)
Theorem stored_categories_are_returned (w : World)
    (m : gmap string (list string)) :
  setItem_throws (env w) (tick w) = false ->
  (let w1 := snd (saveCategories (CatObject m) w) in
   let w2 := snd (constructor w1) in
   fst (saveCategories (CatObject m) w) = true
   /\ w2 = w1
   /\ getCategories (localStorage w2) = CatObject m
   /\ (forall type, getCategoriesByType type (localStorage w2)
                    = default [] (m !! typeName type))
   /\ BudgetApp.allCategories (localStorage w2)
      = getCategoriesByType expense (localStorage w2)
        ++ getCategoriesByType income (localStorage w2))
  /\ (setItem_throws (env w) (S (tick w)) = false ->
      let w1 := snd (saveCategories (CatArray []) w) in
      let w2 := snd (constructor w1) in
      getCategories (localStorage w2) = CatObject defaultCategories
      /\ length (getCategoriesByType expense (localStorage w2)) = 13%nat
      /\ length (getCategoriesByType income (localStorage w2)) = 7%nat).
Proof.
  intros Hw. split.
  - run. rewrite Hw. simpl. unfold getCategories, getCategoriesByType,
      BudgetApp.allCategories, getCategories. simpl.
    repeat split.
  - intros Hw2. run. rewrite Hw. simpl. unfold getCategories. simpl.
    rewrite Hw2. simpl. repeat split.
Qed.

Lemma stored_categories_are_returned_witness :
  let W := mkWorld (quietEnv 0 1704412800000) 0 emptyStorage in
  let w2 := snd (constructor (snd (saveCategories (CatObject ∅) W))) in
  getCategoriesByType expense (localStorage w2) = []
  /\ BudgetApp.allCategories (localStorage w2) = [].
Proof.
  intros W w2.
  destruct (proj1 (stored_categories_are_returned W ∅ eq_refl))
    as (_ & _ & _ & Hty & Hall).
  fold w2 in Hty, Hall. split; [exact (Hty expense)|].
  rewrite Hall, (Hty expense), (Hty income). reflexivity.
Defined.

(** The category queries on a store whose categories key was never
    written, or holds an array: no category of either type. *)
Lemma no_categories_without_mapping (ls : LocalStorage) (type : TransactionType) :
  (budget_app_categories ls = None
   \/ exists l, budget_app_categories ls = Some (CatArray l)) ->
  getCategoriesByType type ls = [] /\ BudgetApp.allCategories ls = [].
Proof.
  unfold getCategoriesByType, BudgetApp.allCategories, getCategories,
    loadFromStorage. simpl.
  intros [->|[l ->]]; split; reflexivity.
Qed.

(** *** Spending by category and the report *)

Lemma orZero_falsy (x : option float) :
  Js.falsy_number x = true -> Js.orZero x = 0%float.
Proof. intros H. unfold Js.orZero. now rewrite H. Qed.

Lemma addToCategory_eq (m : gmap string float) (t : Transaction) :
  addToCategory m t
  = <[ tx_category t :=
         PrimFloat.add (Js.orZero (m !! tx_category t)) (tx_amount t) ]> m.
Proof.
  unfold addToCategory. cbv zeta.
  destruct (Js.falsy_number (m !! tx_category t)) eqn:E.
  - rewrite lookup_insert_eq, insert_insert_eq. simpl.
    now rewrite (orZero_falsy _ E).
  - unfold Js.orZero. rewrite E.
    destruct (m !! tx_category t) as [v|]; [reflexivity|discriminate E].
Qed.

Lemma addSpending_addToCategory (m : gmap string float) (t : Transaction) :
  BudgetApp.addSpending m t = addToCategory m t.
Proof. now rewrite addToCategory_eq. Qed.

Lemma fold_addToCategory_lookup (txs : list Transaction)
    (m : gmap string float) (c : string) :
  fold_left addToCategory txs m !! c
  = fold_left (fun total a => Some (PrimFloat.add (Js.orZero total) a))
      (map tx_amount
         (List.filter (fun t => bool_decide (tx_category t = c)) txs))
      (m !! c).
Proof.
  revert m. induction txs as [|t txs IH]; intros m; simpl; [reflexivity|].
  rewrite IH, addToCategory_eq. case_bool_decide as Hc; simpl.
  - subst c. now rewrite lookup_insert_eq.
  - now rewrite lookup_insert_ne.
Qed.

Lemma runningTotal_None (l : list float) : runningTotal l = None <-> l = [].
Proof.
  unfold runningTotal. split; [|now intros ->].
  destruct l as [|a l]; [reflexivity|]. simpl.
  generalize (PrimFloat.add (Js.orZero None) a). intros x H. exfalso.
  revert x H. induction l as [|b l IH]; intros x H; simpl in H;
    [discriminate | eauto].
Qed.

(** Called without a range (a bound missing), [getSpendingByCategory]
    has, for a category that is not the name of a member of
    [Object.prototype], an entry exactly when a stored expense has the
    category, and the entry is the running total of the amounts of these
    expenses in stored order, where a total that has become [0] or [NaN]
    restarts from [0]: a [NaN] amount is forgotten at the next amount of
    the category, whereas it stays in [getTotalExpenses]. *)
Theorem spending_by_category_entries (ls : LocalStorage)
    (s e : option DateArg) (c : string) :
  c ∉ Js.Object_prototype_names ->
  s = None \/ e = None ->
  let expenses :=
    List.filter (fun t => bool_decide (tx_type t = "expense"))
      (getTransactions ls) in
  getSpendingByCategory s e ls !! c
  = runningTotal
      (map tx_amount
         (List.filter (fun t => bool_decide (tx_category t = c)) expenses))
  /\ (is_Some (getSpendingByCategory s e ls !! c)
      <-> exists t, In t (getTransactions ls)
                    /\ tx_type t = "expense" /\ tx_category t = c)
  /\ (let odd := mkLocalStorage
                   (Some [ tx "expense" PrimFloat.nan "Food" 2024 1 5;
                           tx "expense" 5 "Food" 2024 1 6 ]) None None in
      getSpendingByCategory None None odd !! "Food" = Some 5%float
      /\ Js.is_nan (getTotalExpenses None None odd) = true).
Proof.
  intros _ Hrange. cbv zeta.
  assert (Hall : restrict s e (getTransactionsByType "expense" ls)
                 = List.filter (fun t => bool_decide (tx_type t = "expense"))
                     (getTransactions ls)).
  { destruct Hrange as [-> | ->]; [reflexivity | now destruct s]. }
  assert (Hval : getSpendingByCategory s e ls !! c
                 = runningTotal
                     (map tx_amount
                        (List.filter (fun t => bool_decide (tx_category t = c))
                           (List.filter
                              (fun t => bool_decide (tx_type t = "expense"))
                              (getTransactions ls))))).
  { unfold getSpendingByCategory. cbv zeta.
    rewrite fold_addToCategory_lookup, lookup_empty, Hall. reflexivity. }
  split; [exact Hval|]. split; [|split; reflexivity].
  rewrite Hval. rewrite <- not_eq_None_Some, runningTotal_None. split.
  - intros Hne.
    destruct (List.filter (fun t => bool_decide (tx_category t = c)) _)
      as [|t l] eqn:E; [now contradiction Hne|].
    assert (Hin : In t (t :: l)) by now left.
    rewrite <- E in Hin. apply filter_In in Hin as [Hin Hc].
    apply filter_In in Hin as [Hin Hty].
    apply bool_decide_eq_true in Hc. apply bool_decide_eq_true in Hty. eauto.
  - intros (t & Hin & Hty & Hc) Hnil. apply map_eq_nil in Hnil.
    assert (Hf : In t (List.filter (fun t => bool_decide (tx_category t = c))
                         (List.filter
                            (fun t => bool_decide (tx_type t = "expense"))
                            (getTransactions ls)))).
    { apply filter_In. split; [|now apply bool_decide_eq_true].
      apply filter_In. split; [exact Hin | now apply bool_decide_eq_true]. }
    rewrite Hnil in Hf. destruct Hf.
Qed.

Lemma spending_by_category_entries_witness :
  getSpendingByCategory None None sampleStorage !! "Food" = Some 80%float
  /\ getSpendingByCategory None None sampleStorage !! "Salary" = None.
Proof.
  assert (Hfood : "Food" ∉ Js.Object_prototype_names)
    by (apply (bool_decide_unpack _); vm_compute; exact I).
  assert (Hsal : "Salary" ∉ Js.Object_prototype_names)
    by (apply (bool_decide_unpack _); vm_compute; exact I).
  split.
  - rewrite (proj1 (spending_by_category_entries sampleStorage None None "Food"
                      Hfood (or_introl eq_refl))).
    reflexivity.
  - rewrite (proj1 (spending_by_category_entries sampleStorage None None "Salary"
                      Hsal (or_introl eq_refl))).
    reflexivity.
Defined.

(** The figures of [generateReport] are those of the analytics helpers
    over the same range: its totals are [getTotalIncome] and
    [getTotalExpenses], its balance [getNetBalance], its breakdown
    [getSpendingByCategory]; it counts the transactions of the range and
    shows the first ten of them.  With a date input left empty there is
    no report. *)
Theorem report_agrees_with_helpers (ls : LocalStorage) :
  (forall s e : DateString,
     let range := getTransactionsByDateRange (DateStr s) (DateStr e) ls in
     let S := Some (DateStr s) in
     let E := Some (DateStr e) in
     BudgetApp.generateReport (Some s) (Some e) ls
     = Some (BudgetApp.mkReport (getTotalIncome S E ls) (getTotalExpenses S E ls)
               (getNetBalance S E ls) (getSpendingByCategory S E ls)
               (length range) (take 10 range))
     /\ (length (take 10 range) <= 10)%nat)
  /\ (forall e, BudgetApp.generateReport None e ls = None)
  /\ (forall s, BudgetApp.generateReport s None ls = None).
Proof.
  split; [|split; [reflexivity | now intros []]].
  intros s e. cbv zeta. split; [|rewrite length_take; lia].
  unfold BudgetApp.generateReport, getNetBalance, getTotalIncome,
    getTotalExpenses, getSpendingByCategory, getTransactionsByType,
    getTransactionsByDateRange, sumAmounts, restrict.
  rewrite !(filter_comm (inRange (DateStr s) (DateStr e))).
  do 2 f_equal.
  generalize (List.filter (fun t => bool_decide (tx_type t = "expense"))
                (List.filter (inRange (DateStr s) (DateStr e))
                   (getTransactions ls))).
  intros l. generalize (∅ : gmap string float).
  induction l as [|t l IH]; intros m; simpl; [reflexivity|].
  now rewrite IH, addSpending_addToCategory.
Qed.

(** *** Monthly sums and the trend chart *)

Lemma attributedb_spec (zone year i : Z) (t : Transaction) :
  attributedb zone year i t = true <-> attributed zone year i t.
Proof.
  unfold attributedb, attributed.
  now rewrite andb_true_iff, !bool_decide_eq_true.
Qed.

Lemma addToMonth_attributed (zone year i : Z) (m : gmap string (gmap string float))
    (t : Transaction) (entry : gmap string float) :
  attributed zone year i t -> m !! monthKey year i = Some entry ->
  addToMonth zone year m t !! monthKey year i
  = Some (<[ tx_type t := Js.add_undef (entry !! tx_type t) (tx_amount t) ]> entry).
Proof.
  intros [Hy Hm] He. unfold addToMonth. cbv zeta.
  rewrite bool_decide_eq_true_2 by exact Hy. rewrite Hm.
  replace (i - 1 + 1) with i by lia. rewrite He. apply lookup_insert_eq.
Qed.

Lemma addToMonth_not_attributed (zone year i : Z)
    (m : gmap string (gmap string float)) (t : Transaction) :
  1 <= i <= 12 -> ~ attributed zone year i t ->
  addToMonth zone year m t !! monthKey year i = m !! monthKey year i.
Proof.
  intros Hi Hn.
  destruct (addToMonth_lookup zone year m t (monthKey year i))
    as [H|(mo & en & en' & Hy & Hm & Hk & _)]; [exact H|].
  exfalso. apply Hn.
  pose proof (getMonth_range _ _ _ Hm) as Hr.
  apply monthKey_inj in Hk; [|lia|lia]. subst i.
  split; [exact Hy|]. rewrite Hm. f_equal. lia.
Qed.

Lemma fold_addToMonth_value (zone year i : Z) (ty : string)
    (txs : list Transaction) (m : gmap string (gmap string float))
    (entry : gmap string float) (a : float) :
  1 <= i <= 12 ->
  m !! monthKey year i = Some entry -> entry !! ty = Some a ->
  exists entry',
    fold_left (addToMonth zone year) txs m !! monthKey year i = Some entry'
    /\ entry' !! ty
       = Some (sumOfType ty a (List.filter (attributedb zone year i) txs)).
Proof.
  intros Hi. revert m entry a.
  induction txs as [|t txs IH]; intros m entry a Hm He; simpl; [eauto|].
  destruct (attributedb zone year i t) eqn:Hat.
  - apply attributedb_spec in Hat.
    pose proof (addToMonth_attributed zone year i m t entry Hat Hm) as Hstep.
    simpl. destruct (decide (tx_type t = ty)) as [Hty|Hty].
    + eapply IH; [exact Hstep|]. rewrite Hty, lookup_insert_eq, He. reflexivity.
    + eapply IH; [exact Hstep|]. now rewrite lookup_insert_ne.
  - assert (Hn : ~ attributed zone year i t).
    { rewrite <- attributedb_spec, Hat. discriminate. }
    eapply IH; [|exact He].
    now rewrite addToMonth_not_attributed.
Qed.

Lemma series_entry_sums (year zone : Z) (ls : LocalStorage) (i : Z) :
  1 <= i <= 12 ->
  exists entry,
    getMonthlySpendingData year zone ls !! monthKey year i = Some entry
    /\ entry !! "income"
       = Some (sumOfType "income" 0
                 (List.filter (attributedb zone year i) (getTransactions ls)))
    /\ entry !! "expense"
       = Some (sumOfType "expense" 0
                 (List.filter (attributedb zone year i) (getTransactions ls))).
Proof.
  intros Hi. unfold getMonthlySpendingData. cbv zeta.
  assert (Hinit : initMonths year !! monthKey year i = Some zeroMonth).
  { rewrite initMonths_lookup, bool_decide_eq_true_2; [reflexivity|].
    apply list_elem_of_fmap. exists i. split; [reflexivity|].
    now apply elem_of_monthNumbers. }
  destruct (fold_addToMonth_value zone year i "income" (getTransactions ls)
              _ _ _ Hi Hinit eq_refl) as (en & Hen & Hinc).
  destruct (fold_addToMonth_value zone year i "expense" (getTransactions ls)
              _ _ _ Hi Hinit eq_refl) as (en' & Hen' & Hexp).
  rewrite Hen in Hen'. injection Hen' as <-.
  exists en. repeat split; assumption.
Qed.

(** The entry of a month in the series holds, under [income] and under
    [expense], the sum of the amounts of the stored transactions of that
    type which the loop attributes to the month, added in stored order;
    in UTC and east of it these are the transactions dated in the
    month. *)
Theorem monthly_series_sums (year zone : Z) (ls : LocalStorage) (i : Z) :
  1 <= i <= 12 ->
  exists entry,
    getMonthlySpendingData year zone ls !! monthKey year i = Some entry
    /\ entry !! "income"
       = Some (sumOfType "income" 0
                 (List.filter (attributedb zone year i) (getTransactions ls)))
    /\ entry !! "expense"
       = Some (sumOfType "expense" 0
                 (List.filter (attributedb zone year i) (getTransactions ls)))
    /\ (0 <= zone < msPerDay ->
        forall t, legal (tx_date t) = true ->
                  (attributedb zone year i t = true
                   <-> ds_year (tx_date t) = year /\ ds_month (tx_date t) = i)).
Proof.
  intros Hi.
  destruct (series_entry_sums year zone ls i Hi) as (en & He & Hinc & Hexp).
  exists en. split; [exact He|]. split; [exact Hinc|]. split; [exact Hexp|].
  intros Hz t Ht. rewrite attributedb_spec.
  now apply attributed_calendar.
Qed.

Lemma monthly_series_sums_witness :
  exists entry,
    getMonthlySpendingData 2024 0 sampleStorage !! "2024-01" = Some entry
    /\ entry !! "income" = Some 1000%float
    /\ entry !! "expense" = Some 50%float.
Proof.
  destruct (monthly_series_sums 2024 0 sampleStorage 1 ltac:(lia))
    as (entry & He & Hi & Hx & _).
  exists entry. split; [exact He|]. split; [exact Hi | exact Hx].
Defined.

Lemma trendData_eq (w : World) :
  ChartManager.trendData w
  = (let zone := LocalTZA (env w) in
     let year := YearFromTime (LocalTime zone (Date_now (env w) (tick w))) in
     let series := getMonthlySpendingData year zone (localStorage w) in
     let point (field : string) (i : nat) : float :=
       Js.orZero (entry ← series !! monthKey year (Z.of_nat i + 1);
                  entry !! field) in
     (map (point "income") (seq 0 12), map (point "expense") (seq 0 12)),
     mkWorld (env w) (S (tick w)) (localStorage w)).
Proof. reflexivity. Qed.

(** The two arrays of the trend chart have twelve points each, for the
    months of the current local year in order; a point is the month's sum
    of the series, shown as [0] when that sum is [0] or [NaN].  The store
    is only read. *)
Theorem trend_chart_has_twelve_points (w : World) :
  let zone := LocalTZA (env w) in
  let year := YearFromTime (LocalTime zone (Date_now (env w) (tick w))) in
  let '((incomeData, expenseData), w') := ChartManager.trendData w in
  localStorage w' = localStorage w
  /\ length incomeData = 12%nat /\ length expenseData = 12%nat
  /\ (forall i, (i < 12)%nat ->
      let month :=
        List.filter (attributedb zone year (Z.of_nat i + 1))
          (getTransactions (localStorage w)) in
      incomeData !! i = Some (Js.orZero (Some (sumOfType "income" 0 month)))
      /\ expenseData !! i
         = Some (Js.orZero (Some (sumOfType "expense" 0 month)))).
Proof.
  cbv zeta. rewrite trendData_eq. cbv zeta.
  split; [reflexivity|].
  split; [now rewrite length_map, length_seq|].
  split; [now rewrite length_map, length_seq|].
  intros i Hi.
  destruct (series_entry_sums
              (YearFromTime (LocalTime (LocalTZA (env w))
                               (Date_now (env w) (tick w))))
              (LocalTZA (env w)) (localStorage w) (Z.of_nat i + 1)
              ltac:(lia)) as (entry & He & Hinc & Hexp).
  change (@map nat float) with (@fmap list _ nat float).
  rewrite !list_lookup_fmap, lookup_seq_lt by exact Hi. simpl.
  rewrite He. simpl. now rewrite Hinc, Hexp.
Qed.

(** *** Budget versus actual, row by row *)

Lemma filter_filter {A} (p q : A -> bool) (l : list A) :
  List.filter q (List.filter p l) = List.filter (fun x => p x && q x) l.
Proof.
  induction l as [|a l IH]; simpl; [reflexivity|].
  destruct (p a); simpl; [destruct (q a); now rewrite IH | exact IH].
Qed.

Lemma budgetRow_eq (w : World) (b : Budget) :
  budgetRow b w
  = (rowAt (LocalTZA (env w)) (Date_now (env w) (tick w)) (localStorage w) b,
     advance w).
Proof.
  unfold budgetRow, rowAt, bind, ret, read, now, tza.
  cbn [env advance localStorage fst snd].
  destruct (budgetWindow _ _ b) as [s e].
  unfold getTransactionsByCategory. now rewrite filter_filter.
Qed.

Lemma forEachBudget_eq (bgs : list Budget) (result : list BudgetVsActual)
    (w : World) :
  forEachBudget bgs result w
  = (result
     ++ imap (fun k b => rowAt (LocalTZA (env w))
                           (Date_now (env w) (tick w + k)) (localStorage w) b)
          bgs,
     mkWorld (env w) (tick w + length bgs) (localStorage w)).
Proof.
  revert result w. induction bgs as [|b bgs IH]; intros result w;
    cbn [forEachBudget].
  - unfold ret. cbn [imap length]. rewrite app_nil_r, Nat.add_0_r.
    now destruct w.
  - unfold bind. rewrite budgetRow_eq, IH. unfold advance.
    cbn [env tick localStorage length]. rewrite imap_cons, <- app_assoc.
    cbn [app]. rewrite Nat.add_0_r.
    rewrite (imap_ext
               ((fun k b0 => rowAt (LocalTZA (env w))
                               (Date_now (env w) (tick w + k))
                               (localStorage w) b0) ∘ S)
               (fun k b0 => rowAt (LocalTZA (env w))
                              (Date_now (env w) (S (tick w) + k))
                              (localStorage w) b0) bgs).
    + replace (tick w + S (length bgs))%nat
        with (S (tick w) + length bgs)%nat by lia.
      reflexivity.
    + intros k x _. unfold compose.
      now replace (S (tick w) + k)%nat with (tick w + S k)%nat by lia.
Qed.

(** [getBudgetVsActual] only reads the store and returns one row per
    stored budget, in stored order (two budgets of one category give two
    rows).  The row of the budget at position [k] is computed at the
    [k]-th reading of the clock: it carries the budget's category and
    amount, the sum of the stored expense transactions of that category
    inside the budget's window, and the amount minus that sum. *)
Theorem budget_rows_follow_budgets (w : World) :
  let zone := LocalTZA (env w) in
  let ls := localStorage w in
  let '(rows, w') := getBudgetVsActual w in
  localStorage w' = ls
  /\ length rows = length (getBudgets ls)
  /\ category <$> rows = bg_category <$> getBudgets ls
  /\ budgetAmount <$> rows = bg_amount <$> getBudgets ls
  /\ (forall k b, getBudgets ls !! k = Some b ->
      exists row, rows !! k = Some row
        /\ (let '(startDate, endDate) :=
              budgetWindow zone (Some (Date_now (env w) (tick w + k))) b in
            actualSpent row
            = sumAmounts
                (List.filter
                   (fun x => bool_decide (tx_category x = bg_category b)
                             && inWindow startDate endDate x)
                   (getTransactions ls)))
        /\ remaining row = PrimFloat.sub (bg_amount b) (actualSpent row)
        /\ percentage row
           = PrimFloat.mul (PrimFloat.div (actualSpent row) (bg_amount b)) 100).
Proof.
  cbv zeta. unfold getBudgetVsActual, bind, read.
  rewrite forEachBudget_eq. cbn [app localStorage].
  split; [reflexivity|]. split; [apply length_imap|].
  assert (Hfield : forall {B} (f : BudgetVsActual -> B) (g : Budget -> B),
             (forall t b, f (rowAt (LocalTZA (env w)) t (localStorage w) b) = g b) ->
             f <$> imap (fun k b => rowAt (LocalTZA (env w))
                                      (Date_now (env w) (tick w + k))
                                      (localStorage w) b)
                     (getBudgets (localStorage w))
             = g <$> getBudgets (localStorage w)).
  { intros B f g Hfg. apply list_eq. intros k.
    rewrite !list_lookup_fmap, list_lookup_imap.
    destruct (getBudgets (localStorage w) !! k); cbn [fmap option_fmap option_map];
      [|reflexivity].
    now rewrite Hfg. }
  split; [apply Hfield; intros t b; unfold rowAt;
          now destruct (budgetWindow _ _ b)|].
  split; [apply Hfield; intros t b; unfold rowAt;
          now destruct (budgetWindow _ _ b)|].
  intros k b Hk. eexists. rewrite list_lookup_imap, Hk.
  cbn [fmap option_fmap option_map].
  split; [reflexivity|]. unfold rowAt.
  destruct (budgetWindow _ _ b) as [s e].
  cbn [actualSpent remaining percentage]. repeat split.
Qed.

(** *** Ranges *)

Lemma DateString_eq (a b : DateString) :
  cal_le a b -> cal_le b a -> a = b.
Proof.
  destruct a, b. unfold cal_le. simpl. intros H1 H2.
  assert (ds_year0 = ds_year1 /\ ds_month0 = ds_month1 /\ ds_day0 = ds_day1)
    as (-> & -> & ->) by lia.
  reflexivity.
Qed.

Lemma inRange_legal (s e : DateString) (t : Transaction) :
  inRange (DateStr s) (DateStr e) t = true -> legal (tx_date t) = true.
Proof.
  unfold inRange, Date_parse. cbv zeta.
  destruct (legal (tx_date t)); [reflexivity|]. simpl. discriminate.
Qed.

(** A range whose start is after its end selects nothing, and a range
    of a single day selects exactly the stored transactions dated on
    that day. *)
Theorem degenerate_date_ranges (ls : LocalStorage) (s e : DateString) :
  legal s = true -> legal e = true ->
  (cal_lt e s -> getTransactionsByDateRange (DateStr s) (DateStr e) ls = [])
  /\ (forall t, legal (tx_date t) = true ->
        (In t (getTransactionsByDateRange (DateStr s) (DateStr s) ls)
         <-> In t (getTransactions ls) /\ tx_date t = s)).
Proof.
  intros Hs He. unfold getTransactionsByDateRange. split.
  - intros Hlt.
    destruct (List.filter _ _) as [|t l] eqn:E; [reflexivity|]. exfalso.
    assert (Hin : In t (t :: l)) by now left.
    rewrite <- E in Hin. apply filter_In in Hin as [_ Hr].
    pose proof (inRange_legal _ _ _ Hr) as Ht.
    unfold inRange in Hr. cbv zeta in Hr. simpl new_Date in Hr.
    apply andb_true_iff in Hr as [H1 H2].
    apply parse_ge_iff in H1; [|assumption..].
    apply parse_le_iff in H2; [|assumption..].
    rewrite <- !dayNumber_le in H1, H2 by assumption.
    pose proof (dayNumber_lt e s He Hs Hlt). lia.
  - intros t Ht. rewrite filter_In. split.
    + intros [Hin Hr]. split; [exact Hin|].
      unfold inRange in Hr. cbv zeta in Hr. simpl new_Date in Hr.
      apply andb_true_iff in Hr as [H1 H2].
      apply parse_ge_iff in H1; [|assumption..].
      apply parse_le_iff in H2; [|assumption..].
      now apply DateString_eq.
    + intros [Hin Hd]. split; [exact Hin|].
      unfold inRange. cbv zeta. simpl new_Date. rewrite Hd.
      apply andb_true_iff.
      rewrite parse_ge_iff, parse_le_iff by assumption.
      split; apply cal_le_refl.
Qed.

Lemma degenerate_date_ranges_witness :
  getTransactionsByDateRange (DateStr (mkDateString 2024 2 1))
    (DateStr (mkDateString 2024 1 5)) sampleStorage = []
  /\ In (tx "expense" 50 "Food" 2024 1 5)
       (getTransactionsByDateRange (DateStr (mkDateString 2024 1 5))
          (DateStr (mkDateString 2024 1 5)) sampleStorage).
Proof.
  split.
  - apply (proj1 (degenerate_date_ranges sampleStorage (mkDateString 2024 2 1)
                    (mkDateString 2024 1 5) eq_refl eq_refl)).
    right. left. simpl. lia.
  - apply (proj2 (degenerate_date_ranges sampleStorage (mkDateString 2024 1 5)
                    (mkDateString 2024 1 5) eq_refl eq_refl)
             (tx "expense" 50 "Food" 2024 1 5) eq_refl).
    split; [left|]; reflexivity.
Defined.

(** *** The periods of the charts *)

Lemma in_months_iff (y a b : Z) (d : DateString) :
  legal d = true -> 0 <= a -> a <= b -> b <= 11 ->
  (cal_le (firstOfMonth y a) d /\ cal_le d (lastOfMonth y b))
  <-> (ds_year d = y /\ a + 1 <= ds_month d <= b + 1).
Proof.
  intros Hd Ha Hab Hb. apply legal_fields in Hd as (_ & _ & Hday).
  unfold cal_le, firstOfMonth, lastOfMonth. simpl. split.
  - lia.
  - intros [<- Hm].
    destruct (Z.eq_dec (ds_month d) (b + 1)) as [E|E].
    + rewrite <- E. lia.
    + lia.
Qed.

Lemma Date_ymd_first (y m0 : Z) :
  100 <= y <= 9999 -> 0 <= m0 <= 11 ->
  Date_ymd 0 (Some y) (Some m0) 1 = Date_parse (firstOfMonth y m0).
Proof.
  intros Hy Hm. unfold Date_ymd. simpl.
  assert (Hq : (0 <=? y) && (y <=? 99) = false).
  { apply andb_false_iff. right. apply Z.leb_gt. lia. }
  rewrite Hq, MakeDay_first.
  rewrite TimeClip_day, Z.sub_0_r;
    [| apply dayNumber_bounds, legal_firstOfMonth; lia | unfold msPerDay; lia].
  symmetry. apply Date_parse_legal, legal_firstOfMonth; lia.
Qed.

Lemma Date_ymd_day0 (y m0 : Z) :
  100 <= y <= 9999 -> 0 <= m0 <= 11 ->
  Date_ymd 0 (Some y) (Some (1 + m0)) 0 = Date_parse (lastOfMonth y m0).
Proof.
  intros Hy Hm. unfold Date_ymd. simpl.
  assert (Hq : (0 <=? y) && (y <=? 99) = false).
  { apply andb_false_iff. right. apply Z.leb_gt. lia. }
  rewrite Hq, MakeDay_day0 by assumption.
  rewrite TimeClip_day, Z.sub_0_r;
    [| apply dayNumber_bounds, legal_lastOfMonth; lia | unfold msPerDay; lia].
  symmetry. apply Date_parse_legal, legal_lastOfMonth; lia.
Qed.

Lemma Date_ymd_dec31 (y : Z) :
  100 <= y <= 9999 ->
  Date_ymd 0 (Some y) (Some 11) 31 = Date_parse (lastOfMonth y 11).
Proof.
  intros Hy. unfold Date_ymd. simpl.
  assert (Hq : (0 <=? y) && (y <=? 99) = false).
  { apply andb_false_iff. right. apply Z.leb_gt. lia. }
  rewrite Hq.
  change (MakeDay y 11 31) with (dayNumber (lastOfMonth y 11)).
  rewrite TimeClip_day, Z.sub_0_r;
    [| apply dayNumber_bounds, legal_lastOfMonth; lia | unfold msPerDay; lia].
  symmetry. apply Date_parse_legal, legal_lastOfMonth; lia.
Qed.

Lemma inRange_months (y a b : Z) (x : Transaction) :
  0 <= y <= 9999 -> 0 <= a -> a <= b -> b <= 11 ->
  legal (tx_date x) = true ->
  inRange (DateObj (Date_parse (firstOfMonth y a)))
          (DateObj (Date_parse (lastOfMonth y b))) x = true
  <-> (ds_year (tx_date x) = y /\ a + 1 <= ds_month (tx_date x) <= b + 1).
Proof.
  intros Hy Ha Hab Hb Hx. unfold inRange. cbv zeta. simpl new_Date.
  rewrite andb_true_iff.
  rewrite parse_ge_iff, parse_le_iff
    by (assumption || apply legal_lastOfMonth || apply legal_firstOfMonth; lia).
  now apply in_months_iff.
Qed.

(** In UTC, the range [getPeriodDates] hands to the totals selects, among
    transactions with a legal date, exactly those dated in the current
    month for ['month'], in the current quarter for ['quarter'] and in the
    current year for ['year']; for any other period there is no range
    and the totals run over all transactions.  The clock is read once. *)
Theorem period_ranges_in_utc (w : World) (period : string) :
  LocalTZA (env w) = 0 ->
  let y := YearFromTime (Date_now (env w) (tick w)) in
  let m0 := MonthFromTime (Date_now (env w) (tick w)) in
  100 <= y <= 9999 ->
  let '((startDate, endDate), w') := ChartManager.getPeriodDates period w in
  w' = mkWorld (env w) (S (tick w)) (localStorage w)
  /\ (period = "month" ->
      exists s e, startDate = Some s /\ endDate = Some e
        /\ forall x, legal (tx_date x) = true ->
             (inRange s e x = true
              <-> ds_year (tx_date x) = y /\ ds_month (tx_date x) = m0 + 1))
  /\ (period = "quarter" ->
      exists s e, startDate = Some s /\ endDate = Some e
        /\ forall x, legal (tx_date x) = true ->
             (inRange s e x = true
              <-> ds_year (tx_date x) = y
                  /\ 3 * (m0 / 3) + 1 <= ds_month (tx_date x) <= 3 * (m0 / 3) + 3))
  /\ (period = "year" ->
      exists s e, startDate = Some s /\ endDate = Some e
        /\ forall x, legal (tx_date x) = true ->
             (inRange s e x = true <-> ds_year (tx_date x) = y))
  /\ (period <> "month" -> period <> "quarter" -> period <> "year" ->
      startDate = None /\ endDate = None
      /\ forall txs, restrict startDate endDate txs = txs).
Proof.
  intros Hz y m0 Hy.
  pose proof (MonthFromTime_range (Date_now (env w) (tick w))) as Hm.
  fold m0 in Hm.
  unfold ChartManager.getPeriodDates, bind, ret, now, tza, advance.
  cbn [env tick localStorage]. rewrite Hz.
  unfold getFullYear, getMonth, LocalTime. cbn [mbind option_bind fmap option_fmap option_map].
  rewrite Z.add_0_r. fold y m0.
  destruct (decide (period = "month")) as [Hp|Hp1].
  { split; [reflexivity|]. split; [|split; [|split]];
      try (intros ?; subst period; discriminate);
      try (intros ? ? ?; contradiction).
    intros _. eexists _, _. split; [reflexivity|]. split; [reflexivity|].
    intros x Hx. rewrite Date_ymd_first, Date_ymd_day0 by assumption.
    rewrite inRange_months by (assumption || lia). lia. }
  destruct (decide (period = "quarter")) as [Hp|Hp2].
  { split; [reflexivity|]. split; [|split; [|split]];
      try (intros ?; subst period; discriminate);
      try (intros ? ? ?; contradiction).
    intros _. eexists _, _. split; [reflexivity|]. split; [reflexivity|].
    intros x Hx.
    assert (Hq : 0 <= m0 / 3 <= 3) by (Z.div_mod_to_equations; lia).
    replace ((m0 / 3 + 1) * 3) with (1 + (m0 / 3 * 3 + 2)) by lia.
    rewrite Date_ymd_first, Date_ymd_day0 by (assumption || lia).
    rewrite inRange_months by (assumption || lia). lia. }
  destruct (decide (period = "year")) as [Hp|Hp3].
  { split; [reflexivity|]. split; [|split; [|split]];
      try (intros ?; subst period; discriminate);
      try (intros ? ? ?; contradiction).
    intros _. eexists _, _. split; [reflexivity|]. split; [reflexivity|].
    intros x Hx. rewrite Date_ymd_first, Date_ymd_dec31 by (assumption || lia).
    rewrite inRange_months by (assumption || lia).
    pose proof (legal_fields _ Hx). lia. }
  split; [reflexivity|]. repeat split; try contradiction.
Qed.

Lemma period_ranges_in_utc_witness :
  let W := mkWorld (quietEnv 0 1705300200000) 0 sampleStorage in
  let range := fst (fst (ChartManager.getPeriodDates "quarter" W)) in
  let range' := snd (fst (ChartManager.getPeriodDates "quarter" W)) in
  getTotalExpenses range range' (localStorage W) = 80%float
  /\ exists s e, range = Some s /\ range' = Some e
       /\ inRange s e (tx "expense" 30 "Food" 2024 2 1) = true.
Proof.
  intros W range range'. split; [reflexivity|].
  pose proof (period_ranges_in_utc W "quarter" eq_refl) as H.
  cbv zeta in H. specialize (H ltac:(vm_compute; split; discriminate)).
  subst range range'.
  destruct (ChartManager.getPeriodDates "quarter" W) as [[s0 e0] w'].
  destruct H as (_ & _ & (s & e & -> & -> & Hq) & _); [reflexivity|].
  exists s, e. split; [reflexivity|]. split; [reflexivity|].
  apply Hq; [reflexivity|]. vm_compute. repeat split; discriminate.
Defined.

(** *** The budget cards and the default report range *)

Lemma find_at {A} (p : A -> bool) (l : list A) (k : nat) (x : A) :
  l !! k = Some x -> p x = true ->
  (forall j y, (j < k)%nat -> l !! j = Some y -> p y = false) ->
  List.find p l = Some x.
Proof.
  revert k. induction l as [|a l IH]; intros [|k] Hk Hp Hmin; simpl in *;
    try discriminate.
  - injection Hk as ->. now rewrite Hp.
  - rewrite (Hmin O a ltac:(lia) eq_refl). apply (IH k); auto.
    intros j y Hj Hy. apply (Hmin (S j) y); [lia | exact Hy].
Qed.

Lemma loadBudgets_eq (w : World) :
  BudgetApp.loadBudgets w
  = (let bgs := getBudgets (localStorage w) in
     let rows :=
       imap (fun k b => rowAt (LocalTZA (env w))
                          (Date_now (env w) (tick w + k)) (localStorage w) b)
         bgs in
     if bool_decide (length bgs = O) then None
     else Some (map (fun row =>
                       (row,
                        List.find
                          (fun b => bool_decide (bg_category b = category row))
                          bgs))
                    rows),
     mkWorld (env w) (tick w + length (getBudgets (localStorage w)))
       (localStorage w)).
Proof.
  unfold BudgetApp.loadBudgets, getBudgetVsActual, bind, read.
  rewrite forEachBudget_eq. cbn [app localStorage]. cbv zeta.
  unfold ret. now destruct (bool_decide _).
Qed.

Lemma rowAt_category zone t ls b : category (rowAt zone t ls b) = bg_category b.
Proof. unfold rowAt. now destruct (budgetWindow _ _ b). Qed.

(** The card [loadBudgets] draws for the budget at position [k] shows
    that budget's row, but takes its period and the id of its Edit and
    Delete buttons from the first stored budget of the same category:
    the budget itself when no earlier budget shares its category, an
    earlier one otherwise.  With no budgets only the placeholder is
    shown. *)
Theorem budget_cards_use_first_budget_of_category (w : World) :
  let ls := localStorage w in
  let '(cards, w') := BudgetApp.loadBudgets w in
  localStorage w' = ls
  /\ (getBudgets ls = [] -> cards = None)
  /\ (getBudgets ls <> [] ->
      exists l, cards = Some l
        /\ length l = length (getBudgets ls)
        /\ forall k b, getBudgets ls !! k = Some b ->
           exists row b0,
             l !! k = Some (row, Some b0)
             /\ category row = bg_category b
             /\ getBudgetByCategory (bg_category b) ls = Some b0
             /\ bg_category b0 = bg_category b
             /\ ((forall j y, (j < k)%nat -> getBudgets ls !! j = Some y ->
                              bg_category y <> bg_category b) ->
                 b0 = b)).
Proof.
  cbv zeta. rewrite loadBudgets_eq. cbv zeta.
  split; [reflexivity|]. split.
  - intros ->. reflexivity.
  - intros Hne.
    rewrite bool_decide_eq_false_2
      by (destruct (getBudgets (localStorage w)); [contradiction | discriminate]).
    eexists. split; [reflexivity|].
    split; [now rewrite length_map, length_imap|].
    intros k b Hk.
    assert (Hin : In b (getBudgets (localStorage w))).
    { apply list_elem_of_In. eapply list_elem_of_lookup_2. exact Hk. }
    destruct (List.find
                (fun b' => bool_decide (bg_category b' = bg_category b))
                (getBudgets (localStorage w))) as [b0|] eqn:Hfind.
    2:{ exfalso. rewrite find_None_iff in Hfind.
        specialize (Hfind b Hin). now apply bool_decide_eq_false in Hfind. }
    eexists _, b0.
    change (@map BudgetVsActual) with (@fmap list _ BudgetVsActual).
    rewrite list_lookup_fmap, list_lookup_imap, Hk.
    cbn [fmap option_fmap option_map]. rewrite !rowAt_category, Hfind.
    split; [reflexivity|]. split; [reflexivity|]. split; [exact Hfind|].
    split.
    + apply find_some in Hfind as [_ Hc]. now apply bool_decide_eq_true in Hc.
    + intros Hfirst.
      assert (Hb : List.find
                     (fun b' => bool_decide (bg_category b' = bg_category b))
                     (getBudgets (localStorage w)) = Some b).
      { apply (find_at _ _ k); [exact Hk | now apply bool_decide_eq_true |].
        intros j y Hj Hy. apply bool_decide_eq_false. now apply (Hfirst j). }
      congruence.
Qed.

Lemma budget_cards_use_first_budget_of_category_witness :
  let W := storedWorld 0 [] [yearlyFood; monthlyFood] in
  exists l row,
    fst (BudgetApp.loadBudgets W) = Some l
    /\ l !! 1%nat = Some (row, Some yearlyFood)
    /\ budgetAmount row = bg_amount monthlyFood.
Proof.
  intros W.
  pose proof (budget_cards_use_first_budget_of_category W) as H.
  cbv zeta in H.
  destruct (BudgetApp.loadBudgets W) as [cards w'] eqn:E.
  destruct H as (_ & _ & H).
  destruct (H ltac:(discriminate)) as (l & -> & _ & Hl).
  destruct (Hl 1%nat monthlyFood eq_refl) as (row & b0 & Hrow & _ & Hb0 & _).
  exists l, row. split; [reflexivity|].
  injection Hb0 as <-. split; [exact Hrow|].
  rewrite loadBudgets_eq in E. injection E as <- _.
  vm_compute in Hrow. injection Hrow as <-. reflexivity.
Defined.

Lemma MakeDay_prev (y m0 : Z) : MakeDay y m0 0 = MakeDay y m0 1 - 1.
Proof. unfold MakeDay. cbv zeta. lia. Qed.

Lemma dayNumber_dayBeforeMonth (y m0 : Z) :
  0 <= m0 <= 11 ->
  dayNumber (dayBeforeMonth y m0) = dayNumber (firstOfMonth y m0) - 1.
Proof.
  intros Hm. rewrite <- MakeDay_first, <- MakeDay_prev. unfold dayBeforeMonth.
  destruct (Z.eqb_spec m0 0) as [->|Hne].
  - rewrite <- MakeDay_day0 by lia. unfold MakeDay. cbv zeta.
    change ((1 + 11) / 12) with 1. change ((1 + 11) mod 12) with 0.
    change (0 / 12) with 0. change (0 mod 12) with 0.
    replace (y - 1 + 1) with y by lia. now rewrite !Z.add_0_r.
  - rewrite <- MakeDay_day0 by lia. now replace (1 + (m0 - 1)) with m0 by lia.
Qed.

Lemma legal_dayBeforeMonth (y m0 : Z) :
  1 <= y <= 9999 -> 0 <= m0 <= 11 -> legal (dayBeforeMonth y m0) = true.
Proof.
  intros Hy Hm. unfold dayBeforeMonth.
  destruct (m0 =? 0) eqn:E; apply legal_lastOfMonth; lia.
Qed.

Lemma formatDateForInput_of_day (s : DateString) (off : Z) :
  legal s = true -> 0 <= off < msPerDay ->
  BudgetApp.formatDateForInput (dayNumber s * msPerDay + off) = s.
Proof.
  intros Hs Hoff.
  destruct (fields_of_time s off Hs Hoff) as (Hy & Hm & Hd & _).
  unfold BudgetApp.formatDateForInput. rewrite Hy, Hm, Hd.
  destruct s. simpl. f_equal. lia.
Qed.

(** The default range of the report.  Its end is the UTC date of the
    current instant.  Its start is built from local midnight of the first
    day of the current local month and then printed in UTC: in UTC that is
    the first of the month, but in every zone east of UTC it is the day
    before, the last day of the previous month. *)
Theorem report_default_start_date (w : World) :
  let zone := LocalTZA (env w) in
  let t := Date_now (env w) (tick w) in
  let y := YearFromTime (LocalTime zone t) in
  let m0 := MonthFromTime (LocalTime zone t) in
  100 <= y <= 9999 -> 0 <= zone < msPerDay ->
  let '((startDate, endDate), w') := BudgetApp.loadReports w in
  endDate = BudgetApp.formatDateForInput t
  /\ localStorage w' = localStorage w
  /\ (zone = 0 -> startDate = Some (firstOfMonth y m0))
  /\ (0 < zone -> startDate = Some (dayBeforeMonth y m0)).
Proof.
  intros zone t y m0 Hy Hz.
  pose proof (MonthFromTime_range (LocalTime zone t)) as Hm. fold m0 in Hm.
  unfold BudgetApp.loadReports, bind, ret, now, tza, advance.
  cbn [env tick localStorage]. fold zone t.
  split; [reflexivity|]. split; [reflexivity|].
  assert (Hfirst : Date_ymd zone (getFullYear zone (Some t))
                     (getMonth zone (Some t)) 1
                   = Some (dayNumber (firstOfMonth y m0) * msPerDay - zone)).
  { unfold Date_ymd, getFullYear, getMonth.
    cbn [mbind option_bind]. fold y m0.
    assert (Hq : (0 <=? y) && (y <=? 99) = false).
    { apply andb_false_iff. right. apply Z.leb_gt. lia. }
    rewrite Hq, MakeDay_first. apply TimeClip_day.
    - apply dayNumber_bounds, legal_firstOfMonth; lia.
    - lia. }
  rewrite Hfirst. cbn [fmap option_fmap option_map]. split.
  - intros Hz0. rewrite Hz0, Z.sub_0_r. f_equal.
    rewrite <- (Z.add_0_r (_ * _)).
    apply formatDateForInput_of_day; [|unfold msPerDay; lia].
    apply legal_firstOfMonth; lia.
  - intros Hpos. f_equal.
    replace (dayNumber (firstOfMonth y m0) * msPerDay - zone)
      with (dayNumber (dayBeforeMonth y m0) * msPerDay + (msPerDay - zone))
      by (rewrite dayNumber_dayBeforeMonth by assumption; lia).
    apply formatDateForInput_of_day; [|lia].
    apply legal_dayBeforeMonth; lia.
Qed.

Lemma report_default_start_date_witness :
  let utc := mkWorld (quietEnv 0 1705300200000) 0 sampleStorage in
  let india := mkWorld (quietEnv 19800000 1705300200000) 0 sampleStorage in
  fst (fst (BudgetApp.loadReports utc)) = Some (mkDateString 2024 1 1)
  /\ fst (fst (BudgetApp.loadReports india)) = Some (mkDateString 2023 12 31).
Proof.
  intros utc india. split.
  - pose proof (report_default_start_date utc) as H. cbv zeta in H.
    specialize (H ltac:(vm_compute; split; discriminate)
                  ltac:(vm_compute; split; [discriminate|reflexivity])).
    destruct (BudgetApp.loadReports utc) as [[s e] w'].
    destruct H as (_ & _ & H & _). cbn [fst]. rewrite (H eq_refl).
    vm_compute. reflexivity.
  - pose proof (report_default_start_date india) as H. cbv zeta in H.
    specialize (H ltac:(vm_compute; split; discriminate)
                  ltac:(vm_compute; split; [discriminate|reflexivity])).
    destruct (BudgetApp.loadReports india) as [[s e] w'].
    destruct H as (_ & _ & _ & H). cbn [fst]. rewrite (H eq_refl).
    vm_compute. reflexivity.
Defined.

Lemma lookup_by_id_finds_first_witness :
  getTransactionById "b2" (mkLocalStorage (Some [lunch; dinner; dinner]) None None)
  = Some dinner
  /\ getTransactionById "zz" (mkLocalStorage (Some [lunch; dinner]) None None)
     = None.
Proof.
  split; [reflexivity|].
  apply (proj1 (lookup_by_id_finds_first
                  (mkLocalStorage (Some [lunch; dinner]) None None) "zz")).
  intros t [<-|[<-|[]]]; discriminate.
Defined.

Lemma delete_then_lookup_witness :
  let W := storedWorld 0 [lunch; dinner] [yearlyFood] in
  let w' := snd (deleteTransaction "a1" W) in
  getTransactionById "a1" (localStorage w') = None
  /\ getTransactionById "b2" (localStorage w') = Some dinner
  /\ getBudgets (localStorage w') = [yearlyFood].
Proof.
  intros W w'.
  pose proof (proj1 (delete_then_lookup W "a1")) as H. hnf in H.
  destruct H as (Hgone & Hkeep & Hb & _).
  split; [exact (Hgone eq_refl)|]. split; [|exact Hb].
  exact (Hkeep "b2" ltac:(discriminate)).
Defined.

Lemma save_appends_only_new_ids_witness :
  let W := storedWorld 0 [lunch] [] in
  getTransactions (localStorage (snd (saveTransaction dinner W)))
  = [lunch; snd (fst (saveTransaction dinner W))]
  /\ length (getTransactions (localStorage (snd (saveTransaction lunch W))))
     = 1%nat.
Proof.
  intros W. split.
  - pose proof (proj1 (proj2 (save_appends_only_new_ids W)) dinner) as H.
    hnf in H. destruct H as (_ & _ & _ & H).
    apply (H eq_refl). intros t [<-|[]]. discriminate.
  - pose proof (proj1 (proj2 (save_appends_only_new_ids W)) lunch) as H.
    hnf in H. destruct H as (_ & _ & H & _).
    apply (H eq_refl). exists lunch. split; [left|]; reflexivity.
Defined.
